(** * Excel-Validator: type inference, cell validation and duplicate detection

    A shallow embedding of [backend/app/services/excel_service.py] and the
    statements of its specification that concern the in-memory engine:
    the type classifier ([detect_column_type]), the cell validator
    ([_is_valid]), the duplicate detector ([identify_duplicates]), the
    validation pipeline ([validate_rows]) and the session operations
    [revalidate] and [remove_rows]; then the loader
    ([read_excel_into_rows], [parse_sheet], [process_uploaded_file]), the
    session store and the request handlers of [backend/app/main.py], with
    further properties of the whole.

    Modelling conventions.
    - A Python [str] is a [string]; its characters are the code points
      U+0000..U+00FF, one per [ascii].  [str.strip], [str.lower] and
      [str.isdigit] are written out for that range as CPython defines them.
    - A Python [int] is a [Z]; a Python [float] is a [spec_float]
      (sign, mantissa, exponent, with zeros, infinities and NaN).
    - A cell value is one of [None], [bool], [int], [float], [str] and
      [pandas.Timestamp], the value domain of the specification.
    - Python's [==] on cell values is [py_eqb]: numbers compare by exact
      value across [bool], [int] and [float], NaN equals nothing.
    - A [dict] that is only read by key is a [gmap]; a [dict] whose
      iteration order is observable is an insertion-ordered association
      list ([odict]).  Mutation in place (of a session, of a column
      object, of a row) is explicit state passing: an operation returns
      the objects it changed.  Where a statement is about running an
      operation again on the same objects, the objects live in a heap
      and the operation is a computation on it.
    - Library calls whose behaviour is not defined by this repository
      ([float(str)], [pandas.to_datetime], [repr] of a float, [str] and
      [isoformat] of a timestamp, [pandas.read_excel] and the sheet names
      of a workbook) are section variables. *)

From Stdlib Require Import ZArith QArith Qpower String Ascii List Lia.
From Stdlib Require Import Floats.SpecFloat DecimalString.
From stdpp Require Import gmap strings list.

Local Open Scope Z_scope.

(** ** Python strings *)

Module PyStr.

Definition code (c : ascii) : N := N_of_ascii c.

(** [str.isspace] on one character (Unicode White_Space or bidirectional
    class WS, B or S), restricted to U+0000..U+00FF. *)
Definition isspace (c : ascii) : bool :=
  let n := code c in
  (((9 <=? n) && (n <=? 13)) || ((28 <=? n) && (n <=? 32))
   || (n =? 133) || (n =? 160))%N.

(** [str.isdigit] on one character: the decimal digits and the
    superscript digits U+00B2, U+00B3 and U+00B9. *)
Definition isdigit_char (c : ascii) : bool :=
  let n := code c in
  (((48 <=? n) && (n <=? 57)) || (n =? 178) || (n =? 179) || (n =? 185))%N.

(** [str.lower] on one character. *)
Definition lower_char (c : ascii) : ascii :=
  let n := code c in
  if (((65 <=? n) && (n <=? 90))
      || ((192 <=? n) && (n <=? 214))
      || ((216 <=? n) && (n <=? 222)))%N
  then ascii_of_N (n + 32) else c.

Fixpoint lower (s : string) : string :=
  match s with
  | EmptyString => EmptyString
  | String c s' => String (lower_char c) (lower s')
  end.

Fixpoint lstrip (s : string) : string :=
  match s with
  | EmptyString => EmptyString
  | String c s' => if isspace c then lstrip s' else s
  end.

Definition is_empty (s : string) : bool :=
  match s with EmptyString => true | String _ _ => false end.

Fixpoint rstrip (s : string) : string :=
  match s with
  | EmptyString => EmptyString
  | String c s' =>
      let r := rstrip s' in
      if isspace c && is_empty r then EmptyString else String c r
  end.

Definition strip (s : string) : string := rstrip (lstrip s).

Fixpoint all_digits (s : string) : bool :=
  match s with
  | EmptyString => true
  | String c s' => isdigit_char c && all_digits s'
  end.

(** [str.isdigit]: at least one character and all of them digits. *)
Definition isdigit (s : string) : bool := negb (is_empty s) && all_digits s.

(** [str(n)] for an integer. *)
Definition of_int (n : Z) : string := NilZero.string_of_int (Z.to_int n).

End PyStr.

(** ** Cell values *)

(** The values a cell can hold: [None], [bool], [int], [float], [str] and
    [pandas.Timestamp] (an instant, counted in nanoseconds). *)
Inductive value : Type :=
  | VNone
  | VBool (b : bool)
  | VInt (n : Z)
  | VFloat (f : spec_float)
  | VStr (s : string)
  | VTimestamp (t : Z).

(** The number a value denotes when Python compares it numerically. *)
Inductive num : Type :=
  | NumNaN
  | NumInf (neg : bool)
  | NumFin (q : Q).

Definition float_num (f : spec_float) : num :=
  match f with
  | S754_zero _ => NumFin 0%Q
  | S754_infinity s => NumInf s
  | S754_nan => NumNaN
  | S754_finite s m e =>
      NumFin ((if s then inject_Z (Z.neg m) else inject_Z (Z.pos m)) * Qpower (2 # 1) e)%Q
  end.

Definition num_of (v : value) : option num :=
  match v with
  | VBool b => Some (NumFin (if b then 1%Q else 0%Q))
  | VInt n => Some (NumFin (inject_Z n))
  | VFloat f => Some (float_num f)
  | _ => None
  end.

Definition num_eqb (a b : num) : bool :=
  match a, b with
  | NumInf s, NumInf s' => Bool.eqb s s'
  | NumFin p, NumFin q => Qeq_bool p q
  | _, _ => false
  end.

(** Python's [==] between two cell values. *)
Definition py_eqb (v w : value) : bool :=
  match v, w with
  | VNone, VNone => true
  | VStr s, VStr t => String.eqb s t
  | VTimestamp a, VTimestamp b => a =? b
  | _, _ =>
      match num_of v, num_of w with
      | Some a, Some b => num_eqb a b
      | _, _ => false
      end
  end.

(** [math.isnan] and [float.is_integer]. *)
Definition isnan (f : spec_float) : bool :=
  match f with S754_nan => true | _ => false end.

Definition is_integer (f : spec_float) : bool :=
  match f with
  | S754_zero _ => true
  | S754_finite _ m e =>
      if 0 <=? e then true else (Z.pos m mod 2 ^ (- e) =? 0)
  | _ => false
  end.

Definition TYPE_PRIORITY : list string :=
  ["integer"; "float"; "boolean"; "date"; "string"]%string.

(** [ALLOWED_TYPES = set(TYPE_PRIORITY)]; only membership is ever used. *)
Definition in_ALLOWED_TYPES (t : string) : bool :=
  bool_decide (t ∈ TYPE_PRIORITY).

Definition _is_null (v : value) : bool :=
  match v with
  | VNone => true
  | VStr s => PyStr.is_empty (PyStr.strip s)
  | VFloat f => isnan f
  | _ => false
  end.

Definition _looks_like_int (v : value) : bool :=
  match v with
  | VBool _ => false
  | VInt _ => true
  | VFloat f => is_integer f
  | VStr s =>
      let s := PyStr.strip s in
      match s with
      | String "-"%char rest => PyStr.isdigit rest
      | _ => PyStr.isdigit s
      end
  | _ => false
  end.

Definition bool_words : list string :=
  ["true"; "false"; "yes"; "no"; "0"; "1"]%string.

(** [value in {0, 1}] for a number. *)
Definition in_zero_one (v : value) : bool :=
  py_eqb v (VInt 0) || py_eqb v (VInt 1).

Definition _looks_like_bool (v : value) : bool :=
  match v with
  | VBool _ => true
  | VStr s => bool_decide (PyStr.lower (PyStr.strip s) ∈ bool_words)
  | VInt _ | VFloat _ => in_zero_one v
  | _ => false
  end.

Definition _coerce_duplicate_value (v : value) : value :=
  match v with
  | VStr s => VStr (PyStr.lower (PyStr.strip s))
  | VFloat f => if isnan f then VNone else v
  | _ => v
  end.

Definition _normalize_type (v : option string) : option string :=
  match v with
  | None => None
  | Some s =>
      let normalized := PyStr.lower s in
      if in_ALLOWED_TYPES normalized then Some normalized else None
  end.

(** ** Python idioms *)

(** Truthiness of an [Optional[str]]: [None] and the empty string are falsy. *)
Definition truthy (o : option string) : bool :=
  match o with
  | Some s => negb (PyStr.is_empty s)
  | None => false
  end.

(** [a or b] on [Optional[str]]. *)
Definition py_or (a b : option string) : option string :=
  if truthy a then a else b.

(** [a or "literal"]: the right operand is a string, so is the result
    whenever [a] is falsy. *)
Definition py_or_str (a : option string) (b : string) : string :=
  match a with
  | Some s => if PyStr.is_empty s then b else s
  | None => b
  end.

(** [list.index]: position of the first occurrence ([None] stands for the
    [ValueError] raised when there is none). *)
Fixpoint py_index (l : list string) (x : string) : option nat :=
  match l with
  | [] => None
  | y :: l' => if String.eqb y x then Some 0%nat else S <$> py_index l' x
  end.

(** Lexicographic [<] on the pairs used as sort keys. *)
Definition pair_ltb (a b : Z * Z) : bool :=
  (a.1 <? b.1) || ((a.1 =? b.1) && (a.2 <? b.2)).

(** [max(iterable, key=...)]: the first element whose key is maximal
    ([None] stands for the [ValueError] on an empty iterable). *)
Fixpoint max_from {A : Type} (key : A → Z * Z) (best : A) (l : list A) : A :=
  match l with
  | [] => best
  | x :: l' => max_from key (if pair_ltb (key best) (key x) then x else best) l'
  end.

Definition py_max {A : Type} (key : A → Z * Z) (l : list A) : option A :=
  match l with
  | [] => None
  | x :: l' => Some (max_from key x l')
  end.

(** *** Insertion-ordered dictionaries with string keys *)

Definition odict (V : Type) : Type := list (string * V).

Fixpoint odict_get {V : Type} (d : odict V) (k : string) : option V :=
  match d with
  | [] => None
  | (k', v) :: d' => if String.eqb k' k then Some v else odict_get d' k
  end.

(** [d[k] = v]: an existing key keeps its position. *)
Fixpoint odict_set {V : Type} (d : odict V) (k : string) (v : V) : odict V :=
  match d with
  | [] => [(k, v)]
  | (k', v') :: d' =>
      if String.eqb k' k then (k', v) :: d' else (k', v') :: odict_set d' k v
  end.

Definition odict_keys {V : Type} (d : odict V) : list string := d.*1.

(** ** Data model *)

Record Row : Type := mkRow {
  rowId : Z;
  values : gmap string value
}.

Definition set_rowId (idx : Z) (row : Row) : Row :=
  {| rowId := idx; values := values row |}.

(** [row["values"].get(column)] *)
Definition cell (row : Row) (column : string) : value :=
  default VNone (values row !! column).

Record CellError : Type := mkCellError {
  err_rowId : Z;
  err_column : string;
  err_expectedType : string;
  err_actualValue : value;
  err_message : string
}.

Record ColumnInfo : Type := mkColumnInfo {
  name : string;
  detectedType : option string;
  overrideType : option string;
  nullable : bool
}.

Definition set_overrideType (t : option string) (column : ColumnInfo) : ColumnInfo :=
  {| name := name column; detectedType := detectedType column;
     overrideType := t; nullable := nullable column |}.

Record SessionData : Type := mkSessionData {
  rows : list Row;
  columns : list string;
  detected_types : odict string;
  column_info : list ColumnInfo;
  errors : list CellError;
  duplicate_groups : list (list Z);
  original_filename : string;
  overrides : gmap string (option string);
  workbook_bytes : string;
  sheet_name : string;
  sheet_names : list string
}.

Record Payload : Type := mkPayload {
  p_columns : list ColumnInfo;
  p_rows : list Row;
  p_errors : list CellError;
  p_duplicateGroups : list (list Z);
  p_sheetName : string;
  p_sheetNames : list string
}.

(** ** Duplicate detection *)

(** Equality of two tuples of cell values. *)
Fixpoint key_eqb (k1 k2 : list value) : bool :=
  match k1, k2 with
  | [], [] => true
  | v :: k1', w :: k2' => py_eqb v w && key_eqb k1' k2'
  | _, _ => false
  end.

Definition row_key (columns : list string) (row : Row) : list value :=
  (λ column, _coerce_duplicate_value (cell row column)) <$> columns.

(** [seen.setdefault(key, []).append(row_id)] on a dictionary keyed by
    tuples, kept in insertion order. *)
Fixpoint setdefault_append (seen : list (list value * list Z))
    (key : list value) (row_id : Z) : list (list value * list Z) :=
  match seen with
  | [] => [(key, [row_id])]
  | (k, group) :: seen' =>
      if key_eqb k key then (k, group ++ [row_id]) :: seen'
      else (k, group) :: setdefault_append seen' key row_id
  end.

Definition seen_after (columns : list string) (rows : list Row)
  : list (list value * list Z) :=
  fold_left (λ seen row, setdefault_append seen (row_key columns row) (rowId row))
    rows [].

Definition identify_duplicates (rows : list Row) (columns : list string)
  : list (list Z) :=
  filter (λ group, (1 < length group)%nat) (seen_after columns rows).*2.

(** ** Row removal *)

Definition remove_rows (session : SessionData) (row_ids : list Z)
  : SessionData * list Row :=
  let removal_set : gset Z := list_to_set row_ids in
  let filtered_rows := filter (λ row, rowId row ∉ removal_set) (rows session) in
  let filtered_rows := imap (λ idx row, set_rowId (Z.of_nat idx) row) filtered_rows in
  ({| rows := filtered_rows;
      columns := columns session;
      detected_types := detected_types session;
      column_info := column_info session;
      errors := errors session;
      duplicate_groups := duplicate_groups session;
      original_filename := original_filename session;
      overrides := overrides session;
      workbook_bytes := workbook_bytes session;
      sheet_name := sheet_name session;
      sheet_names := sheet_names session |},
   filtered_rows).

(** ** The engine, over the library calls it relies on *)

Section Engine.

(** [float(s)] returns rather than raising [ValueError]. *)
Variable float_parses : string → bool.
(** [pandas.to_datetime(s, errors="coerce")] is neither [NaT] nor NA. *)
Variable to_datetime_ok : string → bool.
(** [str(x)] for a float and for a timestamp. *)
Variable repr_float : spec_float → string.
Variable str_timestamp : Z → string.

Definition _looks_like_float (v : value) : bool :=
  match v with
  | VBool _ => false
  | VInt _ | VFloat _ => true
  | VStr s => float_parses s
  | _ => false
  end.

Definition _looks_like_date (v : value) : bool :=
  match v with
  | VTimestamp _ => true
  | VStr s =>
      if PyStr.is_empty (PyStr.strip s) then false else to_datetime_ok s
  | _ => false
  end.

Definition _is_valid (v : value) (expected_type : string) : bool :=
  let expected_type :=
    if in_ALLOWED_TYPES expected_type then expected_type else "string"%string in
  if _is_null v then true
  else if String.eqb expected_type "string" then true
  else if String.eqb expected_type "integer" then _looks_like_int v
  else if String.eqb expected_type "float" then _looks_like_float v
  else if String.eqb expected_type "boolean" then _looks_like_bool v
  else if String.eqb expected_type "date" then _looks_like_date v
  else true.

(** *** Type classifier *)

(** [scores[type_name] += 1]; the dictionary holds the five tags
    throughout, [!!!] is the subscript on them. *)
Definition bump (type_name : string) (scores : gmap string Z) : gmap string Z :=
  <[type_name := scores !!! type_name + 1]> scores.

(** One iteration of the loop over the column's values. *)
Definition score_value (scores : gmap string Z) (v : value) : gmap string Z :=
  if _is_null v then scores
  else if _looks_like_int v then bump "integer" scores
  else if _looks_like_float v then bump "float" scores
  else if _looks_like_bool v then bump "boolean" scores
  else if _looks_like_date v then bump "date" scores
  else bump "string" scores.

Definition initial_scores : gmap string Z :=
  list_to_map ((λ type_name, (type_name, 0)) <$> TYPE_PRIORITY).

Definition column_scores (vs : list value) : gmap string Z :=
  fold_left score_value vs initial_scores.

Definition priority_key (scores : gmap string Z) (type_name : string) : Z * Z :=
  (scores !!! type_name,
   - Z.of_nat (default 0%nat (py_index TYPE_PRIORITY type_name))).

Definition detect_column_type (vs : list value) : string :=
  let scores := column_scores vs in
  match py_max (priority_key scores) TYPE_PRIORITY with
  | Some best_type =>
      if scores !!! best_type =? 0 then "string"%string else best_type
  | None => "string"%string
  end.

Definition detect_types (rows : list Row) (columns : list string) : odict string :=
  fold_left
    (λ detected column,
       odict_set detected column (detect_column_type (flip cell column <$> rows)))
    columns [].

(** *** Validation pipeline *)

(** [str(value)], as the f-string of the message formats it. *)
Definition py_str (v : value) : string :=
  match v with
  | VNone => "None"
  | VBool true => "True"
  | VBool false => "False"
  | VInt n => PyStr.of_int n
  | VFloat f => repr_float f
  | VStr s => s
  | VTimestamp t => str_timestamp t
  end%string.

Definition error_message (expected_type : string) (v : value) : string :=
  ("Expected " ++ expected_type ++ ", received '" ++ py_str v ++ "'")%string.

Definition cell_error (row : Row) (column expected_type : string) (v : value)
  : CellError :=
  {| err_rowId := rowId row;
     err_column := column;
     err_expectedType := expected_type;
     err_actualValue := v;
     err_message := error_message expected_type v |}.

(** Body of the inner loop: one cell against its column's expected type. *)
Definition validate_cell (row : Row) (errors : list CellError)
    (item : string * string) : list CellError :=
  let '(column, expected_type) := item in
  let v := cell row column in
  if negb (_is_valid v expected_type)
  then errors ++ [cell_error row column expected_type v]
  else errors.

Definition validate_rows (rows : list Row) (expected_types : odict string)
  : list CellError * list (list Z) :=
  let errors :=
    fold_left (λ errors row, fold_left (validate_cell row) expected_types errors)
      rows [] in
  let duplicate_groups := identify_duplicates rows (odict_keys expected_types) in
  (errors, duplicate_groups).

(** *** Revalidation *)

Definition odict_get_default (d : odict string) (k dflt : string) : string :=
  default dflt (odict_get d k).

(** The session's column metadata once the request's column list, when
    there is one, has replaced it. *)
Definition replace_columns (session : SessionData)
    (column_info_payload : option (list ColumnInfo))
  : list ColumnInfo * list string :=
  match column_info_payload with
  | Some ((_ :: _) as payload) =>
      let column_info :=
        (λ column,
           {| name := name column;
              detectedType :=
                py_or (detectedType column)
                  (Some (odict_get_default (detected_types session)
                           (name column) "string"));
              overrideType := overrideType column;
              nullable := nullable column |}) <$> payload in
      (column_info, name <$> column_info)
  | _ => (column_info session, columns session)
  end.

Definition coerce_overrides (columns : list string)
    (overrides : gmap string (option string)) : gmap string (option string) :=
  _normalize_type <$> filter (λ item, item.1 ∈ columns) overrides.

(** Body of the loop over [session.column_info]: the column object after
    the iteration and the expected type recorded for it. *)
Definition revalidate_column (coerced_overrides : gmap string (option string))
    (detected_types : odict string) (column : ColumnInfo) : ColumnInfo * string :=
  let column_name := name column in
  let override_type :=
    py_or (default None (coerced_overrides !! column_name)) (overrideType column) in
  let column :=
    if truthy override_type then set_overrideType override_type column
    else column in
  let detected_type :=
    py_or (detectedType column)
      (Some (odict_get_default detected_types column_name "string")) in
  (column, py_or_str (py_or override_type detected_type) "string").

Definition revalidate_step (coerced_overrides : gmap string (option string))
    (detected_types : odict string)
    (acc : list ColumnInfo * odict string) (column : ColumnInfo)
  : list ColumnInfo * odict string :=
  let '(column', expected) :=
    revalidate_column coerced_overrides detected_types column in
  (acc.1 ++ [column'], odict_set acc.2 (name column) expected).

Definition revalidate (session : SessionData) (rows : list Row)
    (overrides : gmap string (option string))
    (column_info_payload : option (list ColumnInfo))
  : SessionData * Payload :=
  let '(column_info0, columns0) := replace_columns session column_info_payload in
  let coerced_overrides := coerce_overrides columns0 overrides in
  let '(column_info1, expected_types) :=
    fold_left (revalidate_step coerced_overrides (detected_types session))
      column_info0 ([], []) in
  let '(errors, duplicate_groups) := validate_rows rows expected_types in
  ({| rows := rows;
      columns := columns0;
      detected_types := expected_types;
      column_info := column_info1;
      errors := errors;
      duplicate_groups := duplicate_groups;
      original_filename := original_filename session;
      overrides := coerced_overrides;
      workbook_bytes := workbook_bytes session;
      sheet_name := sheet_name session;
      sheet_names := sheet_names session |},
   {| p_columns := column_info1;
      p_rows := rows;
      p_errors := errors;
      p_duplicateGroups := duplicate_groups;
      p_sheetName := sheet_name session;
      p_sheetNames := sheet_names session |}).

End Engine.

(** ** The pipeline on mutable arguments

    The arguments of the pipeline are mutable objects: the list of rows,
    the row dictionaries it holds and the dictionary of expected types.
    Here they live in a heap and the pipeline is a computation on it, so
    that what a run reads, what it writes and what a later run finds is
    explicit.  The lists and dictionaries a run builds ([errors], [seen],
    the groups) are local to it and are values of the computation. *)

Definition loc : Type := nat.

(** A row dictionary is kept with its ["values"] dictionary. *)
Inductive object : Type :=
| ListObject (items : list loc)
| RowObject (row : Row)
| TypesObject (types : odict string).

Definition heap : Type := gmap loc object.

(** A computation: the heap it leaves and its result; [None] stands for
    an exception ([KeyError], [TypeError]). *)
Definition Py (A : Type) : Type := heap → option (heap * A).

Definition py_ret {A : Type} (a : A) : Py A := λ h, Some (h, a).

Definition py_bind {A B : Type} (m : Py A) (f : A → Py B) : Py B :=
  λ h, match m h with
       | Some (h', a) => f a h'
       | None => None
       end.

Definition load_list (l : loc) : Py (list loc) :=
  λ h, match h !! l with
       | Some (ListObject items) => Some (h, items)
       | _ => None
       end.

Definition load_row (l : loc) : Py Row :=
  λ h, match h !! l with
       | Some (RowObject row) => Some (h, row)
       | _ => None
       end.

Definition load_types (l : loc) : Py (odict string) :=
  λ h, match h !! l with
       | Some (TypesObject types) => Some (h, types)
       | _ => None
       end.

(** [row["rowId"] = row_id] *)
Definition store_rowId (l : loc) (row_id : Z) : Py unit :=
  λ h, match h !! l with
       | Some (RowObject row) =>
           Some (<[l := RowObject (set_rowId row_id row)]> h, tt)
       | _ => None
       end.

(** A [for] loop: the body runs on each item in turn, on the heap and the
    local state the previous turn left. *)
Fixpoint for_each {A S : Type} (body : S → A → Py S) (items : list A) (s : S)
  : Py S :=
  match items with
  | [] => py_ret s
  | item :: items' => py_bind (body s item) (for_each body items')
  end.

(** The renumbering loop of [remove_rows]:
    [for idx, row in enumerate(filtered_rows): row["rowId"] = idx]. *)
Definition renumber_on_heap (filtered_rows : list loc) : Py unit :=
  py_bind
    (for_each (λ idx row, py_bind (store_rowId row (Z.of_nat idx))
                            (λ _, py_ret (S idx)))
       filtered_rows 0%nat)
    (λ _, py_ret tt).

(** [identify_duplicates] on the heap. *)
Definition identify_duplicates_on_heap (rows : loc) (columns : list string)
  : Py (list (list Z)) :=
  py_bind (load_list rows) (λ items,
  py_bind
    (for_each (λ seen item,
                 py_bind (load_row item) (λ row,
                 py_ret (setdefault_append seen (row_key columns row)
                           (rowId row))))
       items [])
    (λ seen,
  py_ret (filter (λ group, (1 < length group)%nat) seen.*2))).

Section HeapEngine.

Variable float_parses : string → bool.
Variable to_datetime_ok : string → bool.
Variable repr_float : spec_float → string.
Variable str_timestamp : Z → string.

(** [validate_rows] on the heap: [rows] and [expected_types] are the
    places of the two arguments. *)
Definition validate_rows_on_heap (rows expected_types : loc)
  : Py (list CellError * list (list Z)) :=
  py_bind (load_list rows) (λ items,
  py_bind
    (for_each (λ errors item,
                 py_bind (load_types expected_types) (λ types,
                 for_each (λ errors '(column, expected_type),
                             py_bind (load_row item) (λ row,
                             let v := cell row column in
                             py_ret
                               (if negb (_is_valid float_parses to_datetime_ok
                                           v expected_type)
                                then errors
                                     ++ [cell_error repr_float str_timestamp
                                           row column expected_type v]
                                else errors)))
                   types errors))
       items [])
    (λ errors,
  py_bind (load_types expected_types) (λ types,
  py_bind (identify_duplicates_on_heap rows (odict_keys types))
    (λ duplicate_groups,
  py_ret (errors, duplicate_groups))))).

End HeapEngine.

(** The row a place holds. *)
Definition heap_row (h : heap) (l : loc) : option Row :=
  match h !! l with
  | Some (RowObject row) => Some row
  | _ => None
  end.

(** The rows of the list a place holds, in order. *)
Definition heap_rows (h : heap) (l : loc) : option (list Row) :=
  match h !! l with
  | Some (ListObject items) => mapM (heap_row h) items
  | _ => None
  end.

(** The expected types a place holds. *)
Definition heap_types (h : heap) (l : loc) : option (odict string) :=
  match h !! l with
  | Some (TypesObject types) => Some types
  | _ => None
  end.

(** ** Reference definitions, in the words of the specification *)

(** The compatibility predicate of each tag; "string" is the fallback. *)
Definition accepts (float_parses to_datetime_ok : string → bool)
    (type_name : string) (v : value) : bool :=
  if String.eqb type_name "integer" then _looks_like_int v
  else if String.eqb type_name "float" then _looks_like_float float_parses v
  else if String.eqb type_name "boolean" then _looks_like_bool v
  else if String.eqb type_name "date" then _looks_like_date to_datetime_ok v
  else true.

(** The most specific tag of a value: none for a null value, otherwise the
    first tag, in priority order, whose predicate accepts it. *)
Definition most_specific (float_parses to_datetime_ok : string → bool)
    (v : value) : option string :=
  if _is_null v then None
  else snd <$> list_find (λ t, accepts float_parses to_datetime_ok t v = true)
                 TYPE_PRIORITY.

(** Number of values of a column whose most specific tag is [type_name]. *)
Definition tag_count (float_parses to_datetime_ok : string → bool)
    (type_name : string) (vs : list value) : Z :=
  Z.of_nat (length (filter
    (λ v, most_specific float_parses to_datetime_ok v = Some type_name) vs)).

(** The cell errors of a table: rows crossed with the columns of the
    expected-types map, one error per failing cell. *)
Definition cell_errors (float_parses to_datetime_ok : string → bool)
    (repr_float : spec_float → string) (str_timestamp : Z → string)
    (rows : list Row) (expected_types : odict string) : list CellError :=
  row ← rows;
  item ← expected_types;
  if _is_valid float_parses to_datetime_ok (cell row item.1) item.2 then []
  else [cell_error repr_float str_timestamp row item.1 item.2 (cell row item.1)].

(** The row identifiers of the rows whose key equals that of [row]. *)
Definition same_key_ids (columns : list string) (rows : list Row) (row : Row)
  : list Z :=
  rowId <$> filter
    (λ r, key_eqb (row_key columns row) (row_key columns r) = true) rows.

(** The rows whose key no earlier row has, in row order. *)
Fixpoint first_seen (columns : list string) (earlier rows : list Row) : list Row :=
  match rows with
  | [] => []
  | row :: rows' =>
      if bool_decide
           (Exists (λ r, key_eqb (row_key columns r) (row_key columns row) = true)
              earlier)
      then first_seen columns (earlier ++ [row]) rows'
      else row :: first_seen columns (earlier ++ [row]) rows'
  end.

(** The duplicate groups of a table: one group per distinct key, in the
    order the keys first occur, each listing its rows in row order; only
    groups of two or more rows. *)
Definition duplicate_groups_of (rows : list Row) (columns : list string)
  : list (list Z) :=
  filter (λ group, (2 ≤ length group)%nat)
    (same_key_ids columns rows <$> first_seen columns [] rows).

(** The column object [revalidate] builds from one entry of the request's
    column list. *)
Definition payload_column (detected : odict string) (column : ColumnInfo)
  : ColumnInfo :=
  {| name := name column;
     detectedType :=
       py_or (detectedType column)
         (Some (odict_get_default detected (name column) "string"));
     overrideType := overrideType column;
     nullable := nullable column |}.

(** The detected type of a column object: its own [detectedType], else the
    session's record for its name, else "string". *)
Definition detected_type_of (session : SessionData) (column : ColumnInfo)
  : option string :=
  py_or (detectedType column)
    (Some (odict_get_default (detected_types session) (name column) "string")).

(** The effective type of a column for which the request carries no usable
    override: the [overrideType] already on the column object, then the
    detected type, then "string". *)
Definition fallback_type (session : SessionData) (column : ColumnInfo) : string :=
  py_or_str (overrideType column)
    (py_or_str (detected_type_of session column) "string").

(** Non-strict lexicographic order on sort keys. *)
Definition pair_le (a b : Z * Z) : Prop :=
  a.1 < b.1 ∨ (a.1 = b.1 ∧ a.2 ≤ b.2).

(** The expected types revalidation computes for a request. *)
Definition expected_types_of (session : SessionData)
    (overrides : gmap string (option string))
    (column_info_payload : option (list ColumnInfo)) : odict string :=
  let replaced := replace_columns session column_info_payload in
  fold_left
    (λ expected column,
       odict_set expected (name column)
         (revalidate_column (coerce_overrides replaced.2 overrides)
            (detected_types session) column).2)
    replaced.1 [].

(** The dictionary entry of a first-seen row once the rows [seen_rows]
    have been scanned. *)
Definition entry_of (columns : list string) (seen_rows : list Row) (first : Row)
  : list value * list Z :=
  (row_key columns first, same_key_ids columns seen_rows first).

(** No row of the list has the key of an earlier one. *)
Fixpoint distinct_keys (columns : list string) (firsts : list Row) : Prop :=
  match firsts with
  | [] => True
  | f :: firsts' =>
      (∀ f', f' ∈ firsts' →
             ¬ key_eqb (row_key columns f) (row_key columns f') = true)
      ∧ distinct_keys columns firsts'
  end.

(** ** Sample data *)

Definition no_parse : string → bool := λ _, false.
Definition sample_repr_float : spec_float → string := λ _, "?"%string.
Definition sample_str_timestamp : Z → string := λ _, "?"%string.

Definition scenario_A_rows : list Row :=
  [ {| rowId := 0;
       values := <["Age" := VStr "abc"]> (<["Name" := VStr "Sam"]> ∅) |} ]%string.

Definition scenario_A_types : odict string :=
  [("Age", "integer"); ("Name", "string")]%string.

Definition scenario_B_rows : list Row :=
  [ {| rowId := 0; values := <["A" := VInt 1]> {["B" := VStr "x"]} |};
    {| rowId := 1; values := <["A" := VInt 1]> {["B" := VStr "x"]} |};
    {| rowId := 2; values := <["A" := VInt 2]> {["B" := VStr "y"]} |} ]%string.

Definition scenario_C_values : list value :=
  [VInt 1; VStr "2"; VStr "03"; VNone; VStr ""]%string.

Definition plain_row (row_id : Z) (v : value) : Row :=
  {| rowId := row_id; values := {["A"%string := v]} |}.

Definition scenario_E_rows : list Row :=
  [plain_row 0 (VStr "a"); plain_row 1 (VStr "b"); plain_row 2 (VStr "c")].

Definition sample_overrides : gmap string (option string) :=
  {["A"%string := Some "Currency"%string]}.

Definition sample_session (rows : list Row) : SessionData :=
  {| rows := rows;
     columns := ["A"]%string;
     detected_types := [("A", "integer")]%string;
     column_info :=
       [ {| name := "A"; detectedType := Some "integer"%string;
            overrideType := None; nullable := true |} ]%string;
     errors := [];
     duplicate_groups := [];
     original_filename := "uploaded.xlsx";
     overrides := ∅;
     workbook_bytes := "";
     sheet_name := "Sheet1";
     sheet_names := ["Sheet1"]%string |}.

(** A heap holding a list of two rows and a dictionary of expected types;
    the rows are those left of a longer table, not renumbered. *)
Definition sample_heap : heap :=
  <[0%nat := ListObject [1%nat; 2%nat]]>
    (<[1%nat := RowObject (plain_row 5 (VStr "abc"))]>
       (<[2%nat := RowObject (plain_row 6 (VStr "abc"))]>
          (<[3%nat := TypesObject [("A", "integer")]%string]> ∅))).


(** ** Session store *)

Module SessionStore.

(** [create_session]: the identifier is the [uuid4] drawn for the call; an
    existing entry under it is overwritten. *)
Definition create_session (sessions : gmap string SessionData)
    (session_id : string) (session : SessionData)
  : gmap string SessionData * string :=
  (<[session_id := session]> sessions, session_id).

(** [get]: [None] stands for [KeyError("Session not found")]. *)
Definition get (sessions : gmap string SessionData) (session_id : string)
  : option SessionData :=
  sessions !! session_id.

(** [update]: [None] stands for [KeyError("Session not found")]. *)
Definition update (sessions : gmap string SessionData) (session_id : string)
    (session : SessionData) : option (gmap string SessionData) :=
  match sessions !! session_id with
  | Some _ => Some (<[session_id := session]> sessions)
  | None => None
  end.

End SessionStore.

(** ** Loading a sheet and serving requests *)

(** A [pandas.DataFrame] as the loader reads it: the column labels and, per
    row, the cells in label order.  Labels are distinct (pandas makes them
    so on read), hence the label lookups of the loader are positional. *)
Record DataFrame : Type := mkDataFrame {
  df_columns : list value;
  df_cells : list (list value)
}.

(** [DataFrame.isna] on one cell. *)
Definition isna (v : value) : bool :=
  match v with
  | VNone => true
  | VFloat f => isnan f
  | _ => false
  end.

(** A value as the loader stores it: a boolean, an integer, a float that
    is not NaN, or a string. *)
Definition loaded_value (v : value) : Prop :=
  match v with
  | VNone | VTimestamp _ => False
  | VFloat f => isnan f = false
  | _ => True
  end.

Record HTTPException : Type := mkHTTPException {
  status_code : Z;
  detail : string
}.

Record Response : Type := mkResponse {
  r_payload : Payload;
  r_sessionId : string
}.

Section Service.

Variable float_parses : string → bool.
Variable to_datetime_ok : string → bool.
Variable repr_float : spec_float → string.
Variable str_timestamp : Z → string.
(** [Timestamp.isoformat()] *)
Variable isoformat : Z → string.
(** [pd.read_excel(BytesIO(file_bytes), sheet_name=...)]; [None] stands
    for the [ValueError] it raises. *)
Variable pd_read_excel : string → option string → option DataFrame.
(** [pd.ExcelFile(BytesIO(file_bytes)).sheet_names]; [inl message] stands
    for a [ValueError] with that message. *)
Variable excel_sheet_names : string → string + list string.

(** The cells hold Python scalars, on which [value.item()] is not called
    or changes nothing. *)
Definition _normalize_cell_value (v : value) : value :=
  match v with
  | VTimestamp t => VStr (isoformat t)
  | VFloat f => if isnan f then VStr "" else v
  | _ => v
  end.

(** The dictionary of one row: the loop over [zip(columns, original_columns)]. *)
Definition normalized_row (columns : list string) (cells : list value)
  : gmap string value :=
  fold_left
    (λ normalized item,
       <[item.1 := if isna item.2 then VStr "" else _normalize_cell_value item.2]>
         normalized)
    (zip columns cells) ∅.

(** A [ValueError] is [inl] of its message. *)
Definition read_excel_into_rows (file_bytes : string) (sheet_name : option string)
  : string + list Row * list string :=
  match pd_read_excel file_bytes sheet_name with
  | None => inl "Unable to read the uploaded Excel file."%string
  | Some df =>
      let original_columns := df_columns df in
      let columns := py_str repr_float str_timestamp <$> original_columns in
      let rows :=
        imap (λ idx cells,
                {| rowId := Z.of_nat idx; values := normalized_row columns cells |})
          (df_cells df) in
      inr (rows, columns)
  end.

Record ParsedSheet : Type := mkParsedSheet {
  ps_rows : list Row;
  ps_columns : list string;
  ps_detected_types : odict string;
  ps_column_info : list ColumnInfo;
  ps_errors : list CellError;
  ps_duplicate_groups : list (list Z)
}.

(** The results of a parsed table, from the rows and column names on. *)
Definition parsed_table (rows : list Row) (columns : list string) : ParsedSheet :=
  let detected_types := detect_types float_parses to_datetime_ok rows columns in
  let '(errors, duplicate_groups) :=
    validate_rows float_parses to_datetime_ok repr_float str_timestamp
      rows detected_types in
  let column_info :=
    (λ column,
       {| name := column;
          detectedType := odict_get detected_types column;
          overrideType := None;
          nullable := true |}) <$> columns in
  {| ps_rows := rows;
     ps_columns := columns;
     ps_detected_types := detected_types;
     ps_column_info := column_info;
     ps_errors := errors;
     ps_duplicate_groups := duplicate_groups |}.

Definition parse_sheet (file_bytes : string) (sheet_name : option string)
  : string + ParsedSheet :=
  match read_excel_into_rows file_bytes sheet_name with
  | inl message => inl message
  | inr (rows, columns) => inr (parsed_table rows columns)
  end.

Definition process_uploaded_file (file_bytes : string) (filename : option string)
  : string + SessionData * Payload :=
  match excel_sheet_names file_bytes with
  | inl message => inl message
  | inr names =>
      let sheet_names := match names with [] => ["Sheet1"%string] | _ => names end in
      (* [sheet_names[0]]: the list is not empty *)
      let sheet_name := default ""%string (head sheet_names) in
      match parse_sheet file_bytes (Some sheet_name) with
      | inl message => inl message
      | inr parsed =>
          inr
            ({| rows := ps_rows parsed;
                columns := ps_columns parsed;
                detected_types := ps_detected_types parsed;
                column_info := ps_column_info parsed;
                errors := ps_errors parsed;
                duplicate_groups := ps_duplicate_groups parsed;
                original_filename := py_or_str filename "uploaded.xlsx";
                overrides := ∅;
                workbook_bytes := file_bytes;
                sheet_name := sheet_name;
                sheet_names := sheet_names |},
             {| p_columns := ps_column_info parsed;
                p_rows := ps_rows parsed;
                p_errors := ps_errors parsed;
                p_duplicateGroups := ps_duplicate_groups parsed;
                p_sheetName := sheet_name;
                p_sheetNames := sheet_names |})
      end
  end.

(** *** Request handlers

    A handler takes the store and returns either the [HTTPException] it
    raises, the store being then as it was, or the store it leaves and its
    response.  The [update] of a handler follows a [get] of the same
    identifier that succeeded, so its [None] branch is never taken. *)

Definition upload_excel (sessions : gmap string SessionData)
    (file_bytes : string) (filename : option string) (session_id : string)
  : HTTPException + gmap string SessionData * Response :=
  match process_uploaded_file file_bytes filename with
  | inl message => inl {| status_code := 400; detail := message |}
  | inr (session, payload) =>
      let '(sessions, session_id) :=
        SessionStore.create_session sessions session_id session in
      inr (sessions, {| r_payload := payload; r_sessionId := session_id |})
  end.

Definition session_not_found : HTTPException :=
  {| status_code := 404; detail := "Session not found" |}.

Definition validate_excel (sessions : gmap string SessionData)
    (sessionId : string) (rows : list Row) (columnTypes : gmap string string)
    (columns : list ColumnInfo)
  : HTTPException + gmap string SessionData * Response :=
  match SessionStore.get sessions sessionId with
  | None => inl session_not_found
  | Some session =>
      let '(session, result) :=
        revalidate float_parses to_datetime_ok repr_float str_timestamp
          session rows (Some <$> columnTypes) (Some columns) in
      match SessionStore.update sessions sessionId session with
      | None => inl session_not_found
      | Some sessions =>
          inr (sessions, {| r_payload := result; r_sessionId := sessionId |})
      end
  end.

Definition remove_duplicates (sessions : gmap string SessionData)
    (sessionId : string) (rowIds : list Z)
  : HTTPException + gmap string SessionData * Response :=
  match SessionStore.get sessions sessionId with
  | None => inl session_not_found
  | Some session =>
      let '(session, updated_rows) := remove_rows session rowIds in
      let '(session, result) :=
        revalidate float_parses to_datetime_ok repr_float str_timestamp
          session updated_rows (overrides session) None in
      match SessionStore.update sessions sessionId session with
      | None => inl session_not_found
      | Some sessions =>
          inr (sessions, {| r_payload := result; r_sessionId := sessionId |})
      end
  end.

Definition switch_sheet (sessions : gmap string SessionData)
    (sessionId sheetName : string)
  : HTTPException + gmap string SessionData * Response :=
  match SessionStore.get sessions sessionId with
  | None => inl session_not_found
  | Some session =>
      if bool_decide (sheetName ∉ sheet_names session)
      then inl {| status_code := 400; detail := "Sheet not found in workbook." |}
      else
        match parse_sheet (workbook_bytes session) (Some sheetName) with
        | inl message => inl {| status_code := 400; detail := message |}
        | inr parsed =>
            let session :=
              {| rows := ps_rows parsed;
                 columns := ps_columns parsed;
                 detected_types := ps_detected_types parsed;
                 column_info := ps_column_info parsed;
                 errors := ps_errors parsed;
                 duplicate_groups := ps_duplicate_groups parsed;
                 original_filename := original_filename session;
                 overrides := ∅;
                 workbook_bytes := workbook_bytes session;
                 sheet_name := sheetName;
                 sheet_names := sheet_names session |} in
            match SessionStore.update sessions sessionId session with
            | None => inl session_not_found
            | Some sessions =>
                inr (sessions,
                     {| r_payload :=
                          {| p_columns := ps_column_info parsed;
                             p_rows := ps_rows parsed;
                             p_errors := ps_errors parsed;
                             p_duplicateGroups := ps_duplicate_groups parsed;
                             p_sheetName := sheetName;
                             p_sheetNames := sheet_names session |};
                        r_sessionId := sessionId |})
            end
        end
  end.

(** *** Session invariant *)

(** What a session records agrees with what it holds: the column names are
    those of the column objects, the recorded types are the effective
    types of the columns under the stored overrides, and the errors and
    duplicate groups are those of the stored rows against these types. *)
Definition session_consistent (session : SessionData) : Prop :=
  columns session = name <$> column_info session
  ∧ expected_types_of session (overrides session) None = detected_types session
  ∧ errors session
    = (validate_rows float_parses to_datetime_ok repr_float str_timestamp
         (rows session) (detected_types session)).1
  ∧ duplicate_groups session
    = (validate_rows float_parses to_datetime_ok repr_float str_timestamp
         (rows session) (detected_types session)).2.

Definition store_consistent (sessions : gmap string SessionData) : Prop :=
  ∀ session_id session,
    sessions !! session_id = Some session → session_consistent session.

End Service.

(** ** Download names *)

(** ["." in s] *)
Fixpoint has_dot (s : string) : bool :=
  match s with
  | EmptyString => false
  | String c rest => Ascii.eqb c "." || has_dot rest
  end.

(** [s.split(".")[0]]: the text before the first full stop, all of [s]
    when it has none. *)
Fixpoint split_dot_head (s : string) : string :=
  match s with
  | EmptyString => EmptyString
  | String c rest =>
      if Ascii.eqb c "." then EmptyString else String c (split_dot_head rest)
  end.

(** [s.rsplit(".", 1)[0]]: the text before the last full stop, all of [s]
    when it has none. *)
Fixpoint rsplit_dot_head (s : string) : string :=
  match s with
  | EmptyString => EmptyString
  | String c rest =>
      if Ascii.eqb c "." && negb (has_dot rest) then EmptyString
      else String c (rsplit_dot_head rest)
  end.

(** The [filename] of [download_report], from the session's
    [original_filename]. *)
Definition download_report_filename (original_filename : string) : string :=
  (rsplit_dot_head original_filename ++ "_report.xlsx")%string.

(** The [filename] of [export_sheet], from the request's [sessionId]. *)
Definition export_sheet_filename (sessionId : option string) : string :=
  (split_dot_head (py_or_str sessionId "edited") ++ "_edited.xlsx")%string.

(** ** Sample workbook *)

Definition sample_isoformat : Z → string := λ _, "1970-01-01T00:00:00"%string.

(** Two columns; the first two rows differ in letter case and padding
    only, the third has an empty cell. *)
Definition sample_frame : DataFrame :=
  {| df_columns := [VStr "A"; VStr "B"];
     df_cells :=
       [ [VStr "x"; VInt 1]; [VStr " X "; VInt 1]; [VStr "y"; VNone] ] |}%string.

(** A reader that knows one workbook, ["book"], with the sheet ["Sheet1"]. *)
Definition sample_read_excel (file_bytes : string) (sheet_name : option string)
  : option DataFrame :=
  if bool_decide (file_bytes = "book"%string
                  ∧ sheet_name = Some "Sheet1"%string)
  then Some sample_frame else None.

Definition sample_sheet_names (file_bytes : string) : string + list string :=
  if bool_decide (file_bytes = "book"%string)
  then inr ["Sheet1"; "Sheet2"]%string
  else inl "File is not a zip file"%string.

Definition sample_upload : string + SessionData * Payload :=
  process_uploaded_file no_parse no_parse sample_repr_float sample_str_timestamp
    sample_isoformat sample_read_excel sample_sheet_names "book" None.

(** The session of the sample upload. *)
Definition sample_uploaded : SessionData :=
  match sample_upload with
  | inr (session, _) => session
  | inl _ => sample_session []
  end.

(** A store with one session. *)
Definition sample_store : gmap string SessionData :=
  {["s1"%string := sample_uploaded]}.

(** A session left by a revalidation: three strings in a column recorded
    as "integer". *)
Definition sample_revalidated : SessionData :=
  (revalidate no_parse no_parse sample_repr_float sample_str_timestamp
     (sample_session scenario_E_rows) scenario_E_rows ∅ None).1.

(** Lower-cases the strings of a row. *)
Definition lower_row (row : Row) : Row :=
  {| rowId := rowId row;
     values :=
       (λ v, match v with VStr s => VStr (PyStr.lower s) | _ => v end)
         <$> values row |}.

(** ** Equality of cell values and of duplicate keys *)

Lemma num_eqb_sym a b : num_eqb a b = num_eqb b a.
Proof.
  destruct a as [|s|p], b as [|s'|q]; simpl; try done.
  - by destruct s, s'.
  - apply eq_true_iff_eq. rewrite !Qeq_bool_iff. split; intros H; by symmetry.
Qed.

Lemma num_eqb_trans a b c :
  num_eqb a b = true → num_eqb b c = true → num_eqb a c = true.
Proof.
  destruct a as [|s|p], b as [|s'|q], c as [|s''|r]; simpl; try done.
  - destruct s, s', s''; done.
  - rewrite !Qeq_bool_iff. intros H1 H2. by rewrite H1.
Qed.

Lemma py_eqb_sym v w : py_eqb v w = py_eqb w v.
Proof.
  destruct v, w; cbn -[num_eqb]; try done; try apply num_eqb_sym.
  - apply String.eqb_sym.
  - apply Z.eqb_sym.
Qed.

Lemma py_eqb_trans u v w :
  py_eqb u v = true → py_eqb v w = true → py_eqb u w = true.
Proof.
  destruct u, v; cbn -[num_eqb]; try done; destruct w; cbn -[num_eqb];
    try done; try apply num_eqb_trans.
  - rewrite !String.eqb_eq. congruence.
  - rewrite !Z.eqb_eq. congruence.
Qed.

(** A coerced value is never NaN, hence equal to itself. *)
Lemma py_eqb_coerced_refl v :
  py_eqb (_coerce_duplicate_value v) (_coerce_duplicate_value v) = true.
Proof.
  destruct v as [| [] | n | f | s | t]; simpl; try done.
  - apply Qeq_bool_refl.
  - destruct f as [z | z | | z m e]; simpl; try done.
    + by destruct z.
    + apply Qeq_bool_refl.
  - apply String.eqb_refl.
  - apply Z.eqb_refl.
Qed.

Lemma key_eqb_sym k1 k2 : key_eqb k1 k2 = key_eqb k2 k1.
Proof.
  revert k2. induction k1 as [|v k1 IH]; intros [|w k2]; simpl; try done.
  by rewrite py_eqb_sym, IH.
Qed.

Lemma key_eqb_trans k1 k2 k3 :
  key_eqb k1 k2 = true → key_eqb k2 k3 = true → key_eqb k1 k3 = true.
Proof.
  revert k2 k3.
  induction k1 as [|u k1 IH]; intros [|v k2] [|w k3]; simpl; try done.
  rewrite !andb_true_iff. intros [H1 H2] [H3 H4]. split.
  - by apply py_eqb_trans with v.
  - by apply IH with k2.
Qed.

Lemma row_key_eqb_refl columns row :
  key_eqb (row_key columns row) (row_key columns row) = true.
Proof.
  unfold row_key. induction columns as [|c columns IH]; [done|].
  rewrite fmap_cons. simpl. rewrite py_eqb_coerced_refl. apply IH.
Qed.

(** ** The duplicate detector groups rows by key *)

Section Grouping.

Variable columns : list string.

Local Abbreviation key := (row_key columns).
Local Abbreviation same_key r r' := (key_eqb (key r) (key r') = true).
Local Abbreviation entry_of := (entry_of columns).
Local Abbreviation distinct_keys := (distinct_keys columns).

Lemma filter_none {A : Type} (P : A → Prop) `{!∀ x, Decision (P x)} (l : list A) :
  (∀ x, x ∈ l → ¬ P x) → filter P l = [].
Proof.
  induction l as [|x l IH]; intros Hl; [done|].
  rewrite filter_cons_False by (apply Hl; by left).
  apply IH. intros y Hy. apply Hl. by right.
Qed.

Lemma same_key_ids_snoc seen_rows row first :
  same_key_ids columns (seen_rows ++ [row]) first
  = same_key_ids columns seen_rows first
    ++ (if key_eqb (key first) (key row) then [rowId row] else []).
Proof.
  unfold same_key_ids. rewrite filter_app, fmap_app. f_equal.
  rewrite filter_cons, filter_nil.
  case_decide as Hk.
  - by rewrite Hk.
  - by apply not_true_is_false in Hk as ->.
Qed.

Lemma first_seen_snoc earlier seen_rows row :
  first_seen columns earlier (seen_rows ++ [row])
  = first_seen columns earlier seen_rows
    ++ (if bool_decide (Exists (λ r, same_key r row) (earlier ++ seen_rows))
        then [] else [row]).
Proof.
  revert earlier. induction seen_rows as [|r rs IH]; intros earlier; simpl.
  - rewrite app_nil_r. by case_bool_decide.
  - rewrite IH, <- app_assoc. simpl. by case_bool_decide.
Qed.

Lemma distinct_keys_snoc firsts row :
  distinct_keys firsts →
  (∀ f, f ∈ firsts → ¬ same_key f row) →
  distinct_keys (firsts ++ [row]).
Proof.
  induction firsts as [|f firsts IH]; simpl; intros Hd Hrow.
  - split; [|done]. intros f' Hf'. by apply elem_of_nil in Hf'.
  - destruct Hd as [Hf Hd]. split.
    + intros f' [Hf' | ->%list_elem_of_singleton]%elem_of_app.
      * by apply Hf.
      * apply Hrow. by left.
    + apply IH; [done|]. intros f' Hf'. apply Hrow. by right.
Qed.

Lemma first_seen_facts seen_rows :
  let firsts := first_seen columns [] seen_rows in
  (∀ f, f ∈ firsts → f ∈ seen_rows)
  ∧ (∀ r, r ∈ seen_rows → Exists (λ f, same_key f r) firsts)
  ∧ distinct_keys firsts.
Proof.
  induction seen_rows as [|row seen_rows IH] using rev_ind; simpl.
  - split; [done|]. split; [|done]. intros r Hr. by apply elem_of_nil in Hr.
  - destruct IH as (Hsub & Hcov & Hdist).
    rewrite first_seen_snoc. simpl.
    case_bool_decide as Hex.
    + rewrite app_nil_r. split; [|split; [|done]].
      * intros f Hf. apply elem_of_app. left. by apply Hsub.
      * intros r [Hr | ->%list_elem_of_singleton]%elem_of_app; [by apply Hcov|].
        apply Exists_exists in Hex as (r0 & Hr0 & Hsame).
        apply Hcov in Hr0.
        apply Exists_exists in Hr0 as (f & Hf & Hfr0).
        apply Exists_exists. exists f. split; [done|].
        by apply key_eqb_trans with (key r0).
    + split; [|split].
      * intros f [Hf | Hf]%elem_of_app; apply elem_of_app; [left; by apply Hsub | by right].
      * intros r [Hr | ->%list_elem_of_singleton]%elem_of_app.
        -- apply Exists_app. left. by apply Hcov.
        -- apply Exists_app. right. apply Exists_cons_hd, row_key_eqb_refl.
      * apply distinct_keys_snoc; [done|].
        intros f Hf Hsame. apply Hex, Exists_exists.
        exists f. split; [|done]. by apply Hsub.
Qed.

(** Adding a row to the dictionary built from the rows scanned so far. *)
Lemma setdefault_append_entries seen_rows firsts row :
  distinct_keys firsts →
  setdefault_append (entry_of seen_rows <$> firsts) (key row) (rowId row)
  = (entry_of (seen_rows ++ [row]) <$> firsts)
    ++ (if bool_decide (Exists (λ f, same_key f row) firsts) then []
        else [(key row, [rowId row])]).
Proof.
  induction firsts as [|f firsts IH]; intros Hd.
  - done.
  - destruct Hd as [Hf Hd]. rewrite !fmap_cons. simpl.
    unfold entry_of at 3. rewrite same_key_ids_snoc.
    destruct (key_eqb (key f) (key row)) eqn:Hk.
    + rewrite bool_decide_eq_true_2 by (by apply Exists_cons_hd).
      rewrite app_nil_r. f_equal.
      apply list_fmap_ext. intros i f' Hf'. unfold entry_of.
      rewrite same_key_ids_snoc.
      destruct (key_eqb (key f') (key row)) eqn:Hk'; [|by rewrite app_nil_r].
      exfalso. apply (Hf f'); [by eapply list_elem_of_lookup_2|].
      apply key_eqb_trans with (key row); [done|]. by rewrite key_eqb_sym.
    + rewrite IH by done. rewrite app_nil_r. f_equal. f_equal.
      case_bool_decide as Hex; case_bool_decide as Hex'; try done.
      * exfalso. apply Hex'. by apply Exists_cons_tl.
      * exfalso. apply Hex. apply Exists_cons in Hex' as [Hk'|]; [|done].
        congruence.
Qed.

Lemma seen_after_entries rows :
  seen_after columns rows = entry_of rows <$> first_seen columns [] rows.
Proof.
  unfold seen_after.
  induction rows as [|row rows IH] using rev_ind; [done|].
  rewrite fold_left_app. simpl. rewrite IH.
  destruct (first_seen_facts rows) as (Hsub & Hcov & Hdist).
  rewrite setdefault_append_entries by done.
  rewrite first_seen_snoc, fmap_app. simpl. f_equal.
  assert (Exists (λ f, same_key f row) (first_seen columns [] rows)
          ↔ Exists (λ r, same_key r row) rows) as Hiff.
  { rewrite !Exists_exists. split.
    - intros (f & Hf & Hsame). exists f. split; [|done].
      by apply Hsub.
    - intros (r & Hr & Hsame). apply Hcov in Hr.
      apply Exists_exists in Hr as (f & Hf & Hfr). exists f. split; [done|].
      by apply key_eqb_trans with (key r). }
  case_bool_decide as Hex; case_bool_decide as Hex'; try done.
  - exfalso. by apply Hex', Hiff.
  - exfalso. by apply Hex, Hiff.
  - simpl. unfold entry_of. f_equal. f_equal.
    rewrite same_key_ids_snoc, row_key_eqb_refl.
    unfold same_key_ids.
    rewrite filter_none; [done|].
    intros r Hr Hsame. apply Hex', Exists_exists. exists r. split; [done|].
    by rewrite key_eqb_sym.
Qed.

End Grouping.

Lemma duplicates_are_groups rows columns :
  identify_duplicates rows columns = duplicate_groups_of rows columns.
Proof.
  unfold identify_duplicates, duplicate_groups_of.
  rewrite seen_after_entries, <- list_fmap_compose.
  by apply list_filter_iff.
Qed.

Lemma identify_duplicates_ids rows columns group row_id :
  group ∈ identify_duplicates rows columns → row_id ∈ group →
  ∃ row, row ∈ rows ∧ rowId row = row_id.
Proof.
  rewrite duplicates_are_groups. unfold duplicate_groups_of.
  intros [_ Hg]%list_elem_of_filter Hid.
  apply list_elem_of_fmap in Hg as (first & -> & _).
  unfold same_key_ids in Hid.
  apply list_elem_of_fmap in Hid as (row & -> & Hrow).
  apply list_elem_of_filter in Hrow as [_ Hrow]. by exists row.
Qed.

(** C6: the duplicate detector keys each row on its normalized values for
    the columns in order, groups the row identifiers of equal keys in row
    order, lists the groups in the order their keys first occur, and emits
    only groups of two or more; normalization trims and lower-cases
    strings, turns NaN into None and leaves every other value as it is. *)
Theorem identify_duplicates_groups_by_key (rows : list Row) (columns : list string) :
  identify_duplicates rows columns = duplicate_groups_of rows columns
  ∧ Forall (λ group, (2 ≤ length group)%nat) (identify_duplicates rows columns)
  ∧ (∀ row,
       row_key columns row
       = (λ column, _coerce_duplicate_value (cell row column)) <$> columns)
  ∧ (∀ s, _coerce_duplicate_value (VStr s) = VStr (PyStr.lower (PyStr.strip s)))
  ∧ _coerce_duplicate_value (VFloat S754_nan) = VNone
  ∧ (∀ v, (∀ s, v ≠ VStr s) → v ≠ VFloat S754_nan →
          _coerce_duplicate_value v = v).
Proof.
  split; [apply duplicates_are_groups|].
  split.
  { apply Forall_forall. intros group Hg.
    unfold identify_duplicates in Hg.
    by apply list_elem_of_filter in Hg as [Hlen _]. }
  split; [done|]. split; [done|]. split; [done|].
  intros v Hstr Hnan. destruct v as [| b | n | f | s | t]; try done.
  - by destruct f.
  - by destruct (Hstr s).
Qed.

(** Scenario B: two equal rows and a third one. *)
Example scenario_B_groups :
  identify_duplicates scenario_B_rows ["A"; "B"]%string = [[0; 1]].
Proof. by vm_compute. Qed.

(** ** Maximum by key *)

Lemma pair_le_refl a : pair_le a a.
Proof. right. lia. Qed.

Lemma pair_le_trans a b c : pair_le a b → pair_le b c → pair_le a c.
Proof. unfold pair_le. lia. Qed.

Lemma pair_ltb_true a b : pair_ltb a b = true → pair_le a b.
Proof. unfold pair_ltb, pair_le. lia. Qed.

Lemma pair_ltb_false a b : pair_ltb a b = false → pair_le b a.
Proof. unfold pair_ltb, pair_le. lia. Qed.

Lemma max_from_greatest {A : Type} (key : A → Z * Z) (best : A) (l : list A) :
  let m := max_from key best l in
  (m = best ∨ m ∈ l)
  ∧ pair_le (key best) (key m)
  ∧ ∀ x, x ∈ l → pair_le (key x) (key m).
Proof.
  revert best. induction l as [|y l IH]; intros best; simpl.
  - split; [by left|]. split; [apply pair_le_refl|].
    intros x Hx. by apply elem_of_nil in Hx.
  - destruct (pair_ltb (key best) (key y)) eqn:Hlt.
    + destruct (IH y) as (Hin & Hy & Hall). split; [|split].
      * destruct Hin as [-> | Hin]; right; [by left | by right].
      * apply pair_le_trans with (key y); [by apply pair_ltb_true | done].
      * intros x [-> | Hx]%elem_of_cons; [done | by apply Hall].
    + destruct (IH best) as (Hin & Hbest & Hall). split; [|split].
      * destruct Hin as [-> | Hin]; [by left | right; by right].
      * done.
      * intros x [-> | Hx]%elem_of_cons; [|by apply Hall].
        apply pair_le_trans with (key best); [by apply pair_ltb_false | done].
Qed.

(** ** Integer-like values *)

Lemma power_of_two_Q (p : positive) :
  (Qpower_positive (2 # 1) p == inject_Z (2 ^ Z.pos p))%Q.
Proof. by rewrite Zpower_Qpower. Qed.

(** A float whose value is a whole number satisfies [float.is_integer]. *)
Lemma is_integer_whole f q z :
  float_num f = NumFin q → (q == inject_Z z)%Q → is_integer f = true.
Proof.
  destruct f as [s | s | | s m e]; simpl; try done.
  intros [= <-] Hq. destruct e as [|p|p]; simpl; try done.
  apply Z.eqb_eq.
  change (Z.pow_pos 2 p) with (2 ^ Z.pos p).
  assert (0 < 2 ^ Z.pos p) as Hpos by (by apply Z.pow_pos_nonneg).
  set (a := if s then inject_Z (Z.neg m) else inject_Z (Z.pos m)) in Hq.
  assert (a == inject_Z (z * 2 ^ Z.pos p))%Q as Ha.
  { rewrite inject_Z_mult, <- Hq. simpl. rewrite power_of_two_Q.
    field. intros H0. change 0%Q with (inject_Z 0) in H0.
    apply -> inject_Z_injective in H0. lia. }
  assert (Z.pos m = (if s then - z else z) * 2 ^ Z.pos p) as ->.
  { subst a. destruct s; apply -> inject_Z_injective in Ha; lia. }
  apply Z.mod_mul. lia.
Qed.

Lemma digit_is_not_space c :
  PyStr.isdigit_char c = true → PyStr.isspace c = false.
Proof. destruct c as [[] [] [] [] [] [] [] []]; by vm_compute. Qed.

Lemma digit_is_not_minus c :
  PyStr.isdigit_char c = true → c ≠ "-"%char.
Proof. by intros Hd ->. Qed.

Lemma lstrip_digits s : PyStr.all_digits s = true → PyStr.lstrip s = s.
Proof.
  destruct s as [|c s]; simpl; [done|].
  intros [Hc _]%andb_true_iff. by rewrite digit_is_not_space.
Qed.

Lemma rstrip_digits s : PyStr.all_digits s = true → PyStr.rstrip s = s.
Proof.
  induction s as [|c s IH]; simpl; [done|].
  intros [Hc Hs]%andb_true_iff. by rewrite digit_is_not_space, IH.
Qed.

Lemma strip_digits s : PyStr.all_digits s = true → PyStr.strip s = s.
Proof.
  intros Hs. unfold PyStr.strip. by rewrite lstrip_digits, rstrip_digits.
Qed.

Lemma strip_minus_digits s :
  PyStr.all_digits s = true → PyStr.strip (String "-" s) = String "-" s.
Proof.
  intros Hs. unfold PyStr.strip.
  change (PyStr.lstrip (String "-" s)) with (String "-" s).
  change (PyStr.rstrip (String "-" s)) with (String "-"%char (PyStr.rstrip s)).
  by rewrite rstrip_digits.
Qed.

Lemma looks_like_int_digits (minus : bool) (digits : string) :
  PyStr.isdigit digits = true →
  _looks_like_int (VStr ((if minus then "-" else "") ++ digits)) = true.
Proof.
  intros Hd. pose proof Hd as [Hne Hall]%andb_true_iff.
  destruct minus.
  - change (("-" ++ digits)%string) with (String "-" digits).
    unfold _looks_like_int. by rewrite strip_minus_digits.
  - change (("" ++ digits)%string) with digits.
    unfold _looks_like_int. rewrite strip_digits by done.
    destruct digits as [|c rest]; [done|].
    simpl in Hall. apply andb_true_iff in Hall as [Hc _].
    destruct (decide (c = "-"%char)) as [-> | Hminus]; [done|].
    rewrite <- Hd. clear -Hminus.
    destruct c as [[] [] [] [] [] [] [] []]; done.
Qed.

(** ** Insertion-ordered dictionaries *)

Lemma odict_get_set {V : Type} (d : odict V) (k k' : string) (v : V) :
  odict_get (odict_set d k v) k'
  = if String.eqb k k' then Some v else odict_get d k'.
Proof.
  induction d as [|[k0 v0] d IH]; simpl; [done|].
  destruct (String.eqb_spec k0 k) as [-> | Hk0]; simpl.
  - by destruct (String.eqb k k').
  - rewrite IH. destruct (String.eqb_spec k0 k') as [-> | Hk0']; [|done].
    by destruct (String.eqb_spec k k') as [-> | Hk'].
Qed.

Lemma odict_get_fold_set {A : Type} (key_of val_of : A → string)
    (items : list A) (d : odict string) (k : string) :
  odict_get (fold_left (λ d x, odict_set d (key_of x) (val_of x)) items d) k
  = match last (filter (λ x, key_of x = k) items) with
    | Some x => Some (val_of x)
    | None => odict_get d k
    end.
Proof.
  revert d. induction items as [|x items IH]; intros d; simpl; [done|].
  rewrite IH, filter_cons. case_decide as Hk.
  - rewrite last_cons. destruct (last (filter _ items)); [done|].
    rewrite odict_get_set, Hk. by rewrite String.eqb_refl.
  - destruct (last (filter _ items)); [done|].
    rewrite odict_get_set. by destruct (String.eqb_spec (key_of x) k).
Qed.

(** ** Overrides *)

Lemma allowed_type_truthy t : t ∈ TYPE_PRIORITY → truthy (Some t) = true.
Proof.
  unfold TYPE_PRIORITY. intros Ht.
  repeat (apply elem_of_cons in Ht as [-> | Ht]; [done|]).
  by apply elem_of_nil in Ht.
Qed.

Lemma normalize_type_allowed v t :
  _normalize_type v = Some t → t ∈ TYPE_PRIORITY.
Proof.
  destruct v as [s|]; simpl; [|done]. unfold in_ALLOWED_TYPES.
  case_bool_decide as Hin; [|done]. by intros [= <-].
Qed.

Lemma coerce_overrides_lookup columns overrides c :
  coerce_overrides columns overrides !! c
  = if bool_decide (c ∈ columns) then _normalize_type <$> overrides !! c
    else None.
Proof.
  unfold coerce_overrides. rewrite lookup_fmap, map_lookup_filter.
  destruct (overrides !! c) as [v|]; simpl.
  - case_bool_decide as Hc.
    + by rewrite option_guard_True.
    + by rewrite option_guard_False.
  - by case_bool_decide.
Qed.

Lemma py_or_str_or a b s : py_or_str (py_or a b) s = py_or_str a (py_or_str b s).
Proof. by destruct a as [[|c a]|]. Qed.

(** The loop body on a column whose name has a coerced override. *)
Lemma revalidate_column_override coerced session column v :
  coerced !! name column = Some v →
  (∀ t, v = Some t → t ∈ TYPE_PRIORITY) →
  let outcome := revalidate_column coerced (detected_types session) column in
  match v with
  | Some t => outcome.2 = t ∧ overrideType outcome.1 = Some t
  | None =>
      outcome.2 = fallback_type session column
      ∧ overrideType outcome.1 = overrideType column
  end.
Proof.
  intros Hc Hallowed. unfold revalidate_column. rewrite Hc. simpl.
  destruct v as [t|].
  - pose proof (allowed_type_truthy t (Hallowed t eq_refl)) as Ht.
    assert (∀ o, py_or (Some t) o = Some t) as Hor.
    { intros o. unfold py_or. by rewrite Ht. }
    rewrite !Hor, Ht. simpl. split; [|done]. simpl in Ht. by destruct t.
  - change (py_or None (overrideType column)) with (overrideType column).
    split.
    + rewrite py_or_str_or. unfold fallback_type, detected_type_of.
      by destruct (truthy (overrideType column)).
    + by destruct (truthy (overrideType column)).
Qed.

Lemma odict_get_None {V : Type} (d : odict V) (k : string) :
  k ∉ odict_keys d → odict_get d k = None.
Proof.
  induction d as [|[k0 v0] d IH]; simpl; [done|].
  intros Hk. apply not_elem_of_cons in Hk as [Hne Hk].
  destruct (String.eqb_spec k0 k) as [-> | _]; [done | by apply IH].
Qed.

(** Two dictionaries with the same keys in the same order and the same
    value under every key are equal. *)
Lemma odict_ext {V : Type} (d1 d2 : odict V) :
  odict_keys d1 = odict_keys d2 →
  NoDup (odict_keys d1) →
  (∀ k, odict_get d1 k = odict_get d2 k) →
  d1 = d2.
Proof.
  revert d2. induction d1 as [|[k v1] d1 IH]; intros [|[k' v2] d2]; simpl;
    try done.
  intros [= <- Hkeys] [Hk Hnodup]%NoDup_cons Hget.
  pose proof (Hget k) as Hv. simpl in Hv. rewrite String.eqb_refl in Hv.
  injection Hv as <-. f_equal. apply IH; [done | done |].
  intros k'. destruct (decide (k' = k)) as [-> | Hne].
  - rewrite !odict_get_None; [done | by rewrite <- Hkeys | done].
  - specialize (Hget k'). simpl in Hget.
    by destruct (String.eqb_spec k k') as [-> | _].
Qed.

Lemma odict_keys_set {V : Type} (d : odict V) (k : string) (v : V) :
  odict_keys (odict_set d k v)
  = if bool_decide (k ∈ odict_keys d) then odict_keys d else odict_keys d ++ [k].
Proof.
  induction d as [|[k0 v0] d IH]; simpl; [done|].
  destruct (String.eqb_spec k0 k) as [-> | Hne]; simpl.
  - rewrite bool_decide_eq_true_2; [done | by left].
  - rewrite IH. case_bool_decide as Hin; case_bool_decide as Hin'; try done.
    + exfalso. apply Hin'. by right.
    + exfalso. apply elem_of_cons in Hin' as [-> | Hin']; done.
Qed.

Lemma odict_set_NoDup {V : Type} (d : odict V) (k : string) (v : V) :
  NoDup (odict_keys d) → NoDup (odict_keys (odict_set d k v)).
Proof.
  intros Hd. rewrite odict_keys_set. case_bool_decide as Hin; [done|].
  apply NoDup_app. split; [done|]. split; [|apply NoDup_singleton].
  intros k' Hk' ->%list_elem_of_singleton. done.
Qed.

Lemma odict_fold_set_keys {A : Type} (key_of val1 val2 : A → string)
    (items : list A) (d1 d2 : odict string) :
  odict_keys d1 = odict_keys d2 → NoDup (odict_keys d1) →
  odict_keys (fold_left (λ d x, odict_set d (key_of x) (val1 x)) items d1)
  = odict_keys (fold_left (λ d x, odict_set d (key_of x) (val2 x)) items d2)
  ∧ NoDup (odict_keys
             (fold_left (λ d x, odict_set d (key_of x) (val1 x)) items d1)).
Proof.
  revert d1 d2. induction items as [|x items IH]; intros d1 d2 Hkeys Hnodup;
    simpl; [done|].
  apply IH.
  - by rewrite !odict_keys_set, Hkeys.
  - by apply odict_set_NoDup.
Qed.

(** The dictionary a loop of assignments builds depends only on the key
    sequence and on the last value assigned under each key. *)
Lemma odict_fold_set_ext {A : Type} (key_of val1 val2 : A → string)
    (items : list A) :
  (∀ k x, last (filter (λ y, key_of y = k) items) = Some x → val1 x = val2 x) →
  fold_left (λ d x, odict_set d (key_of x) (val1 x)) items []
  = fold_left (λ d x, odict_set d (key_of x) (val2 x)) items [].
Proof.
  intros Hlast.
  destruct (odict_fold_set_keys key_of val1 val2 items [] [])
    as [Hkeys Hnodup]; [done | apply NoDup_nil_2 |].
  apply odict_ext; [done | done |].
  intros k. rewrite !odict_get_fold_set.
  destruct (last (filter _ items)) as [x|] eqn:Hx; [|done].
  f_equal. by eapply Hlast.
Qed.

(** ** Re-running revalidation *)

(** The effective type out of the four inputs of the loop body. *)
Lemma revalidate_column_expected coerced detected column :
  (revalidate_column coerced detected column).2
  = py_or_str
      (py_or (py_or (default None (coerced !! name column)) (overrideType column))
         (py_or (detectedType column)
            (Some (odict_get_default detected (name column) "string"))))
      "string".
Proof.
  unfold revalidate_column. simpl.
  by destruct (truthy (py_or _ (overrideType column))).
Qed.

Lemma revalidate_column_name coerced detected column :
  name (revalidate_column coerced detected column).1 = name column.
Proof.
  unfold revalidate_column. simpl.
  by destruct (truthy (py_or _ (overrideType column))).
Qed.

(** Revalidating a column object again, with the first run's effective
    type recorded as the session's detected type, changes nothing. *)
Lemma revalidate_column_again coerced detected detected' column :
  odict_get detected' (name column)
  = Some (revalidate_column coerced detected column).2 →
  (revalidate_column coerced detected'
     (revalidate_column coerced detected column).1).2
  = (revalidate_column coerced detected column).2.
Proof.
  intros Hget. rewrite !revalidate_column_expected, revalidate_column_name.
  unfold odict_get_default at 1. rewrite Hget, revalidate_column_expected.
  clear Hget. unfold revalidate_column.
  destruct column as [nm dt ot nl]. cbn [name detectedType overrideType fst].
  destruct (default None (coerced !! nm)) as [[|c1 s1]|];
    destruct ot as [[|c2 s2]|]; destruct dt as [[|c3 s3]|];
    destruct (odict_get_default detected nm "string") as [|c4 s4];
    reflexivity.
Qed.

Lemma revalidate_payload_column_again coerced detected detected' column :
  odict_get detected' (name column)
  = Some (revalidate_column coerced detected (payload_column detected column)).2 →
  (revalidate_column coerced detected' (payload_column detected' column)).2
  = (revalidate_column coerced detected (payload_column detected column)).2.
Proof.
  intros Hget. rewrite !revalidate_column_expected.
  cbn [payload_column name detectedType overrideType].
  unfold odict_get_default at 1 2. rewrite Hget, revalidate_column_expected.
  clear Hget.
  destruct column as [nm dt ot nl].
  cbn [payload_column name detectedType overrideType default].
  destruct (default None (coerced !! nm)) as [[|c1 s1]|];
    destruct ot as [[|c2 s2]|]; destruct dt as [[|c3 s3]|];
    destruct (odict_get_default detected nm "string") as [|c4 s4];
    reflexivity.
Qed.

Lemma replace_columns_payload session column column_info_payload :
  replace_columns session (Some (column :: column_info_payload))
  = (payload_column (detected_types session) <$> column :: column_info_payload,
     name <$> column :: column_info_payload).
Proof.
  unfold replace_columns. f_equal.
  rewrite <- list_fmap_compose. by apply list_fmap_ext.
Qed.

Lemma fold_left_fmap {A B C : Type} (f : C → B → C) (g : A → B) (l : list A) (c : C) :
  fold_left f (g <$> l) c = fold_left (λ c x, f c (g x)) l c.
Proof. revert c. induction l as [|x l IH]; intros c; simpl; [done | apply IH]. Qed.

Lemma fold_left_same {A C : Type} (f g : C → A → C) (l : list A) (c : C) :
  (∀ c x, f c x = g c x) → fold_left f l c = fold_left g l c.
Proof.
  intros Hfg. revert c. induction l as [|x l IH]; intros c; simpl; [done|].
  by rewrite Hfg, IH.
Qed.

(** ** Properties *)

Section Properties.

Variable float_parses : string → bool.
Variable to_datetime_ok : string → bool.
Variable repr_float : spec_float → string.
Variable str_timestamp : Z → string.

Local Abbreviation is_valid := (_is_valid float_parses to_datetime_ok).
Local Abbreviation run_validate_rows :=
  (validate_rows float_parses to_datetime_ok repr_float str_timestamp).
Local Abbreviation run_revalidate :=
  (revalidate float_parses to_datetime_ok repr_float str_timestamp).
Local Abbreviation classify := (detect_column_type float_parses to_datetime_ok).

(** *** Cell validator *)

Lemma is_valid_null v t : _is_null v = true → is_valid v t = true.
Proof. intros Hnull. unfold _is_valid. by rewrite Hnull. Qed.

(** C5: a null value, the expected type "string" and an expected type
    outside the five tags each make the cell validator answer true. *)
Theorem is_valid_always_passes (v : value) (t : string) :
  _is_null v = true ∨ t = "string"%string ∨ t ∉ TYPE_PRIORITY →
  is_valid v t = true.
Proof.
  intros [Hnull | [-> | Hout]].
  - by apply is_valid_null.
  - unfold _is_valid. by destruct (_is_null v).
  - unfold _is_valid, in_ALLOWED_TYPES.
    rewrite bool_decide_eq_false_2 by done.
    by destruct (_is_null v).
Qed.

(** *** Validation pipeline *)

Lemma validate_cell_fold row expected_types errs :
  fold_left (validate_cell float_parses to_datetime_ok repr_float str_timestamp row)
    expected_types errs
  = errs ++
    (item ← expected_types;
     if is_valid (cell row item.1) item.2 then []
     else [cell_error repr_float str_timestamp row item.1 item.2
             (cell row item.1)]).
Proof.
  revert errs. induction expected_types as [|[c t] et IH]; intros errs; simpl.
  - by rewrite app_nil_r.
  - rewrite IH. destruct (is_valid (cell row c) t); simpl.
    + done.
    + by rewrite <- app_assoc.
Qed.

Lemma validate_rows_fold rows expected_types errs :
  fold_left
    (λ errors row,
       fold_left
         (validate_cell float_parses to_datetime_ok repr_float str_timestamp row)
         expected_types errors)
    rows errs
  = errs ++ cell_errors float_parses to_datetime_ok repr_float str_timestamp
              rows expected_types.
Proof.
  unfold cell_errors. revert errs.
  induction rows as [|row rows IH]; intros errs; simpl.
  - by rewrite app_nil_r.
  - rewrite IH, validate_cell_fold. by rewrite <- app_assoc.
Qed.

Lemma validate_rows_errors rows expected_types :
  (run_validate_rows rows expected_types).1
  = cell_errors float_parses to_datetime_ok repr_float str_timestamp
      rows expected_types.
Proof. unfold validate_rows; simpl. by rewrite validate_rows_fold. Qed.

Lemma validate_rows_duplicates rows expected_types :
  (run_validate_rows rows expected_types).2
  = identify_duplicates rows (odict_keys expected_types).
Proof. done. Qed.

(** C2: the pipeline's errors are the failing cells of rows crossed with
    the expected-types columns, one error each with the stated message;
    a column missing from a row is validated as null; the duplicate
    groups are those of the same rows over the map's keys in order; and
    the single-row scenario gives exactly one error, on "Age". *)
Theorem validate_rows_pipeline :
  (∀ rows expected_types,
     run_validate_rows rows expected_types
     = (cell_errors float_parses to_datetime_ok repr_float str_timestamp
          rows expected_types,
        identify_duplicates rows (odict_keys expected_types)))
  ∧ (∀ row column expected_type v,
       err_message (cell_error repr_float str_timestamp row column expected_type v)
       = ("Expected " ++ expected_type ++ ", received '"
          ++ py_str repr_float str_timestamp v ++ "'")%string)
  ∧ (∀ row column expected_type,
       values row !! column = None →
       cell row column = VNone ∧ is_valid (cell row column) expected_type = true)
  ∧ (∃ e, run_validate_rows scenario_A_rows scenario_A_types = ([e], [])
          ∧ err_column e = "Age"%string ∧ err_rowId e = 0
          ∧ err_message e = "Expected integer, received 'abc'"%string).
Proof.
  split; [|split; [|split]].
  - intros rows expected_types.
    rewrite (surjective_pairing (run_validate_rows rows expected_types)).
    by rewrite validate_rows_errors, validate_rows_duplicates.
  - done.
  - unfold cell. intros row column expected_type Hnone. rewrite Hnone.
    split; [done | by apply is_valid_null].
  - eexists. split; [vm_compute; reflexivity | done].
Qed.

(** *** Duplicate detector with no columns *)

Lemma seen_after_no_columns_fold rows group :
  fold_left (λ seen row, setdefault_append seen (row_key [] row) (rowId row))
    rows [([], group)]
  = [([], group ++ (rowId <$> rows))].
Proof.
  revert group. induction rows as [|row rows IH]; intros group; simpl.
  - by rewrite app_nil_r.
  - rewrite IH. by rewrite <- app_assoc.
Qed.

Lemma identify_duplicates_no_columns rows :
  identify_duplicates rows []
  = if bool_decide (2 ≤ length rows)%nat then [rowId <$> rows] else [].
Proof.
  unfold identify_duplicates, seen_after.
  destruct rows as [|row rows]; [done|]. simpl.
  rewrite seen_after_no_columns_fold. simpl.
  rewrite filter_cons, filter_nil.
  case_decide as Hlen; case_bool_decide as Hrows;
    simpl in Hlen, Hrows; rewrite ?length_fmap in Hlen; try done; lia.
Qed.

(** C10: with an empty expected-types map every row has the empty tuple
    as its key; the pipeline returns no errors, and one group holding
    every rowId in row order when there are at least two rows, no group
    otherwise. *)
Theorem validate_rows_no_columns (rows : list Row) :
  (∀ row, row_key [] row = [])
  ∧ run_validate_rows rows []
    = ([], if bool_decide (2 ≤ length rows)%nat then [rowId <$> rows] else []).
Proof.
  split; [done|].
  rewrite (surjective_pairing (run_validate_rows rows [])).
  rewrite validate_rows_errors, validate_rows_duplicates.
  f_equal.
  - unfold cell_errors. induction rows as [|row rows IH]; [done|].
    by rewrite bind_cons, IH.
  - apply identify_duplicates_no_columns.
Qed.

(** *** Row removal *)

Lemma remove_rows_result session row_ids :
  (remove_rows session row_ids).2
  = imap (λ idx row, set_rowId (Z.of_nat idx) row)
      (filter (λ row, rowId row ∉ row_ids) (rows session)).
Proof.
  unfold remove_rows; simpl. f_equal.
  apply list_filter_iff. intros row. by rewrite elem_of_list_to_set.
Qed.

Lemma remove_rows_ids session row_ids :
  rowId <$> (remove_rows session row_ids).2
  = Z.of_nat <$> seq 0 (length (remove_rows session row_ids).2).
Proof.
  rewrite remove_rows_result, length_imap, fmap_imap.
  apply (imap_seq_0 _ Z.of_nat).
Qed.

(** C7: removal keeps exactly the rows whose rowId is not among the
    identifiers to delete, in their original order and with their values,
    renumbers them 0, 1, 2, ... and stores them in the session; removing
    {1} from rows 0, 1, 2 leaves rows 0 and 1, the latter being old row 2. *)
Theorem remove_rows_filters_and_renumbers (session : SessionData) (row_ids : list Z) :
  values <$> (remove_rows session row_ids).2
  = values <$> filter (λ row, rowId row ∉ row_ids) (rows session)
  ∧ rowId <$> (remove_rows session row_ids).2
    = Z.of_nat <$> seq 0 (length (remove_rows session row_ids).2)
  ∧ rows (remove_rows session row_ids).1 = (remove_rows session row_ids).2
  ∧ (remove_rows (sample_session scenario_E_rows) [1]).2
    = [plain_row 0 (VStr "a"); plain_row 1 (VStr "c")].
Proof.
  split; [|split; [|split]].
  - rewrite remove_rows_result, fmap_imap. apply imap_const.
  - apply remove_rows_ids.
  - done.
  - by vm_compute.
Qed.

(** *** Revalidation *)

Lemma cell_errors_ids rows expected_types e :
  e ∈ cell_errors float_parses to_datetime_ok repr_float str_timestamp
        rows expected_types →
  ∃ row, row ∈ rows ∧ rowId row = err_rowId e.
Proof.
  unfold cell_errors.
  intros (row & He & Hrow)%list_elem_of_bind. exists row. split; [done|].
  apply list_elem_of_bind in He as ([c t] & He & _). simpl in He.
  destruct (is_valid (cell row c) t); [by apply elem_of_nil in He|].
  by apply list_elem_of_singleton in He as ->.
Qed.

(** The state the loop over [session.column_info] ends in. *)
Lemma revalidate_loop coerced detected column_info acc :
  fold_left (revalidate_step coerced detected) column_info acc
  = (acc.1 ++ ((λ column, (revalidate_column coerced detected column).1)
                 <$> column_info),
     fold_left
       (λ expected column,
          odict_set expected (name column)
            (revalidate_column coerced detected column).2)
       column_info acc.2).
Proof.
  revert acc. induction column_info as [|column column_info IH]; intros acc.
  - simpl. rewrite app_nil_r. by destruct acc.
  - rewrite fmap_cons. cbn [fold_left]. rewrite IH. unfold revalidate_step.
    destruct (revalidate_column coerced detected column) as [column' expected].
    cbn [fst snd]. by rewrite <- app_assoc.
Qed.

Lemma revalidate_session session new_rows new_overrides column_info_payload :
  let replaced := replace_columns session column_info_payload in
  let coerced := coerce_overrides replaced.2 new_overrides in
  let expected := expected_types_of session new_overrides column_info_payload in
  let result := run_revalidate session new_rows new_overrides column_info_payload in
  rows result.1 = new_rows
  ∧ columns result.1 = replaced.2
  ∧ overrides result.1 = coerced
  ∧ detected_types result.1 = expected
  ∧ column_info result.1
    = (λ column, (revalidate_column coerced (detected_types session) column).1)
        <$> replaced.1
  ∧ errors result.1 = (run_validate_rows new_rows expected).1
  ∧ duplicate_groups result.1 = (run_validate_rows new_rows expected).2
  ∧ p_columns result.2 = column_info result.1
  ∧ p_rows result.2 = new_rows
  ∧ p_errors result.2 = errors result.1
  ∧ p_duplicateGroups result.2 = duplicate_groups result.1.
Proof.
  unfold revalidate, expected_types_of.
  destruct (replace_columns session column_info_payload) as [ci0 cols0].
  rewrite revalidate_loop. unfold validate_rows. cbn [fst snd app].
  by repeat split.
Qed.

(** C8: after rows are removed and the session is revalidated, every
    rowId an error or a duplicate group mentions is that of a remaining
    row, hence non-negative and below the number of remaining rows. *)
Theorem removal_then_revalidation_ids_in_range (session : SessionData)
    (row_ids : list Z) (overrides : gmap string (option string))
    (column_info_payload : option (list ColumnInfo)) :
  let removed := remove_rows session row_ids in
  let result := run_revalidate removed.1 removed.2 overrides column_info_payload in
  let count := Z.of_nat (length removed.2) in
  Forall (λ e, 0 ≤ err_rowId e < count) (errors result.1)
  ∧ Forall (Forall (λ row_id, 0 ≤ row_id < count)) (duplicate_groups result.1)
  ∧ p_errors result.2 = errors result.1
  ∧ p_duplicateGroups result.2 = duplicate_groups result.1
  ∧ length (rows result.1) = length removed.2.
Proof.
  intros removed result count.
  destruct (revalidate_session removed.1 removed.2 overrides column_info_payload)
    as (Hrows & _ & _ & _ & _ & Herrs & Hgroups & _ & _ & Hperrs & Hpgroups).
  fold result in Hrows, Herrs, Hgroups, Hperrs, Hpgroups.
  assert (∀ row, row ∈ removed.2 → 0 ≤ rowId row < count) as Hrange.
  { intros row (i & Hi)%list_elem_of_lookup.
    pose proof (remove_rows_ids session row_ids) as Hids.
    apply (f_equal (λ l, l !! i)) in Hids.
    fold removed in Hids.
    rewrite !list_lookup_fmap, Hi in Hids. simpl in Hids.
    apply lookup_lt_Some in Hi as Hlt.
    rewrite lookup_seq_lt in Hids by done. simpl in Hids.
    injection Hids as ->. unfold count. lia. }
  split; [|split; [|split; [done|split; [done|by rewrite Hrows]]]].
  - apply Forall_forall. intros e He. rewrite Herrs, validate_rows_errors in He.
    apply cell_errors_ids in He as (row & Hrow & <-). by apply Hrange.
  - apply Forall_forall. intros group Hg. apply Forall_forall. intros row_id Hid.
    rewrite Hgroups, validate_rows_duplicates in Hg.
    destruct (identify_duplicates_ids _ _ _ _ Hg Hid) as (row & Hrow & <-).
    by apply Hrange.
Qed.

(** C1, as amended: for an entry of the override map whose column is in
    the session, revalidation lower-cases the value and keeps it only if
    it is one of the five tags; a recognized value becomes the column's
    override and effective type; an unrecognized value is not stored and
    not applied: the column's entry in the session's overrides stays,
    holding None, no entry ever holds a string that is not a tag, the
    column object's overrideType is left as it was, and the effective
    type is that overrideType, else the detected type, else "string".
    The effective type recorded under a column name is the one of the
    last column object of that name, and it is the type the rows are
    validated against.  "INTEGER" normalizes to "integer"; "currency" is
    not a tag. *)
Theorem revalidate_normalizes_overrides (session : SessionData)
    (new_rows : list Row) (new_overrides : gmap string (option string))
    (column_info_payload : option (list ColumnInfo))
    (c : string) (v : option string) :
  let replaced := replace_columns session column_info_payload in
  let result :=
    (run_revalidate session new_rows new_overrides column_info_payload).1 in
  new_overrides !! c = Some v →
  c ∈ replaced.2 →
  _normalize_type v
  = (s ← v;
     if bool_decide (PyStr.lower s ∈ TYPE_PRIORITY) then Some (PyStr.lower s)
     else None)
  ∧ overrides result !! c = Some (_normalize_type v)
  ∧ (∀ k o, overrides result !! k = Some o →
            o = None ∨ ∃ t, o = Some t ∧ t ∈ TYPE_PRIORITY)
  ∧ (∀ column, column ∈ replaced.1 → name column = c →
       let outcome :=
         revalidate_column (overrides result) (detected_types session) column in
       match _normalize_type v with
       | Some t => outcome.2 = t ∧ overrideType outcome.1 = Some t
       | None =>
           outcome.2 = fallback_type session column
           ∧ overrideType outcome.1 = overrideType column
       end)
  ∧ (∀ column,
       last (filter (λ col, name col = c) replaced.1) = Some column →
       odict_get (detected_types result) c
       = Some (match _normalize_type v with
               | Some t => t
               | None => fallback_type session column
               end))
  ∧ errors result = (run_validate_rows new_rows (detected_types result)).1
  ∧ _normalize_type (Some "INTEGER"%string) = Some "integer"%string
  ∧ _normalize_type (Some "currency"%string) = None.
Proof.
  intros replaced result Hv Hc.
  destruct (revalidate_session session new_rows new_overrides column_info_payload)
    as (_ & _ & Hov & Hdt & _ & Herrs & _).
  fold replaced result in Hov, Hdt, Herrs.
  assert (overrides result !! c = Some (_normalize_type v)) as Hstored.
  { rewrite Hov, coerce_overrides_lookup, bool_decide_eq_true_2 by done.
    by rewrite Hv. }
  assert (∀ column, name column = c →
            let outcome :=
              revalidate_column (overrides result) (detected_types session)
                column in
            match _normalize_type v with
            | Some t => outcome.2 = t ∧ overrideType outcome.1 = Some t
            | None =>
                outcome.2 = fallback_type session column
                ∧ overrideType outcome.1 = overrideType column
            end) as Hcolumn.
  { intros column <-. apply revalidate_column_override; [done|].
    intros t. apply normalize_type_allowed. }
  split; [by destruct v|]. split; [done|].
  split; [|split; [|split; [|split; [|done]]]].
  - intros k o. rewrite Hov, coerce_overrides_lookup.
    case_bool_decide; [|done].
    destruct (new_overrides !! k) as [w|]; [|done]. simpl. intros [= <-].
    destruct (_normalize_type w) as [t|] eqn:Hw; [right | by left].
    exists t. split; [done|]. by eapply normalize_type_allowed.
  - intros column _. apply Hcolumn.
  - intros column Hlast. rewrite Hdt. unfold expected_types_of.
    fold replaced. rewrite odict_get_fold_set, Hlast. f_equal.
    apply last_Some_elem_of, list_elem_of_filter in Hlast as [Hname _].
    specialize (Hcolumn column Hname). cbv zeta in Hcolumn.
    rewrite Hov in Hcolumn.
    by destruct (_normalize_type v); destruct Hcolumn as [-> _].
  - by rewrite Herrs, Hdt.
Qed.

(** *** Re-running the pipeline *)

(** The first run records, under the name of the last column object of
    each name, that object's effective type. *)
Lemma recorded_expected_type {A : Type} (key_of val_of : A → string)
    (base : list A) (k : string) (x : A) :
  last (filter (λ y, key_of y = k) base) = Some x →
  odict_get (fold_left (λ d y, odict_set d (key_of y) (val_of y)) base [])
    (key_of x)
  = Some (val_of x).
Proof.
  intros Hlast. rewrite odict_get_fold_set.
  pose proof Hlast as [Hk _]%last_Some_elem_of%list_elem_of_filter.
  by rewrite Hk, Hlast.
Qed.

(** A second revalidation with the same request computes the expected
    types the first one computed. *)
Lemma expected_types_again session new_rows new_overrides column_info_payload :
  expected_types_of
    (run_revalidate session new_rows new_overrides column_info_payload).1
    new_overrides column_info_payload
  = expected_types_of session new_overrides column_info_payload.
Proof.
  destruct (revalidate_session session new_rows new_overrides column_info_payload)
    as (_ & Hcols & _ & Hdt & Hci & _).
  cbv zeta in Hcols, Hdt, Hci.
  set (s1 := (run_revalidate session new_rows new_overrides
                column_info_payload).1) in *.
  unfold expected_types_of in *.
  assert ((∃ p ps, column_info_payload = Some (p :: ps))
          ∨ ¬ (∃ p ps, column_info_payload = Some (p :: ps)))
    as [(p & ps & ->) | Hkept].
  { destruct column_info_payload as [[|p ps]|].
    - right. by intros (p & ps & ?).
    - left. by exists p, ps.
    - right. by intros (p & ps & ?). }
  - (* a non-empty column list replaces the session's column objects *)
    rewrite !replace_columns_payload in *. cbn [fst snd] in *.
    rewrite fold_left_fmap in Hdt. rewrite !fold_left_fmap.
    apply (odict_fold_set_ext name). intros k x Hlast.
    apply revalidate_payload_column_again.
    rewrite Hdt.
    exact (recorded_expected_type name
             (λ y, (revalidate_column _ (detected_types session)
                      (payload_column (detected_types session) y)).2)
             _ k x Hlast).
  - (* otherwise the session's column objects are kept *)
    assert (∀ s, replace_columns s column_info_payload
                 = (column_info s, columns s)) as Hrep.
    { intros s. destruct column_info_payload as [[|p ps]|]; try done.
      destruct Hkept. by exists p, ps. }
    rewrite !Hrep in *. cbn [fst snd] in *.
    rewrite Hcols, Hci, fold_left_fmap.
    rewrite (fold_left_same _
               (λ d x, odict_set d (name x)
                  (revalidate_column (coerce_overrides (columns session) new_overrides)
                     (detected_types s1)
                     (revalidate_column
                        (coerce_overrides (columns session) new_overrides)
                        (detected_types session) x).1).2)).
    2:{ intros d x. by rewrite revalidate_column_name. }
    apply odict_fold_set_ext. intros k x Hlast.
    apply revalidate_column_again.
    rewrite Hdt.
    exact (recorded_expected_type name
             (λ y, (revalidate_column _ (detected_types session) y).2)
             _ k x Hlast).
Qed.

(** *** Running the pipeline again *)

(** A loop whose body, on each item, leaves the heap as it was runs as a
    fold over what the items hold. *)
Lemma for_each_reads {A B S : Type} (h : heap) (body : S → A → Py S)
    (step : S → B → S) (items : list A) (held : list B) (s : S) :
  Forall2 (λ item x, ∀ s, body s item h = Some (h, step s x)) items held →
  for_each body items s h = Some (h, fold_left step held s).
Proof.
  intros Hbody. revert s.
  induction Hbody as [|item x items held Hitem _ IH]; intros s; [done|].
  simpl. unfold py_bind at 1. rewrite Hitem. apply IH.
Qed.

Lemma heap_rows_items h l rows :
  heap_rows h l = Some rows →
  ∃ items, h !! l = Some (ListObject items)
           ∧ Forall2 (λ item row, heap_row h item = Some row) items rows.
Proof.
  unfold heap_rows. destruct (h !! l) as [[items | |]|]; try done.
  intros Hrows%mapM_Some. by exists items.
Qed.

Lemma load_row_held h item row :
  heap_row h item = Some row → load_row item h = Some (h, row).
Proof.
  unfold heap_row, load_row.
  destruct (h !! item) as [[| r |]|]; try done. by intros [= ->].
Qed.

Lemma load_types_held h l types :
  heap_types h l = Some types → load_types l h = Some (h, types).
Proof.
  unfold heap_types, load_types.
  destruct (h !! l) as [[| | t]|]; try done. by intros [= ->].
Qed.

(** On a heap that holds its arguments, the detector returns what the
    function of the rows returns and leaves the heap as it was. *)
Lemma identify_duplicates_on_heap_reads h l rows columns :
  heap_rows h l = Some rows →
  identify_duplicates_on_heap l columns h
  = Some (h, identify_duplicates rows columns).
Proof.
  intros (items & Hl & Hitems)%heap_rows_items.
  unfold identify_duplicates_on_heap, py_bind at 1, load_list. rewrite Hl.
  unfold py_bind at 1.
  rewrite (for_each_reads h _
             (λ seen row, setdefault_append seen (row_key columns row)
                            (rowId row)) items rows).
  - done.
  - eapply Forall2_impl; [exact Hitems|]. intros item row Hrow seen.
    unfold py_bind. by rewrite (load_row_held _ _ _ Hrow).
Qed.

(** The same for the pipeline. *)
Lemma validate_rows_on_heap_reads h rows_ref types_ref rows expected_types :
  heap_rows h rows_ref = Some rows →
  heap_types h types_ref = Some expected_types →
  validate_rows_on_heap float_parses to_datetime_ok repr_float str_timestamp
    rows_ref types_ref h
  = Some (h, run_validate_rows rows expected_types).
Proof.
  intros Hrows Htypes.
  pose proof Hrows as (items & Hl & Hitems)%heap_rows_items.
  pose proof (load_types_held _ _ _ Htypes) as Hload.
  unfold validate_rows_on_heap, py_bind at 1, load_list. rewrite Hl.
  unfold py_bind at 1.
  rewrite (for_each_reads h _
             (λ errors row,
                fold_left (validate_cell float_parses to_datetime_ok
                             repr_float str_timestamp row)
                  expected_types errors) items rows).
  - unfold py_bind at 1. rewrite Hload. unfold py_bind at 1.
    by rewrite (identify_duplicates_on_heap_reads _ _ rows).
  - eapply Forall2_impl; [exact Hitems|]. intros item row Hrow errors.
    unfold py_bind at 1. rewrite Hload.
    apply for_each_reads, Forall_Forall2_diag, Forall_forall.
    intros [column expected_type] _ errs.
    unfold py_bind. by rewrite (load_row_held _ _ _ Hrow).
Qed.

(** C9: run on a heap that holds a list of rows and a dictionary of
    effective types, the pipeline ends without an exception, returns an
    error list and duplicate groups and leaves the heap as it was: it
    writes to none of its arguments.  Run a second time on the heap the
    first run left, with the same arguments, it returns the same error
    list and the same duplicate groups.  The result is that of the rows
    and types the arguments hold, so it is the same again for any other
    objects, on any other heap, that hold the same rows and types. *)
Theorem validation_rerun_identical (h : heap) (rows_ref types_ref : loc)
    (rows : list Row) (expected_types : odict string) :
  heap_rows h rows_ref = Some rows →
  heap_types h types_ref = Some expected_types →
  let run :=
    validate_rows_on_heap float_parses to_datetime_ok repr_float
      str_timestamp in
  ∃ errors duplicate_groups,
    run rows_ref types_ref h = Some (h, (errors, duplicate_groups))
    ∧ py_bind (run rows_ref types_ref)
        (λ first, py_bind (run rows_ref types_ref)
                    (λ second, py_ret (first, second))) h
      = Some (h, ((errors, duplicate_groups), (errors, duplicate_groups)))
    ∧ (errors, duplicate_groups) = run_validate_rows rows expected_types
    ∧ ∀ h' rows_ref' types_ref',
        heap_rows h' rows_ref' = Some rows →
        heap_types h' types_ref' = Some expected_types →
        run rows_ref' types_ref' h' = Some (h', (errors, duplicate_groups)).
Proof.
  intros Hrows Htypes run.
  pose proof (validate_rows_on_heap_reads h rows_ref types_ref rows
                expected_types Hrows Htypes) as Hrun.
  fold run in Hrun.
  exists (run_validate_rows rows expected_types).1,
         (run_validate_rows rows expected_types).2.
  rewrite <- surjective_pairing.
  split; [exact Hrun|]. split; [|split; [done|]].
  - unfold py_bind. rewrite Hrun. by rewrite Hrun.
  - intros h' rows_ref' types_ref' Hrows' Htypes'.
    by apply validate_rows_on_heap_reads.
Qed.

(** X23: a session revalidated twice with the same request gets the
    same effective types, errors and duplicate groups the second time,
    whatever the session held before the first run. *)
Lemma revalidate_rerun_identical session new_rows new_overrides
    column_info_payload :
  let once :=
    (revalidate float_parses to_datetime_ok repr_float str_timestamp
       session new_rows new_overrides column_info_payload).1 in
  let twice :=
    (revalidate float_parses to_datetime_ok repr_float str_timestamp
       once new_rows new_overrides column_info_payload).1 in
  detected_types twice = detected_types once
  ∧ errors twice = errors once
  ∧ duplicate_groups twice = duplicate_groups once.
Proof.
  intros once twice.
  destruct (revalidate_session session new_rows new_overrides
              column_info_payload) as (_ & _ & _ & Hdt & _ & Herrs & Hgroups & _).
  destruct (revalidate_session once new_rows new_overrides
              column_info_payload) as (_ & _ & _ & Hdt' & _ & Herrs' & Hgroups' & _).
  fold once in Hdt, Herrs, Hgroups. fold twice in Hdt', Herrs', Hgroups'.
  unfold once in Hdt', Herrs', Hgroups'.
  rewrite expected_types_again in Hdt', Herrs', Hgroups'.
  by rewrite Hdt', Herrs', Hgroups', Hdt, Herrs, Hgroups.
Qed.
(** *** Type classifier *)

Local Abbreviation tag_of := (most_specific float_parses to_datetime_ok).
Local Abbreviation count_of := (tag_count float_parses to_datetime_ok).
Local Abbreviation scores_of := (column_scores float_parses to_datetime_ok).
Local Abbreviation accepted := (accepts float_parses to_datetime_ok).

(** The first accepting tag, as the chain of tests of the source finds it. *)
Lemma most_specific_chain v :
  tag_of v
  = if _is_null v then None
    else Some (if _looks_like_int v then "integer"
               else if _looks_like_float float_parses v then "float"
               else if _looks_like_bool v then "boolean"
               else if _looks_like_date to_datetime_ok v then "date"
               else "string")%string.
Proof.
  unfold most_specific. destruct (_is_null v); [done|].
  unfold TYPE_PRIORITY, accepts. simpl.
  destruct (_looks_like_int v); [done|].
  destruct (_looks_like_float float_parses v); [done|].
  destruct (_looks_like_bool v); [done|].
  by destruct (_looks_like_date to_datetime_ok v).
Qed.

Lemma bump_lookup scores type_name t :
  bump type_name scores !!! t
  = scores !!! t + (if bool_decide (type_name = t) then 1 else 0).
Proof.
  unfold bump. case_bool_decide as Heq.
  - subst. by rewrite lookup_total_insert_eq.
  - rewrite lookup_total_insert_ne by done. lia.
Qed.

Lemma score_value_lookup scores v t :
  score_value float_parses to_datetime_ok scores v !!! t
  = scores !!! t + (if bool_decide (tag_of v = Some t) then 1 else 0).
Proof.
  rewrite most_specific_chain. unfold score_value.
  destruct (_is_null v).
  { rewrite bool_decide_eq_false_2 by done. lia. }
  assert (∀ a : string, bool_decide (Some a = Some t) = bool_decide (a = t)) as Hsome.
  { intros a. apply bool_decide_ext. split; congruence. }
  rewrite Hsome.
  destruct (_looks_like_int v); [apply bump_lookup|].
  destruct (_looks_like_float float_parses v); [apply bump_lookup|].
  destruct (_looks_like_bool v); [apply bump_lookup|].
  destruct (_looks_like_date to_datetime_ok v); apply bump_lookup.
Qed.

Lemma fold_score_value_lookup vs scores t :
  fold_left (score_value float_parses to_datetime_ok) vs scores !!! t
  = scores !!! t + count_of t vs.
Proof.
  unfold tag_count. revert scores.
  induction vs as [|v vs IH]; intros scores; simpl.
  - lia.
  - rewrite IH, score_value_lookup, filter_cons.
    case_bool_decide as Htag.
    + rewrite decide_True by done. simpl. lia.
    + rewrite decide_False by done. lia.
Qed.

Lemma initial_scores_lookup t : t ∈ TYPE_PRIORITY → initial_scores !!! t = 0.
Proof.
  unfold initial_scores, TYPE_PRIORITY. simpl. intros Ht.
  rewrite !lookup_total_insert.
  repeat case_decide; try done.
  repeat (apply elem_of_cons in Ht as [-> | Ht]; [done|]).
  by apply elem_of_nil in Ht.
Qed.

Lemma column_scores_count vs t :
  t ∈ TYPE_PRIORITY → scores_of vs !!! t = count_of t vs.
Proof.
  intros Ht. unfold column_scores.
  rewrite fold_score_value_lookup, initial_scores_lookup by done. lia.
Qed.

Lemma tag_count_nonneg t vs : 0 ≤ count_of t vs.
Proof. unfold tag_count. lia. Qed.

Lemma tag_count_all_null t vs :
  Forall (λ v, _is_null v = true) vs → count_of t vs = 0.
Proof.
  intros Hnull. unfold tag_count. rewrite filter_none; [done|].
  intros v Hv Htag. rewrite Forall_forall in Hnull.
  rewrite most_specific_chain, (Hnull v Hv) in Htag. done.
Qed.

Lemma priority_position t i j :
  TYPE_PRIORITY !! i = Some t →
  py_index TYPE_PRIORITY t = Some j → i = j.
Proof.
  unfold TYPE_PRIORITY. intros Hi Hj.
  do 5 (destruct i as [|i]; [injection Hi as <-; by injection Hj as <-|]).
  done.
Qed.

Lemma priority_index t :
  t ∈ TYPE_PRIORITY →
  ∃ j, py_index TYPE_PRIORITY t = Some j ∧ TYPE_PRIORITY !! j = Some t.
Proof.
  unfold TYPE_PRIORITY. intros Ht.
  repeat (apply elem_of_cons in Ht as [-> | Ht]; [by eexists|]).
  by apply elem_of_nil in Ht.
Qed.

(** The classifier's answer in terms of the per-tag counts. *)
Lemma detect_column_type_best vs :
  let best := classify vs in
  (best ∈ TYPE_PRIORITY)
  ∧ ((∀ t, t ∈ TYPE_PRIORITY → count_of t vs = 0) → best = "string"%string)
  ∧ ((∃ t, t ∈ TYPE_PRIORITY ∧ count_of t vs ≠ 0) →
     ∀ i t, TYPE_PRIORITY !! i = Some t →
       count_of t vs ≤ count_of best vs
       ∧ (count_of t vs = count_of best vs →
          ∃ j, TYPE_PRIORITY !! j = Some best ∧ (j ≤ i)%nat)).
Proof.
  cbv zeta. unfold detect_column_type.
  set (scores := scores_of vs).
  set (key := priority_key scores).
  assert (py_max key TYPE_PRIORITY
          = Some (max_from key "integer"%string
                    ["float"; "boolean"; "date"; "string"]%string)) as -> by done.
  destruct (max_from_greatest key "integer"%string
              ["float"; "boolean"; "date"; "string"]%string)
    as (Hin & Hfirst & Hrest).
  set (m := max_from key "integer"%string _) in *.
  assert (m ∈ TYPE_PRIORITY) as Hm.
  { destruct Hin as [-> | Hin]; [by left | by right]. }
  assert (∀ t, t ∈ TYPE_PRIORITY → pair_le (key t) (key m)) as Hmax.
  { intros t [-> | Ht]%elem_of_cons; [done | by apply Hrest]. }
  assert (∀ t, t ∈ TYPE_PRIORITY → scores !!! t = count_of t vs) as Hscores.
  { intros t Ht. by apply column_scores_count. }
  assert (∀ t, t ∈ TYPE_PRIORITY → count_of t vs ≤ count_of m vs) as Hle.
  { intros t Ht. specialize (Hmax t Ht).
    unfold pair_le, key, priority_key in Hmax.
    simpl in Hmax. rewrite !Hscores in Hmax by done. lia. }
  split; [|split].
  - destruct (scores !!! m =? 0); [|done].
    apply list_elem_of_lookup. by exists 4%nat.
  - intros Hzero. destruct (scores !!! m =? 0) eqn:Hz; [done|].
    by rewrite Hscores, Hzero, Z.eqb_refl in Hz.
  - intros (t0 & Ht0 & Hnz) i t Hi.
    assert ((scores !!! m =? 0) = false) as ->.
    { apply Z.eqb_neq. rewrite Hscores by done.
      pose proof (Hle t0 Ht0). pose proof (tag_count_nonneg t0 vs). lia. }
    assert (t ∈ TYPE_PRIORITY) as Ht by (by eapply list_elem_of_lookup_2).
    split; [by apply Hle|].
    intros Heq. specialize (Hmax t Ht).
    unfold pair_le, key, priority_key in Hmax. cbn [fst snd] in Hmax.
    rewrite !Hscores, Heq in Hmax by done.
    destruct Hmax as [Hlt | [_ Hidx]]; [lia|].
    destruct (priority_index m Hm) as (j & Hj & Hjm).
    destruct (priority_index t Ht) as (i' & Hi' & _).
    pose proof (priority_position t i i' Hi Hi') as <-.
    rewrite Hj, Hi' in Hidx. simpl in Hidx.
    exists j. split; [done | lia].
Qed.

Lemma most_specific_first v :
  _is_null v = false →
  ∃ i t, tag_of v = Some t
         ∧ TYPE_PRIORITY !! i = Some t
         ∧ accepted t v = true
         ∧ ∀ j t', TYPE_PRIORITY !! j = Some t' → (j < i)%nat →
                   accepted t' v = false.
Proof.
  intros Hnull. unfold most_specific. rewrite Hnull.
  destruct (list_find (λ t, accepted t v = true) TYPE_PRIORITY)
    as [[i t]|] eqn:Hfind.
  - apply list_find_Some in Hfind as (Hi & Ht & Hbefore).
    exists i, t. repeat split; try done.
    intros j t' Hj Hlt. apply not_true_is_false. by eapply Hbefore.
  - exfalso. rewrite list_find_None, Forall_forall in Hfind.
    apply (Hfind "string"%string); [|done].
    apply list_elem_of_lookup. by exists 4%nat.
Qed.

(** C3: the classifier's scores are the per-tag counts of the non-null
    values; its answer is "string" when every count is zero (in
    particular when every value is null or empty) and otherwise a tag of
    highest count, the one of highest priority among those. *)
Theorem classify_highest_count (vs : list value) :
  (∀ t, t ∈ TYPE_PRIORITY → scores_of vs !!! t = count_of t vs)
  ∧ classify vs ∈ TYPE_PRIORITY
  ∧ ((∀ t, t ∈ TYPE_PRIORITY → count_of t vs = 0) →
     classify vs = "string"%string)
  ∧ ((∃ t, t ∈ TYPE_PRIORITY ∧ count_of t vs ≠ 0) →
     ∀ i t, TYPE_PRIORITY !! i = Some t →
       count_of t vs ≤ count_of (classify vs) vs
       ∧ (count_of t vs = count_of (classify vs) vs →
          ∃ j, TYPE_PRIORITY !! j = Some (classify vs) ∧ (j ≤ i)%nat))
  ∧ (Forall (λ v, _is_null v = true) vs → classify vs = "string"%string).
Proof.
  destruct (detect_column_type_best vs) as (Hin & Hzero & Hbest).
  split; [intros t Ht; by apply column_scores_count|].
  split; [done|]. split; [done|]. split; [done|].
  intros Hnull. apply Hzero. intros t _. by apply tag_count_all_null.
Qed.

(** C4: a null value changes no counter; a non-null value adds one to
    the counter of the first tag, in the order integer, float, boolean,
    date, string, whose predicate accepts it, and to no other; booleans
    are neither integer nor float; integers, floats with a whole value
    and digit strings with an optional leading minus sign are integer;
    and the values 1, "2", "03", None, "" classify as "integer". *)
Theorem classification_counts_first_accepting_tag :
  (∀ scores v, _is_null v = true →
     score_value float_parses to_datetime_ok scores v = scores)
  ∧ (∀ scores v t,
       score_value float_parses to_datetime_ok scores v !!! t
       = scores !!! t + (if bool_decide (tag_of v = Some t) then 1 else 0))
  ∧ (∀ v, _is_null v = false →
       ∃ i t, tag_of v = Some t
              ∧ TYPE_PRIORITY !! i = Some t
              ∧ accepted t v = true
              ∧ ∀ j t', TYPE_PRIORITY !! j = Some t' → (j < i)%nat →
                        accepted t' v = false)
  ∧ (∀ b, _looks_like_int (VBool b) = false
          ∧ _looks_like_float float_parses (VBool b) = false)
  ∧ (∀ n, _looks_like_int (VInt n) = true)
  ∧ (∀ f q z, float_num f = NumFin q → (q == inject_Z z)%Q →
              _looks_like_int (VFloat f) = true)
  ∧ (∀ (minus : bool) digits, PyStr.isdigit digits = true →
       _looks_like_int (VStr ((if minus then "-" else "") ++ digits)) = true)
  ∧ classify scenario_C_values = "integer"%string.
Proof.
  split. { intros scores v Hnull. unfold score_value. by rewrite Hnull. }
  split; [apply score_value_lookup|].
  split; [apply most_specific_first|].
  split; [done|]. split; [done|].
  split. { intros f q z Hf Hq. simpl. by eapply is_integer_whole. }
  split; [apply looks_like_int_digits|].
  by vm_compute.
Qed.

End Properties.

(** ** Instances on the sample data *)

Lemma is_valid_always_passes_witness :
  ("currency"%string ∉ TYPE_PRIORITY)
  ∧ _is_valid no_parse no_parse (VStr "abc") "currency" = true.
Proof.
  assert ("currency"%string ∉ TYPE_PRIORITY) as Hout.
  { apply (bool_decide_unpack _). vm_compute. exact I. }
  split; [exact Hout|].
  apply (is_valid_always_passes no_parse no_parse (VStr "abc") "currency").
  right. right. exact Hout.
Defined.

Lemma validate_rows_pipeline_witness :
  values (plain_row 0 (VStr "a")) !! "B"%string = None
  ∧ cell (plain_row 0 (VStr "a")) "B" = VNone
  ∧ _is_valid no_parse no_parse (cell (plain_row 0 (VStr "a")) "B") "integer" = true.
Proof.
  assert (values (plain_row 0 (VStr "a")) !! "B"%string = None) as Habsent.
  { vm_compute. reflexivity. }
  split; [exact Habsent|].
  exact (proj1 (proj2 (proj2
           (validate_rows_pipeline no_parse no_parse
              sample_repr_float sample_str_timestamp)))
           (plain_row 0 (VStr "a")) "B"%string "integer"%string Habsent).
Defined.

Lemma classify_highest_count_witness :
  Forall (λ v, _is_null v = true) [VNone; VStr "  "; VFloat S754_nan]
  ∧ detect_column_type no_parse no_parse [VNone; VStr "  "; VFloat S754_nan]
    = "string"%string.
Proof.
  assert (Forall (λ v, _is_null v = true) [VNone; VStr "  "; VFloat S754_nan])
    as Hnull.
  { repeat constructor. }
  split; [exact Hnull|].
  exact (proj2 (proj2 (proj2 (proj2
           (classify_highest_count no_parse no_parse
              [VNone; VStr "  "; VFloat S754_nan])))) Hnull).
Defined.

Lemma classification_counts_first_accepting_tag_witness :
  PyStr.isdigit "03" = true
  ∧ _looks_like_int (VStr (("-" ++ "03")%string)) = true.
Proof.
  assert (PyStr.isdigit "03" = true) as Hdigits by reflexivity.
  split; [exact Hdigits|].
  exact (proj1 (proj2 (proj2 (proj2 (proj2 (proj2 (proj2
           (classification_counts_first_accepting_tag no_parse no_parse)))))))
           true "03"%string Hdigits).
Defined.

Lemma identify_duplicates_groups_by_key_witness :
  (∀ s, VInt 3 ≠ VStr s) ∧ VInt 3 ≠ VFloat S754_nan
  ∧ _coerce_duplicate_value (VInt 3) = VInt 3.
Proof.
  assert (∀ s, VInt 3 ≠ VStr s) as Hstr by (intros s; discriminate).
  assert (VInt 3 ≠ VFloat S754_nan) as Hnan by discriminate.
  split; [exact Hstr|]. split; [exact Hnan|].
  exact (proj2 (proj2 (proj2 (proj2 (proj2
           (identify_duplicates_groups_by_key scenario_E_rows ["A"%string])))))
           (VInt 3) Hstr Hnan).
Defined.

Lemma revalidate_normalizes_overrides_witness :
  sample_overrides !! "A"%string = Some (Some "Currency"%string)
  ∧ "A"%string ∈ (replace_columns (sample_session scenario_E_rows) None).2
  ∧ overrides
      (revalidate no_parse no_parse sample_repr_float sample_str_timestamp
         (sample_session scenario_E_rows) scenario_E_rows sample_overrides None).1
    !! "A"%string
    = Some (_normalize_type (Some "Currency"%string)).
Proof.
  assert (sample_overrides !! "A"%string = Some (Some "Currency"%string)) as Hentry.
  { vm_compute. reflexivity. }
  assert ("A"%string ∈ (replace_columns (sample_session scenario_E_rows) None).2)
    as Hcolumn.
  { simpl. left. }
  split; [exact Hentry|]. split; [exact Hcolumn|].
  exact (proj1 (proj2
           (revalidate_normalizes_overrides no_parse no_parse
              sample_repr_float sample_str_timestamp
              (sample_session scenario_E_rows) scenario_E_rows sample_overrides
              None "A"%string (Some "Currency"%string) Hentry Hcolumn))).
Defined.

Lemma validation_rerun_identical_witness :
  heap_rows sample_heap 0%nat
  = Some [plain_row 5 (VStr "abc"); plain_row 6 (VStr "abc")]
  ∧ heap_types sample_heap 3%nat = Some [("A", "integer")]%string
  ∧ ∃ errors duplicate_groups,
      validate_rows_on_heap no_parse no_parse sample_repr_float
        sample_str_timestamp 0%nat 3%nat sample_heap
      = Some (sample_heap, (errors, duplicate_groups))
      ∧ py_bind
          (validate_rows_on_heap no_parse no_parse sample_repr_float
             sample_str_timestamp 0%nat 3%nat)
          (λ first,
             py_bind
               (validate_rows_on_heap no_parse no_parse sample_repr_float
                  sample_str_timestamp 0%nat 3%nat)
               (λ second, py_ret (first, second))) sample_heap
        = Some (sample_heap,
                ((errors, duplicate_groups), (errors, duplicate_groups)))
      ∧ length errors = 2%nat
      ∧ duplicate_groups = [[5; 6]].
Proof.
  assert (heap_rows sample_heap 0%nat
          = Some [plain_row 5 (VStr "abc"); plain_row 6 (VStr "abc")]) as Hrows.
  { vm_compute. reflexivity. }
  assert (heap_types sample_heap 3%nat = Some [("A", "integer")]%string)
    as Htypes.
  { vm_compute. reflexivity. }
  split; [exact Hrows|]. split; [exact Htypes|].
  destruct (validation_rerun_identical no_parse no_parse sample_repr_float
              sample_str_timestamp sample_heap 0%nat 3%nat _ _ Hrows Htypes)
    as (errors & duplicate_groups & Hrun & Htwice & Hresult & _).
  exists errors, duplicate_groups.
  split; [exact Hrun|]. split; [exact Htwice|].
  vm_compute in Hresult. injection Hresult as -> ->.
  split; reflexivity.
Defined.

(** The renumbering loop of [remove_rows] writes to the rows: run between
    two runs of the pipeline, it changes what the second run returns. *)
Lemma rerun_after_renumbering_differs :
  ∃ h first second,
    py_bind
      (validate_rows_on_heap no_parse no_parse sample_repr_float
         sample_str_timestamp 0%nat 3%nat)
      (λ first,
         py_bind (renumber_on_heap [1%nat; 2%nat])
           (λ _,
              py_bind
                (validate_rows_on_heap no_parse no_parse sample_repr_float
                   sample_str_timestamp 0%nat 3%nat)
                (λ second, py_ret (first, second)))) sample_heap
    = Some (h, (first, second))
    ∧ h ≠ sample_heap
    ∧ err_rowId <$> first.1 = [5; 6] ∧ err_rowId <$> second.1 = [0; 1]
    ∧ first.2 = [[5; 6]] ∧ second.2 = [[0; 1]].
Proof.
  eexists _, _, _. split; [vm_compute; reflexivity|].
  split; [|by vm_compute].
  intros Hsame.
  assert (heap_row sample_heap 1%nat = Some (plain_row 5 (VStr "abc"))) as Hrow
    by (vm_compute; reflexivity).
  rewrite <- Hsame in Hrow. vm_compute in Hrow. discriminate Hrow.
Qed.

(** C1 as stated fails on the sample request: "Currency" is no tag, and
    after the revalidation the session's overrides still have an entry
    for the column, holding None. *)
Lemma unrecognized_override_entry_stored :
  sample_overrides !! "A"%string = Some (Some "Currency"%string)
  ∧ "A"%string ∈ columns (sample_session scenario_E_rows)
  ∧ _normalize_type (Some "Currency"%string) = None
  ∧ overrides
      (revalidate no_parse no_parse sample_repr_float sample_str_timestamp
         (sample_session scenario_E_rows) scenario_E_rows sample_overrides
         None).1
    = {["A"%string := None]}
  ∧ overrides
      (revalidate no_parse no_parse sample_repr_float sample_str_timestamp
         (sample_session scenario_E_rows) scenario_E_rows sample_overrides
         None).1 !! "A"%string
    ≠ None.
Proof.
  split; [by vm_compute|]. split; [by left|]. split; [reflexivity|].
  split; [by vm_compute|]. by vm_compute.
Qed.


(** ** More on the duplicate detector *)

Lemma setdefault_append_ids seen key row_id :
  concat (setdefault_append seen key row_id).*2 ≡ₚ concat seen.*2 ++ [row_id].
Proof.
  induction seen as [|[k group] seen IH]; simpl; [done|].
  destruct (key_eqb k key); simpl.
  - rewrite <- !app_assoc. apply Permutation_app_head, Permutation_app_comm.
  - rewrite IH. by rewrite app_assoc.
Qed.

Lemma seen_after_ids columns rows :
  concat (seen_after columns rows).*2 ≡ₚ rowId <$> rows.
Proof.
  unfold seen_after.
  induction rows as [|row rows IH] using rev_ind; [done|].
  rewrite fold_left_app, fmap_app. simpl.
  by rewrite setdefault_append_ids, IH.
Qed.

Lemma concat_filter_submseteq {A : Type} (P : list A → Prop)
    `{!∀ x, Decision (P x)} (ls : list (list A)) :
  concat (filter P ls) ⊆+ concat ls.
Proof.
  induction ls as [|l ls IH]; [done|].
  rewrite filter_cons. simpl. case_decide.
  - simpl. by apply submseteq_skips_l.
  - by apply submseteq_inserts_l.
Qed.

Lemma identify_duplicates_submseteq rows columns :
  concat (identify_duplicates rows columns) ⊆+ rowId <$> rows.
Proof.
  unfold identify_duplicates.
  etrans; [apply concat_filter_submseteq|].
  apply Permutation_submseteq, seen_after_ids.
Qed.

(** *** Tables without duplicates *)

Section Classes.

Variable columns : list string.

Local Abbreviation key := (row_key columns).
Local Abbreviation same_key r r' := (key_eqb (key r) (key r') = true).

Lemma same_key_sym r r' : same_key r r' → same_key r' r.
Proof. intros H. by rewrite key_eqb_sym. Qed.

Lemma same_key_trans r1 r2 r3 : same_key r1 r2 → same_key r2 r3 → same_key r1 r3.
Proof. apply key_eqb_trans. Qed.

(** Each row is alone in its class exactly when the keys are distinct. *)
Lemma distinct_keys_classes rows :
  distinct_keys columns rows
  ↔ ∀ r, r ∈ rows → (length (filter (λ x, same_key r x) rows) < 2)%nat.
Proof.
  induction rows as [|a rows IH]; simpl.
  - split; [|done]. intros _ r Hr. by apply elem_of_nil in Hr.
  - split.
    + intros [Ha Hrows] r Hr. rewrite filter_cons.
      apply elem_of_cons in Hr as [-> | Hr].
      * rewrite decide_True by apply row_key_eqb_refl.
        rewrite filter_none; [simpl; lia|]. intros x Hx. by apply Ha.
      * rewrite decide_False.
        { apply IH; done. }
        intros Hra. apply (Ha r Hr). by apply same_key_sym.
    + intros Hall. split.
      * intros f' Hf' Hsame.
        pose proof (Hall a (list_elem_of_here _ _)) as Hlen.
        rewrite filter_cons, decide_True in Hlen by apply row_key_eqb_refl.
        simpl in Hlen.
        assert (f' ∈ filter (λ x, same_key a x) rows) as Hin
          by (by apply list_elem_of_filter).
        destruct (filter (λ x, same_key a x) rows); [by apply elem_of_nil in Hin|].
        simpl in Hlen. lia.
      * apply IH. intros r Hr.
        pose proof (Hall r (list_elem_of_further _ _ _ Hr)) as Hlen.
        rewrite filter_cons in Hlen. case_decide; simpl in Hlen; lia.
Qed.

Lemma no_duplicates_distinct_keys rows :
  identify_duplicates rows columns = [] ↔ distinct_keys columns rows.
Proof.
  rewrite duplicates_are_groups, distinct_keys_classes.
  unfold duplicate_groups_of.
  destruct (first_seen_facts columns rows) as (Hsub & Hcov & _).
  split.
  - intros Hnil r Hr.
    apply Hcov, Exists_exists in Hr as (f & Hf & Hfr).
    rewrite (list_filter_iff _ (λ x, same_key f x)).
    2:{ intros x. split; intros Hx.
        - by apply same_key_trans with r.
        - apply same_key_trans with f; [by apply same_key_sym | done]. }
    destruct (decide (2 ≤ length (same_key_ids columns rows f))%nat) as [Hlen|Hlen].
    + exfalso.
      assert (same_key_ids columns rows f
              ∈ filter (λ group, (2 ≤ length group)%nat)
                  (same_key_ids columns rows <$> first_seen columns [] rows)) as Hin.
      { apply list_elem_of_filter. split; [done|].
        apply list_elem_of_fmap. by exists f. }
      rewrite Hnil in Hin. by apply elem_of_nil in Hin.
    + unfold same_key_ids in Hlen. rewrite length_fmap in Hlen. lia.
  - intros Hall. apply filter_none.
    intros group (f & -> & Hf)%list_elem_of_fmap Hlen.
    specialize (Hall f (Hsub f Hf)).
    unfold same_key_ids in Hlen. rewrite length_fmap in Hlen. lia.
Qed.

End Classes.

(** *** Removing the later rows of every duplicate group *)

Lemma fmap_inj_on_NoDup {A B : Type} (f : A → B) (l : list A) (x y : A) :
  NoDup (f <$> l) → x ∈ l → y ∈ l → f x = f y → x = y.
Proof.
  induction l as [|a l IH]; intros Hnd Hx Hy Hf; [by apply elem_of_nil in Hx|].
  rewrite fmap_cons in Hnd. apply NoDup_cons in Hnd as [Ha Hnd].
  apply elem_of_cons in Hx as [-> | Hx]; apply elem_of_cons in Hy as [-> | Hy].
  - done.
  - exfalso. apply Ha. rewrite Hf. apply list_elem_of_fmap. by exists y.
  - exfalso. apply Ha. rewrite <- Hf. apply list_elem_of_fmap. by exists x.
  - by apply IH.
Qed.

Lemma elem_of_tail_app {A : Type} (x : A) (l k : list A) :
  l ≠ [] → x ∈ tail (l ++ x :: k).
Proof.
  destruct l as [|a l]; [done|]. intros _. simpl.
  apply elem_of_app. right. by left.
Qed.

Lemma elem_of_tail {A : Type} (x : A) (l : list A) : x ∈ tail l → x ∈ l.
Proof. destruct l; [done|]. simpl. by right. Qed.

Lemma elem_of_concat {A : Type} (x : A) (ls : list (list A)) :
  x ∈ concat ls ↔ ∃ l, x ∈ l ∧ l ∈ ls.
Proof.
  induction ls as [|l ls IH]; simpl.
  - split; [by intros ?%elem_of_nil | by intros (l & _ & ?%elem_of_nil)].
  - rewrite elem_of_app, IH. split.
    + intros [Hx | (l' & Hx & Hl')]; [exists l | exists l']; split; try done.
      * by left.
      * by right.
    + intros (l' & Hx & [-> | Hl']%elem_of_cons); [by left|].
      right. by exists l'.
Qed.

(** The row identifiers to delete so that one row of each group stays. *)
Lemma later_duplicates_spec columns rows row_id :
  row_id ∈ concat (tail <$> identify_duplicates rows columns)
  ↔ ∃ first, first ∈ first_seen columns [] rows
             ∧ row_id ∈ tail (same_key_ids columns rows first).
Proof.
  rewrite duplicates_are_groups. unfold duplicate_groups_of.
  rewrite elem_of_concat. split.
  - intros (ids & Hid & Hids).
    apply list_elem_of_fmap in Hids as (group & -> & Hgroup).
    apply list_elem_of_filter in Hgroup as [_ Hgroup].
    apply list_elem_of_fmap in Hgroup as (first & -> & Hfirst).
    by exists first.
  - intros (first & Hfirst & Hid).
    exists (tail (same_key_ids columns rows first)). split; [done|].
    apply list_elem_of_fmap. exists (same_key_ids columns rows first).
    split; [done|]. apply list_elem_of_filter. split.
    + destruct (same_key_ids columns rows first) as [|a [|b l]]; simpl in *;
        [by apply elem_of_nil in Hid | by apply elem_of_nil in Hid | lia].
    + apply list_elem_of_fmap. by exists first.
Qed.

(** A row is among those to delete exactly when an earlier row has its key. *)
Lemma later_duplicate_iff columns earlier row rest :
  NoDup (rowId <$> earlier ++ row :: rest) →
  rowId row ∈ concat (tail <$> identify_duplicates (earlier ++ row :: rest) columns)
  ↔ Exists (λ r, key_eqb (row_key columns r) (row_key columns row) = true) earlier.
Proof.
  intros Hnd. set (all := earlier ++ row :: rest) in *.
  assert (row ∈ all) as Hrow by (apply elem_of_app; right; by left).
  destruct (first_seen_facts columns all) as (Hsub & Hcov & _).
  rewrite later_duplicates_spec, Exists_exists. split.
  - intros (first & Hfirst & Hid).
    assert (key_eqb (row_key columns first) (row_key columns row) = true) as Hfr.
    { apply elem_of_tail in Hid. unfold same_key_ids in Hid.
      apply list_elem_of_fmap in Hid as (r2 & Heq & Hr2).
      apply list_elem_of_filter in Hr2 as [Hsame Hr2].
      by rewrite (fmap_inj_on_NoDup rowId all row r2 Hnd Hrow Hr2 Heq). }
    destruct (decide (Exists (λ r, key_eqb (row_key columns r) (row_key columns row)
                                  = true) earlier)) as [Hex | Hnone].
    { by apply Exists_exists in Hex. }
    exfalso.
    unfold same_key_ids, all in Hid.
    rewrite filter_app, filter_cons, decide_True in Hid by done.
    rewrite filter_none in Hid.
    2:{ intros e He Hfe. apply Hnone, Exists_exists. exists e. split; [done|].
        apply key_eqb_trans with (row_key columns first); [|done].
        by rewrite key_eqb_sym. }
    simpl in Hid.
    apply list_elem_of_fmap in Hid as (r3 & Heq & Hr3).
    apply list_elem_of_filter in Hr3 as [_ Hr3].
    unfold all in Hnd. rewrite fmap_app, fmap_cons in Hnd.
    apply NoDup_app in Hnd as (_ & _ & Hnd).
    apply NoDup_cons in Hnd as [Hnotin _].
    apply Hnotin. rewrite Heq. apply list_elem_of_fmap. by exists r3.
  - intros (e & He & Her).
    assert (e ∈ all) as Heall by (apply elem_of_app; by left).
    apply Hcov, Exists_exists in Heall as (first & Hfirst & Hfe).
    exists first. split; [done|].
    assert (key_eqb (row_key columns first) (row_key columns row) = true) as Hfr
      by (by apply key_eqb_trans with (row_key columns e)).
    unfold same_key_ids, all.
    rewrite filter_app, filter_cons, decide_True by done.
    rewrite fmap_app, fmap_cons.
    apply elem_of_tail_app.
    intros Hnil. apply fmap_nil_inv in Hnil.
    assert (e ∈ filter (λ r, key_eqb (row_key columns first) (row_key columns r)
                             = true) earlier) as Hin
      by (by apply list_elem_of_filter).
    rewrite Hnil in Hin. by apply elem_of_nil in Hin.
Qed.

Lemma keep_first_seen columns earlier rest :
  NoDup (rowId <$> earlier ++ rest) →
  filter
    (λ row, rowId row
            ∉ concat (tail <$> identify_duplicates (earlier ++ rest) columns))
    rest
  = first_seen columns earlier rest.
Proof.
  revert earlier. induction rest as [|row rest IH]; intros earlier Hnd; [done|].
  pose proof (later_duplicate_iff columns earlier row rest Hnd) as Hiff.
  assert (earlier ++ row :: rest = (earlier ++ [row]) ++ rest) as Hsplit
    by (by rewrite <- app_assoc).
  rewrite filter_cons. simpl.
  case_decide as Hkeep; case_bool_decide as Hex.
  - exfalso. by apply Hkeep, Hiff.
  - f_equal. rewrite Hsplit. apply IH. by rewrite <- Hsplit.
  - rewrite Hsplit. apply IH. by rewrite <- Hsplit.
  - exfalso. by apply Hex, Hiff.
Qed.

Lemma distinct_keys_imap columns (f : nat → Row → Row) rows :
  (∀ i row, row_key columns (f i row) = row_key columns row) →
  distinct_keys columns rows → distinct_keys columns (imap f rows).
Proof.
  revert f. induction rows as [|row rows IH]; intros f Hf; [done|].
  rewrite imap_cons. intros [Hrow Hrows]. split.
  - intros f' Hf'. apply elem_of_lookup_imap in Hf' as (i & x & -> & Hx).
    rewrite Hf. unfold compose. rewrite Hf.
    apply Hrow. by eapply list_elem_of_lookup_2.
  - apply IH; [|done]. intros i r. apply Hf.
Qed.

Lemma remove_later_duplicates_none session columns :
  NoDup (rowId <$> rows session) →
  identify_duplicates
    (remove_rows session
       (concat (tail <$> identify_duplicates (rows session) columns))).2
    columns
  = [].
Proof.
  intros Hnd. apply no_duplicates_distinct_keys.
  rewrite remove_rows_result.
  apply distinct_keys_imap; [done|].
  pose proof (keep_first_seen columns [] (rows session) Hnd) as Hkeep.
  simpl in Hkeep. rewrite Hkeep.
  by destruct (first_seen_facts columns (rows session)) as (_ & _ & Hdist).
Qed.

(** ** Normalization of strings *)

Lemma lower_char_idem c : PyStr.lower_char (PyStr.lower_char c) = PyStr.lower_char c.
Proof. destruct c as [[] [] [] [] [] [] [] []]; by vm_compute. Qed.

Lemma isspace_lower_char c : PyStr.isspace (PyStr.lower_char c) = PyStr.isspace c.
Proof. destruct c as [[] [] [] [] [] [] [] []]; by vm_compute. Qed.

Lemma lower_idem s : PyStr.lower (PyStr.lower s) = PyStr.lower s.
Proof. induction s as [|c s IH]; simpl; [done|]. by rewrite lower_char_idem, IH. Qed.

Lemma is_empty_lower s : PyStr.is_empty (PyStr.lower s) = PyStr.is_empty s.
Proof. by destruct s. Qed.

Lemma lstrip_lower s : PyStr.lstrip (PyStr.lower s) = PyStr.lower (PyStr.lstrip s).
Proof.
  induction s as [|c s IH]; simpl; [done|].
  rewrite isspace_lower_char. by destruct (PyStr.isspace c).
Qed.

Lemma rstrip_lower s : PyStr.rstrip (PyStr.lower s) = PyStr.lower (PyStr.rstrip s).
Proof.
  induction s as [|c s IH]; simpl; [done|].
  rewrite isspace_lower_char, IH, is_empty_lower.
  by destruct (PyStr.isspace c && PyStr.is_empty (PyStr.rstrip s)).
Qed.

Lemma strip_lower s : PyStr.strip (PyStr.lower s) = PyStr.lower (PyStr.strip s).
Proof. unfold PyStr.strip. by rewrite lstrip_lower, rstrip_lower. Qed.

Lemma rstrip_idem s : PyStr.rstrip (PyStr.rstrip s) = PyStr.rstrip s.
Proof.
  induction s as [|c s IH]; simpl; [done|].
  destruct (PyStr.isspace c && PyStr.is_empty (PyStr.rstrip s)) eqn:Hc; [done|].
  simpl. by rewrite IH, Hc.
Qed.

Lemma lstrip_head s :
  PyStr.lstrip s = EmptyString
  ∨ ∃ c s', PyStr.lstrip s = String c s' ∧ PyStr.isspace c = false.
Proof.
  induction s as [|c s IH]; simpl; [by left|].
  destruct (PyStr.isspace c) eqn:Hc; [done|]. right. by exists c, s.
Qed.

Lemma strip_idem s : PyStr.strip (PyStr.strip s) = PyStr.strip s.
Proof.
  unfold PyStr.strip.
  destruct (lstrip_head s) as [-> | (c & s' & -> & Hc)]; [done|].
  simpl. rewrite Hc. simpl. rewrite Hc. simpl. by rewrite rstrip_idem, Hc.
Qed.

Lemma coerce_duplicate_value_idem v :
  _coerce_duplicate_value (_coerce_duplicate_value v) = _coerce_duplicate_value v.
Proof.
  destruct v as [| b | n | f | s | t]; simpl; try done.
  - destruct f; by simpl.
  - by rewrite strip_lower, strip_idem, lower_idem.
Qed.

Lemma row_key_coerced columns row_id (cells : gmap string value) :
  row_key columns {| rowId := row_id; values := _coerce_duplicate_value <$> cells |}
  = row_key columns {| rowId := row_id; values := cells |}.
Proof.
  unfold row_key. apply list_fmap_ext. intros i c _. unfold cell. simpl.
  rewrite lookup_fmap. destruct (cells !! c) as [v|]; simpl; [|done].
  apply coerce_duplicate_value_idem.
Qed.

Lemma max_from_ext {A : Type} (key key' : A → Z * Z) (best : A) (l : list A) :
  key best = key' best → (∀ x, x ∈ l → key x = key' x) →
  max_from key best l = max_from key' best l.
Proof.
  revert best. induction l as [|x l IH]; intros best Hbest Hl; simpl; [done|].
  rewrite <- Hbest, <- (Hl x) by (by left).
  destruct (pair_ltb (key best) (key x)); apply IH; auto.
  - apply Hl. by left.
  - intros y Hy. apply Hl. by right.
  - intros y Hy. apply Hl. by right.
Qed.

Lemma odict_get_Some_keys {V : Type} (d : odict V) (k : string) :
  is_Some (odict_get d k) ↔ k ∈ odict_keys d.
Proof.
  induction d as [|[k0 v0] d IH]; simpl.
  - split; [by intros [? ?] | by intros ?%elem_of_nil].
  - destruct (String.eqb_spec k0 k) as [-> | Hne].
    + split; [intros _; by left | by eexists].
    + rewrite IH. split; [by right|].
      intros [-> | Hk]%elem_of_cons; done.
Qed.

Lemma odict_get_elem_of {V : Type} (d : odict V) (k : string) (v : V) :
  NoDup (odict_keys d) → (k, v) ∈ d → odict_get d k = Some v.
Proof.
  induction d as [|[k0 v0] d IH]; simpl; [by intros _ ?%elem_of_nil|].
  intros [Hk0 Hnd]%NoDup_cons [[= -> ->] | Hin]%elem_of_cons.
  - by rewrite String.eqb_refl.
  - destruct (String.eqb_spec k0 k) as [-> | _]; [|by apply IH].
    exfalso. apply Hk0. apply list_elem_of_fmap. by exists (k, v).
Qed.

Lemma odict_fold_set_keys_NoDup {A : Type} (key_of val_of : A → string)
    (items : list A) :
  NoDup (odict_keys (fold_left (λ d x, odict_set d (key_of x) (val_of x)) items [])).
Proof.
  by destruct (odict_fold_set_keys key_of val_of val_of items [] [] eq_refl
                 NoDup_nil_2) as [_ ?].
Qed.

Lemma last_filter_eq {A : Type} `{EqDecision A} (x : A) (l : list A) :
  last (filter (λ y, y = x) l) = if bool_decide (x ∈ l) then Some x else None.
Proof.
  case_bool_decide as Hx.
  - destruct (last (filter (λ y, y = x) l)) as [y|] eqn:Hlast.
    + by apply last_Some_elem_of, list_elem_of_filter in Hlast as [-> _].
    + apply last_None in Hlast.
      assert (x ∈ filter (λ y, y = x) l) as Hin by (by apply list_elem_of_filter).
      rewrite Hlast in Hin. by apply elem_of_nil in Hin.
  - rewrite filter_none; [done|]. by intros y Hy ->.
Qed.

(** ** More on the classifier and the validator *)

Section Classifier.

Variable float_parses : string → bool.
Variable to_datetime_ok : string → bool.
Variable repr_float : spec_float → string.
Variable str_timestamp : Z → string.

Local Abbreviation is_valid := (_is_valid float_parses to_datetime_ok).
Local Abbreviation run_validate_rows :=
  (validate_rows float_parses to_datetime_ok repr_float str_timestamp).
Local Abbreviation classify := (detect_column_type float_parses to_datetime_ok).
Local Abbreviation tag_of := (most_specific float_parses to_datetime_ok).
Local Abbreviation count_of := (tag_count float_parses to_datetime_ok).
Local Abbreviation accepted := (accepts float_parses to_datetime_ok).
Local Abbreviation errors_of :=
  (cell_errors float_parses to_datetime_ok repr_float str_timestamp).
Local Abbreviation types_of := (detect_types float_parses to_datetime_ok).

Lemma detect_column_type_counts vs vs' :
  (∀ t, t ∈ TYPE_PRIORITY → count_of t vs = count_of t vs') →
  classify vs = classify vs'.
Proof.
  intros Hcount. unfold detect_column_type.
  assert (∀ t, t ∈ TYPE_PRIORITY →
            column_scores float_parses to_datetime_ok vs !!! t
            = column_scores float_parses to_datetime_ok vs' !!! t) as Hscores.
  { intros t Ht. rewrite !column_scores_count by done. by apply Hcount. }
  assert (∀ t, t ∈ TYPE_PRIORITY →
            priority_key (column_scores float_parses to_datetime_ok vs) t
            = priority_key (column_scores float_parses to_datetime_ok vs') t) as Hkey.
  { intros t Ht. unfold priority_key. by rewrite Hscores. }
  unfold py_max, TYPE_PRIORITY in *.
  rewrite (max_from_ext _ (priority_key (column_scores float_parses to_datetime_ok vs'))).
  - rewrite Hscores; [done|].
    destruct (max_from_greatest
                (priority_key (column_scores float_parses to_datetime_ok vs'))
                "integer"%string ["float"; "boolean"; "date"; "string"]%string)
      as ([-> | Hin] & _); [by left | by right].
  - apply Hkey. by left.
  - intros t Ht. apply Hkey. by right.
Qed.

Lemma tag_count_positive t vs v :
  v ∈ vs → tag_of v = Some t → 0 < count_of t vs.
Proof.
  intros Hv Ht. unfold tag_count.
  assert (v ∈ filter (λ v, tag_of v = Some t) vs) as Hin
    by (by apply list_elem_of_filter).
  destruct (filter (λ v, tag_of v = Some t) vs); [by apply elem_of_nil in Hin|].
  simpl. lia.
Qed.

Lemma tag_count_zero t vs :
  (∀ v, v ∈ vs → tag_of v ≠ Some t) → count_of t vs = 0.
Proof. intros Hvs. unfold tag_count. by rewrite filter_none. Qed.

Lemma most_specific_allowed v t : tag_of v = Some t → t ∈ TYPE_PRIORITY.
Proof.
  rewrite most_specific_chain. destruct (_is_null v); [done|].
  intros [= <-].
  destruct (_looks_like_int v); [by apply list_elem_of_lookup; exists 0%nat|].
  destruct (_looks_like_float float_parses v);
    [by apply list_elem_of_lookup; exists 1%nat|].
  destruct (_looks_like_bool v); [by apply list_elem_of_lookup; exists 2%nat|].
  destruct (_looks_like_date to_datetime_ok v);
    [by apply list_elem_of_lookup; exists 3%nat|].
  by apply list_elem_of_lookup; exists 4%nat.
Qed.

Lemma most_specific_null v : tag_of v = None ↔ _is_null v = true.
Proof. rewrite most_specific_chain. by destruct (_is_null v). Qed.

Lemma plurality_wins vs t :
  t ∈ TYPE_PRIORITY →
  (∀ t', t' ∈ TYPE_PRIORITY → t' ≠ t → count_of t' vs < count_of t vs) →
  classify vs = t.
Proof.
  intros Ht Hmore.
  destruct (detect_column_type_best float_parses to_datetime_ok vs)
    as (Hin & _ & Hbest).
  cbv zeta in Hin, Hbest.
  destruct (decide (classify vs = t)) as [|Hne]; [done|]. exfalso.
  assert (∃ t0, t0 ∈ TYPE_PRIORITY ∧ count_of t0 vs ≠ 0) as Hsome.
  { exists t. split; [done|].
    pose proof (Hmore _ Hin Hne).
    pose proof (tag_count_nonneg float_parses to_datetime_ok (classify vs) vs). lia. }
  apply list_elem_of_lookup in Ht as [i Hi].
  destruct (Hbest Hsome i t Hi) as [Hle _].
  pose proof (Hmore _ Hin Hne). lia.
Qed.

(** The validator rejects a cell only for one of the four specific tags. *)
Lemma is_valid_false v t :
  is_valid v t = false
  ↔ _is_null v = false
    ∧ t ∈ ["integer"; "float"; "boolean"; "date"]%string
    ∧ accepted t v = false.
Proof.
  unfold _is_valid, in_ALLOWED_TYPES, accepts.
  destruct (_is_null v); [by split; [|intros [? _]]|].
  case_bool_decide as Ht.
  - unfold TYPE_PRIORITY in Ht.
    repeat (apply elem_of_cons in Ht as [-> | Ht];
            [simpl; split;
               [ intros H; repeat split; try done;
                 first [ by apply list_elem_of_lookup; exists 0%nat
                       | by apply list_elem_of_lookup; exists 1%nat
                       | by apply list_elem_of_lookup; exists 2%nat
                       | by apply list_elem_of_lookup; exists 3%nat ]
               | by intros (_ & H1 & H2);
                    try (repeat (apply elem_of_cons in H1 as [H1 | H1];
                                 [discriminate H1|]); by apply elem_of_nil in H1) ]
            |]).
    by apply elem_of_nil in Ht.
  - simpl. split; [done|]. intros (_ & Hin & _). exfalso. apply Ht.
    unfold TYPE_PRIORITY.
    repeat (apply elem_of_cons in Hin as [-> | Hin];
            [ first [ by apply list_elem_of_lookup; exists 0%nat
                    | by apply list_elem_of_lookup; exists 1%nat
                    | by apply list_elem_of_lookup; exists 2%nat
                    | by apply list_elem_of_lookup; exists 3%nat ] |]).
    by apply elem_of_nil in Hin.
Qed.

Lemma is_valid_own_tag v t : tag_of v = Some t → is_valid v t = true.
Proof.
  intros Htag. apply not_false_iff_true. intros (Hnull & Ht & Hacc)%is_valid_false.
  destruct (most_specific_first float_parses to_datetime_ok v Hnull)
    as (i & t' & Htag' & _ & Hok & _).
  rewrite Htag in Htag'. injection Htag' as <-. congruence.
Qed.

Lemma detect_types_lookup rows columns c :
  odict_get (types_of rows columns) c
  = if bool_decide (c ∈ columns) then Some (classify (flip cell c <$> rows))
    else None.
Proof.
  unfold detect_types.
  rewrite (odict_get_fold_set id (λ column, classify (flip cell column <$> rows))).
  unfold id. rewrite last_filter_eq. by case_bool_decide.
Qed.



(** X3: a tag carried by strictly more values than any other tag is the
    detected type, whatever the priorities; in particular a column whose
    non-null values all carry one tag, and which has such a value, is
    detected as that tag. *)
Theorem detect_column_type_plurality (vs : list value) (t : string) :
  (t ∈ TYPE_PRIORITY →
   (∀ t', t' ∈ TYPE_PRIORITY → t' ≠ t → count_of t' vs < count_of t vs) →
   classify vs = t)
  ∧ ((∀ v, v ∈ vs → tag_of v = None ∨ tag_of v = Some t) →
     (∃ v, v ∈ vs ∧ _is_null v = false) →
     classify vs = t).
Proof.
  split; [apply plurality_wins|].
  intros Hall (v & Hv & Hnull).
  assert (tag_of v = Some t) as Htag.
  { destruct (Hall v Hv) as [Hnone%most_specific_null | ?]; [congruence | done]. }
  apply plurality_wins; [by eapply most_specific_allowed|].
  intros t' _ Hne. rewrite (tag_count_zero t').
  - by eapply tag_count_positive.
  - intros w Hw Hw'. destruct (Hall w Hw); congruence.
Qed.

Lemma cell_errors_elem rows expected_types e :
  e ∈ errors_of rows expected_types
  ↔ ∃ row c t,
      row ∈ rows ∧ (c, t) ∈ expected_types
      ∧ e = cell_error repr_float str_timestamp row c t (cell row c)
      ∧ is_valid (cell row c) t = false.
Proof.
  unfold cell_errors. rewrite list_elem_of_bind. split.
  - intros (row & He & Hrow). apply list_elem_of_bind in He as ([c t] & He & Hct).
    simpl in He. destruct (is_valid (cell row c) t) eqn:Hv;
      [by apply elem_of_nil in He|].
    apply list_elem_of_singleton in He. by exists row, c, t.
  - intros (row & c & t & Hrow & Hct & -> & Hv). exists row. split; [|done].
    apply list_elem_of_bind. exists (c, t). split; [|done].
    simpl. rewrite Hv. by left.
Qed.

(** X4: the errors of the pipeline are exactly the cells of the given rows,
    under the columns of the expected-types map, whose value is not null,
    whose expected type is integer, float, boolean or date, and whose value
    the predicate of that type rejects; a null cell, a column expected to
    be "string" and a column with an unrecognized expected type never give
    an error.  Each error carries its row's rowId and the cell's value. *)
Theorem validate_rows_errors_exactly (rows : list Row)
    (expected_types : odict string) (e : CellError) :
  e ∈ (run_validate_rows rows expected_types).1
  ↔ ∃ row c t,
      row ∈ rows ∧ (c, t) ∈ expected_types
      ∧ e = cell_error repr_float str_timestamp row c t
              (default VNone (values row !! c))
      ∧ _is_null (default VNone (values row !! c)) = false
      ∧ t ∈ ["integer"; "float"; "boolean"; "date"]%string
      ∧ accepted t (default VNone (values row !! c)) = false.
Proof.
  rewrite validate_rows_errors, cell_errors_elem.
  split; intros (row & c & t & Hrow & Hct & He & Hv); exists row, c, t.
  - apply is_valid_false in Hv as (? & ? & ?). by repeat split.
  - repeat split; try done. by apply is_valid_false.
Qed.

(** X5: validated against the detected types of its own rows, a column
    whose non-null values all carry the same most specific tag has no
    error: no error of the result names that column. *)
Theorem uniform_column_has_no_errors (rows : list Row) (columns : list string)
    (c t : string) :
  (∀ row, row ∈ rows → tag_of (cell row c) = None ∨ tag_of (cell row c) = Some t) →
  Forall (λ e, err_column e ≠ c)
    (run_validate_rows rows (types_of rows columns)).1.
Proof.
  intros Hall. apply Forall_forall. intros e He Hc.
  rewrite validate_rows_errors in He.
  apply cell_errors_elem in He as (row & c' & t' & Hrow & Hct & -> & Hv).
  simpl in Hc. subst c'.
  assert (NoDup (odict_keys (types_of rows columns))) as Hnd
    by apply (odict_fold_set_keys_NoDup id).
  apply (odict_get_elem_of _ _ _ Hnd) in Hct.
  rewrite detect_types_lookup in Hct. case_bool_decide; [|done].
  injection Hct as <-.
  apply is_valid_false in Hv as Hv'. destruct Hv' as (Hnull & _ & _).
  assert (tag_of (cell row c) = Some t) as Htag.
  { destruct (Hall row Hrow) as [Hnone%most_specific_null | ?]; [congruence|done]. }
  assert (classify (flip cell c <$> rows) = t) as Hclassify.
  { apply plurality_wins; [by eapply most_specific_allowed|].
    intros t' _ Hne. rewrite (tag_count_zero t').
    - apply tag_count_positive with (cell row c); [|done].
      apply list_elem_of_fmap. by exists row.
    - intros w (r & -> & Hr)%list_elem_of_fmap Hw. unfold flip in Hw.
      destruct (Hall r Hr); congruence. }
  rewrite Hclassify, is_valid_own_tag in Hv; done.
Qed.

(** X6: the errors of a table are those of its rows taken one after the
    other: the errors of two row lists put together are the errors of the
    first followed by those of the second, so a row's errors do not depend
    on the other rows; and there are at most rows times columns of them. *)
Theorem validate_rows_errors_row_by_row (rows1 rows2 : list Row)
    (expected_types : odict string) :
  (run_validate_rows (rows1 ++ rows2) expected_types).1
  = (run_validate_rows rows1 expected_types).1
    ++ (run_validate_rows rows2 expected_types).1
  ∧ (length (run_validate_rows rows1 expected_types).1
     ≤ length rows1 * length expected_types)%nat.
Proof.
  rewrite !validate_rows_errors. unfold cell_errors. split.
  - by rewrite bind_app.
  - induction rows1 as [|row rows1 IH]; [done|].
    rewrite bind_cons, length_app. simpl.
    assert (length (expected_types ≫= λ item,
              if is_valid (cell row item.1) item.2 then []
              else [cell_error repr_float str_timestamp row item.1 item.2
                      (cell row item.1)])
            ≤ length expected_types)%nat as Hrow.
    { clear. induction expected_types as [|[c t] et IHet]; [done|].
      rewrite bind_cons, length_app. simpl.
      destruct (is_valid (cell row c) t); simpl; lia. }
    lia.
Qed.

End Classifier.

(** ** Properties of the duplicate detector *)

Lemma length_concat_groups (groups : list (list Z)) :
  Forall (λ group, (2 ≤ length group)%nat) groups →
  (2 * length groups ≤ length (concat groups))%nat.
Proof.
  induction 1 as [|group groups Hgroup _ IH]; simpl; [done|].
  rewrite length_app. lia.
Qed.

(** X7: the duplicate groups list every row at most once: taken together
    they hold each rowId no more often than the rows do, so with distinct
    rowIds no rowId is in two groups or twice in one; they hold at most as
    many identifiers as there are rows, and there are at most half as many
    groups as rows. *)
Theorem duplicate_groups_list_each_row_once (rows : list Row) (columns : list string) :
  concat (identify_duplicates rows columns) ⊆+ rowId <$> rows
  ∧ (NoDup (rowId <$> rows) → NoDup (concat (identify_duplicates rows columns)))
  ∧ (length (concat (identify_duplicates rows columns)) ≤ length rows)%nat
  ∧ (2 * length (identify_duplicates rows columns) ≤ length rows)%nat.
Proof.
  pose proof (identify_duplicates_submseteq rows columns) as Hsub.
  assert (length (concat (identify_duplicates rows columns)) ≤ length rows)%nat
    as Hlen.
  { apply submseteq_length in Hsub. by rewrite length_fmap in Hsub. }
  split; [done|]. split; [|split; [done|]].
  - intros Hnd. apply submseteq_Permutation in Hsub as [k Hk].
    rewrite Hk in Hnd. by apply NoDup_app in Hnd as (? & _).
  - etrans; [apply length_concat_groups|done].
    apply Forall_forall. intros group Hgroup. unfold identify_duplicates in Hgroup.
    by apply list_elem_of_filter in Hgroup as [? _].
Qed.

Lemma distinct_keys_lookup columns rows :
  distinct_keys columns rows
  ↔ ∀ i j r r', (i < j)%nat → rows !! i = Some r → rows !! j = Some r' →
                key_eqb (row_key columns r) (row_key columns r') ≠ true.
Proof.
  induction rows as [|a rows IH]; simpl.
  - split; [|done]. by intros _ i j r r' _ ?.
  - rewrite IH. split.
    + intros [Ha Hrows] i j r r' Hlt Hi Hj.
      destruct j as [|j]; [lia|]. simpl in Hj.
      destruct i as [|i]; simpl in Hi.
      * injection Hi as <-. apply Ha. by eapply list_elem_of_lookup_2.
      * apply (Hrows i j); [lia | done | done].
    + intros Hall. split.
      * intros f' (j & Hj)%list_elem_of_lookup.
        apply (Hall 0%nat (S j)); [lia | done | done].
      * intros i j r r' Hlt Hi Hj. apply (Hall (S i) (S j)); [lia | done | done].
Qed.

(** X8: the detector reports no group exactly when no two rows, at
    different positions, have equal keys. *)
Theorem no_duplicate_groups_iff_distinct_keys (rows : list Row)
    (columns : list string) :
  identify_duplicates rows columns = []
  ↔ ∀ i j r r', (i < j)%nat → rows !! i = Some r → rows !! j = Some r' →
                key_eqb (row_key columns r) (row_key columns r') ≠ true.
Proof. by rewrite no_duplicates_distinct_keys, distinct_keys_lookup. Qed.

(** X9: when the rowIds are distinct, deleting from every duplicate group
    all identifiers but the first leaves a table without duplicates: the
    remaining rows are, in order, the first row of each key, and the
    detector finds no group among them. *)
Theorem remove_later_duplicates_leaves_none (session : SessionData)
    (columns : list string) :
  NoDup (rowId <$> rows session) →
  let later := concat (tail <$> identify_duplicates (rows session) columns) in
  values <$> (remove_rows session later).2
  = values <$> first_seen columns [] (rows session)
  ∧ identify_duplicates (remove_rows session later).2 columns = [].
Proof.
  intros Hnd later. split; [|by apply remove_later_duplicates_none].
  rewrite remove_rows_result, fmap_imap.
  pose proof (keep_first_seen columns [] (rows session) Hnd) as Hkeep.
  simpl in Hkeep. unfold later. rewrite Hkeep. apply imap_const.
Qed.

Lemma seen_after_fmap columns (f : Row → Row) rows :
  (∀ r, rowId (f r) = rowId r) →
  (∀ r, row_key columns (f r) = row_key columns r) →
  seen_after columns (f <$> rows) = seen_after columns rows.
Proof.
  intros Hid Hkey. unfold seen_after. rewrite fold_left_fmap.
  apply fold_left_same. intros seen r. by rewrite Hid, Hkey.
Qed.

(** X10: duplicate detection looks at the listed columns only, and at
    strings without regard to letter case or surrounding white space:
    normalizing a value twice is normalizing it once, and rewriting the
    rows in a way that keeps each rowId and each listed cell's normalized
    value (lower-casing or trimming strings, changing other columns)
    leaves the groups as they were. *)
Theorem duplicate_detection_ignores_case_and_padding :
  (∀ v, _coerce_duplicate_value (_coerce_duplicate_value v)
        = _coerce_duplicate_value v)
  ∧ (∀ s, _coerce_duplicate_value (VStr (PyStr.lower s))
          = _coerce_duplicate_value (VStr s))
  ∧ (∀ s, _coerce_duplicate_value (VStr (PyStr.strip s))
          = _coerce_duplicate_value (VStr s))
  ∧ (∀ (f : Row → Row) rows columns,
       (∀ r, rowId (f r) = rowId r) →
       (∀ r c, c ∈ columns →
               _coerce_duplicate_value (cell (f r) c)
               = _coerce_duplicate_value (cell r c)) →
       identify_duplicates (f <$> rows) columns
       = identify_duplicates rows columns).
Proof.
  split; [apply coerce_duplicate_value_idem|]. split; [|split].
  - intros s. simpl. by rewrite strip_lower, lower_idem.
  - intros s. simpl. by rewrite strip_idem.
  - intros f rows columns Hid Hcells. unfold identify_duplicates.
    rewrite seen_after_fmap; [done | done |].
    intros r. unfold row_key. apply list_fmap_ext.
    intros i c Hc. apply Hcells. by eapply list_elem_of_lookup_2.
Qed.

(** ** Sessions *)

Lemma lower_tag t : t ∈ TYPE_PRIORITY → PyStr.lower t = t.
Proof.
  unfold TYPE_PRIORITY. intros Ht.
  repeat (apply elem_of_cons in Ht as [-> | Ht]; [done|]).
  by apply elem_of_nil in Ht.
Qed.

Lemma normalize_type_idem v : _normalize_type (_normalize_type v) = _normalize_type v.
Proof.
  destruct (_normalize_type v) as [t|] eqn:Hv; [|done].
  apply normalize_type_allowed in Hv as Ht. simpl.
  rewrite (lower_tag t Ht). unfold in_ALLOWED_TYPES.
  by rewrite bool_decide_eq_true_2.
Qed.

Lemma coerce_overrides_idem columns overrides :
  coerce_overrides columns (coerce_overrides columns overrides)
  = coerce_overrides columns overrides.
Proof.
  apply map_eq. intros c. rewrite !coerce_overrides_lookup.
  case_bool_decide; [|done].
  destruct (overrides !! c) as [v|]; simpl; [|done].
  by rewrite normalize_type_idem.
Qed.

Lemma odict_fold_set_keys_elem {A : Type} (key_of val_of : A → string)
    (items : list A) (k : string) :
  k ∈ odict_keys (fold_left (λ d x, odict_set d (key_of x) (val_of x)) items [])
  ↔ k ∈ key_of <$> items.
Proof.
  rewrite <- odict_get_Some_keys, odict_get_fold_set. split.
  - destruct (last (filter _ items)) as [x|] eqn:Hlast; [|by intros [? ?]].
    intros _. apply last_Some_elem_of, list_elem_of_filter in Hlast as [<- Hx].
    apply list_elem_of_fmap. by exists x.
  - intros (x & -> & Hx)%list_elem_of_fmap.
    destruct (last (filter (λ y, key_of y = key_of x) items)) eqn:Hlast;
      [by eexists|].
    apply last_None in Hlast.
    assert (x ∈ filter (λ y, key_of y = key_of x) items) as Hin
      by (by apply list_elem_of_filter).
    rewrite Hlast in Hin. by apply elem_of_nil in Hin.
Qed.

Section Sessions.

Variable float_parses : string → bool.
Variable to_datetime_ok : string → bool.
Variable repr_float : spec_float → string.
Variable str_timestamp : Z → string.

Local Abbreviation run_validate_rows :=
  (validate_rows float_parses to_datetime_ok repr_float str_timestamp).
Local Abbreviation run_revalidate :=
  (revalidate float_parses to_datetime_ok repr_float str_timestamp).
Local Abbreviation consistent :=
  (session_consistent float_parses to_datetime_ok repr_float str_timestamp).
Local Abbreviation types_of := (detect_types float_parses to_datetime_ok).

(** The effective types of a session that holds the column objects, the
    column names and the recorded types a revalidation left, under
    overrides that normalize like those of that revalidation. *)
Lemma expected_types_kept session new_rows new_overrides column_info_payload
    session' overrides' :
  let once :=
    (run_revalidate session new_rows new_overrides column_info_payload).1 in
  column_info session' = column_info once →
  columns session' = columns once →
  detected_types session' = detected_types once →
  coerce_overrides (columns once) overrides'
  = coerce_overrides (columns once) new_overrides →
  expected_types_of session' overrides' None
  = expected_types_of session new_overrides column_info_payload.
Proof.
  intros once Hci' Hcols' Hdt' Hov.
  destruct (revalidate_session float_parses to_datetime_ok repr_float
              str_timestamp session new_rows new_overrides column_info_payload)
    as (_ & Hcols & _ & Hdt & Hci & _).
  fold once in Hcols, Hdt, Hci.
  unfold expected_types_of in *.
  change (replace_columns session' None) with (column_info session', columns session').
  cbn [fst snd]. rewrite Hci', Hcols', Hdt', Hov, Hcols, Hci, fold_left_fmap.
  set (replaced := replace_columns session column_info_payload) in *.
  set (coerced := coerce_overrides replaced.2 new_overrides) in *.
  rewrite (fold_left_same _
             (λ d x, odict_set d (name x)
                (revalidate_column coerced (detected_types once)
                   (revalidate_column coerced (detected_types session) x).1).2)).
  2:{ intros d x. by rewrite revalidate_column_name. }
  apply odict_fold_set_ext. intros k x Hlast.
  apply revalidate_column_again. rewrite Hdt.
  exact (recorded_expected_type name
           (λ y, (revalidate_column coerced (detected_types session) y).2)
           _ k x Hlast).
Qed.

Lemma replace_columns_names session column_info_payload :
  columns session = name <$> column_info session →
  (replace_columns session column_info_payload).2
  = name <$> (replace_columns session column_info_payload).1.
Proof.
  intros Hs. by destruct column_info_payload as [[|p ps]|].
Qed.

Lemma replace_columns_payload_names session p ps :
  (replace_columns session (Some (p :: ps))).2
  = name <$> (replace_columns session (Some (p :: ps))).1.
Proof.
  rewrite replace_columns_payload. cbn [fst snd].
  rewrite <- list_fmap_compose. by apply list_fmap_ext.
Qed.

Lemma revalidate_consistent session new_rows new_overrides column_info_payload :
  columns session = name <$> column_info session
  ∨ (∃ p ps, column_info_payload = Some (p :: ps)) →
  consistent (run_revalidate session new_rows new_overrides column_info_payload).1.
Proof.
  intros Hnames.
  destruct (revalidate_session float_parses to_datetime_ok repr_float
              str_timestamp session new_rows new_overrides column_info_payload)
    as (Hrows & Hcols & Hov & Hdt & Hci & Herrs & Hgroups & _).
  set (once := (run_revalidate session new_rows new_overrides
                  column_info_payload).1) in *.
  split; [|split; [|split]].
  - rewrite Hcols, Hci, <- list_fmap_compose.
    rewrite (list_fmap_ext (name ∘ _) name).
    2:{ intros i x _. apply revalidate_column_name. }
    destruct Hnames as [Hs | (p & ps & ->)].
    + by apply replace_columns_names.
    + apply replace_columns_payload_names.
  - rewrite Hdt.
    apply (expected_types_kept session new_rows new_overrides column_info_payload);
      try done.
    fold once. rewrite Hov, Hcols. apply coerce_overrides_idem.
  - by rewrite Herrs, Hdt, Hrows.
  - by rewrite Hgroups, Hdt, Hrows.
Qed.

Lemma remove_rows_session session row_ids :
  let removed := (remove_rows session row_ids).1 in
  rows removed = (remove_rows session row_ids).2
  ∧ columns removed = columns session
  ∧ column_info removed = column_info session
  ∧ detected_types removed = detected_types session
  ∧ overrides removed = overrides session.
Proof. done. Qed.

Lemma expected_types_of_fields session session' overrides column_info_payload :
  column_info session' = column_info session →
  columns session' = columns session →
  detected_types session' = detected_types session →
  expected_types_of session' overrides column_info_payload
  = expected_types_of session overrides column_info_payload.
Proof.
  intros Hci Hcols Hdt. unfold expected_types_of.
  assert (replace_columns session' column_info_payload
          = replace_columns session column_info_payload) as ->.
  { unfold replace_columns. by rewrite Hci, Hcols, Hdt. }
  by rewrite Hdt.
Qed.

Lemma expected_types_of_empty_payload session overrides :
  expected_types_of session overrides (Some [])
  = expected_types_of session overrides None.
Proof. done. Qed.

(** X11: revalidation leaves a session that agrees with itself, whenever
    the request carries a column list or the session's column names were
    those of its column objects: afterwards the column names are those of
    the column objects, the recorded types are the effective types under
    the stored overrides, and the stored errors and duplicate groups are
    those of the stored rows against the recorded types. *)
Theorem revalidate_establishes_consistency (session : SessionData)
    (new_rows : list Row) (new_overrides : gmap string (option string))
    (column_info_payload : option (list ColumnInfo)) :
  columns session = name <$> column_info session
  ∨ (∃ p ps, column_info_payload = Some (p :: ps)) →
  consistent (run_revalidate session new_rows new_overrides column_info_payload).1.
Proof. apply revalidate_consistent. Qed.

Lemma consistent_error_columns session :
  consistent session →
  ∀ c, c ∈ odict_keys (detected_types session) ↔ c ∈ columns session.
Proof.
  intros (Hnames & Htypes & _) c. rewrite <- Htypes, Hnames.
  unfold expected_types_of.
  change (replace_columns session None) with (column_info session, columns session).
  cbn [fst snd]. apply odict_fold_set_keys_elem.
Qed.

(** X12: in a session that agrees with itself, every error names a rowId
    of a stored row and a column of the session, its expected type is the
    type recorded for that column, and every rowId of a duplicate group is
    that of a stored row. *)
Theorem consistent_session_references (session : SessionData) :
  consistent session →
  Forall (λ e, (∃ row, row ∈ rows session ∧ rowId row = err_rowId e)
               ∧ err_column e ∈ columns session
               ∧ (err_column e, err_expectedType e) ∈ detected_types session)
    (errors session)
  ∧ Forall (Forall (λ row_id, ∃ row, row ∈ rows session ∧ rowId row = row_id))
      (duplicate_groups session).
Proof.
  intros Hs. pose proof Hs as (_ & _ & Herrs & Hgroups). split.
  - apply Forall_forall. intros e He.
    rewrite Herrs, validate_rows_errors in He.
    apply cell_errors_elem in He as (row & c & t & Hrow & Hct & -> & _).
    simpl. split; [by exists row|]. split; [|done].
    apply (consistent_error_columns session Hs).
    apply list_elem_of_fmap. by exists (c, t).
  - apply Forall_forall. intros group Hgroup. apply Forall_forall. intros row_id Hid.
    rewrite Hgroups, validate_rows_duplicates in Hgroup.
    by eapply identify_duplicates_ids.
Qed.

(** X13: revalidating a session that agrees with itself with its own rows
    and overrides, and no column list or an empty one, reports the errors,
    duplicate groups and types it already holds. *)
Theorem revalidate_same_request_changes_nothing (session : SessionData)
    (column_info_payload : option (list ColumnInfo)) :
  consistent session →
  column_info_payload = None ∨ column_info_payload = Some [] →
  let result :=
    run_revalidate session (rows session) (overrides session) column_info_payload in
  detected_types result.1 = detected_types session
  ∧ errors result.1 = errors session
  ∧ duplicate_groups result.1 = duplicate_groups session
  ∧ p_errors result.2 = errors session
  ∧ p_duplicateGroups result.2 = duplicate_groups session.
Proof.
  intros (_ & Htypes & Herrs & Hgroups) Hpayload result.
  destruct (revalidate_session float_parses to_datetime_ok repr_float
              str_timestamp session (rows session) (overrides session)
              column_info_payload)
    as (_ & _ & _ & Hdt & _ & Herrs' & Hgroups' & _ & _ & Hperrs & Hpgroups).
  fold result in Hdt, Herrs', Hgroups', Hperrs, Hpgroups.
  assert (expected_types_of session (overrides session) column_info_payload
          = detected_types session) as Heq.
  { by destruct Hpayload as [-> | ->]. }
  rewrite Heq in Hdt, Herrs', Hgroups'.
  by rewrite Hperrs, Hpgroups, Hdt, Herrs', Hgroups', Herrs, Hgroups.
Qed.

Lemma remove_rows_revalidate_facts (session : SessionData) (row_ids : list Z) :
  consistent session →
  let removed := remove_rows session row_ids in
  let result := (run_revalidate removed.1 removed.2 (overrides removed.1) None).1 in
  consistent result
  ∧ detected_types result = detected_types session
  ∧ columns result = columns session
  ∧ (NoDup (rowId <$> rows session) →
     row_ids = concat (tail <$> duplicate_groups session) →
     duplicate_groups result = []).
Proof.
  intros Hs removed result. pose proof Hs as (Hnames & Htypes & _ & Hgroups).
  destruct (revalidate_session float_parses to_datetime_ok repr_float
              str_timestamp removed.1 removed.2 (overrides removed.1) None)
    as (_ & Hcols & _ & Hdt & _ & _ & Hgroups' & _).
  fold result in Hcols, Hdt, Hgroups'.
  assert (expected_types_of removed.1 (overrides removed.1) None
          = detected_types session) as Heq.
  { rewrite <- Htypes. by apply expected_types_of_fields. }
  rewrite Heq in Hdt, Hgroups'.
  split; [|split; [done|split; [done|]]].
  - apply revalidate_consistent. by left.
  - intros Hnd Hids. rewrite Hgroups', validate_rows_duplicates.
    unfold removed. rewrite Hids, Hgroups, validate_rows_duplicates.
    by apply remove_later_duplicates_none.
Qed.

End Sessions.

(** ** The loader, the store and the request handlers *)

Section Handlers.

Variable float_parses : string → bool.
Variable to_datetime_ok : string → bool.
Variable repr_float : spec_float → string.
Variable str_timestamp : Z → string.
Variable isoformat : Z → string.
Variable pd_read_excel : string → option string → option DataFrame.
Variable excel_sheet_names : string → string + list string.

Local Abbreviation run_validate_rows :=
  (validate_rows float_parses to_datetime_ok repr_float str_timestamp).
Local Abbreviation run_revalidate :=
  (revalidate float_parses to_datetime_ok repr_float str_timestamp).
Local Abbreviation consistent :=
  (session_consistent float_parses to_datetime_ok repr_float str_timestamp).
Local Abbreviation all_consistent :=
  (store_consistent float_parses to_datetime_ok repr_float str_timestamp).
Local Abbreviation types_of := (detect_types float_parses to_datetime_ok).
Local Abbreviation classify := (detect_column_type float_parses to_datetime_ok).
Local Abbreviation table :=
  (parsed_table float_parses to_datetime_ok repr_float str_timestamp).
Local Abbreviation load :=
  (read_excel_into_rows repr_float str_timestamp isoformat pd_read_excel).
Local Abbreviation run_parse_sheet :=
  (parse_sheet float_parses to_datetime_ok repr_float str_timestamp isoformat
     pd_read_excel).
Local Abbreviation run_process_uploaded_file :=
  (process_uploaded_file float_parses to_datetime_ok repr_float str_timestamp
     isoformat pd_read_excel excel_sheet_names).
Local Abbreviation run_upload_excel :=
  (upload_excel float_parses to_datetime_ok repr_float str_timestamp
     isoformat pd_read_excel excel_sheet_names).
Local Abbreviation run_validate_excel :=
  (validate_excel float_parses to_datetime_ok repr_float str_timestamp).
Local Abbreviation run_remove_duplicates :=
  (remove_duplicates float_parses to_datetime_ok repr_float str_timestamp).
Local Abbreviation run_switch_sheet :=
  (switch_sheet float_parses to_datetime_ok repr_float str_timestamp isoformat
     pd_read_excel).

(** *** The loader *)

Lemma normalized_cell_loaded v :
  loaded_value (if isna v then VStr "" else _normalize_cell_value isoformat v).
Proof. destruct v as [| b | n | f | s | t]; simpl; try done. by destruct f. Qed.

Lemma normalized_row_fold columns cells (normalized : gmap string value) c v :
  fold_left
    (λ normalized item,
       <[item.1 := if isna item.2 then VStr ""
                   else _normalize_cell_value isoformat item.2]> normalized)
    (zip columns cells) normalized !! c = Some v →
  normalized !! c = Some v ∨ (loaded_value v ∧ c ∈ columns).
Proof.
  revert cells normalized.
  induction columns as [|c0 columns IH]; intros [|v0 cells] normalized; simpl;
    try by left.
  intros [Hc | [Hv Hc]]%IH.
  - destruct (decide (c0 = c)) as [-> | Hne].
    + rewrite lookup_insert_eq in Hc. injection Hc as <-. right.
      split; [apply normalized_cell_loaded | by left].
    + rewrite lookup_insert_ne in Hc by done. by left.
  - right. split; [done | by right].
Qed.

Lemma normalized_row_lookup columns cells c v :
  normalized_row isoformat columns cells !! c = Some v →
  loaded_value v ∧ c ∈ columns.
Proof.
  intros [Hc | ?]%normalized_row_fold; [|done]. by rewrite lookup_empty in Hc.
Qed.

Lemma normalized_row_covers columns cells c :
  (length columns ≤ length cells)%nat → c ∈ columns →
  is_Some (normalized_row isoformat columns cells !! c).
Proof.
  unfold normalized_row. generalize (∅ : gmap string value) as normalized.
  revert cells. induction columns as [|c0 columns IH];
    intros cells normalized Hlen Hc; [by apply elem_of_nil in Hc|].
  destruct cells as [|v0 cells]; simpl in Hlen; [lia|]. simpl.
  destruct (decide (c ∈ columns)) as [Hin | Hnotin].
  - apply IH; [lia | done].
  - apply elem_of_cons in Hc as [-> | Hc]; [|done].
    assert (∀ cells' (m : gmap string value), is_Some (m !! c0) →
              is_Some (fold_left
                (λ normalized item,
                   <[item.1 := if isna item.2 then VStr ""
                               else _normalize_cell_value isoformat item.2]>
                     normalized)
                (zip columns cells') m !! c0)) as Hkeep.
    { clear. induction columns as [|c1 columns IH]; intros [|v1 cells'] m Hm;
        simpl; try done.
      apply IH. destruct (decide (c1 = c0)) as [-> | Hne].
      - rewrite lookup_insert_eq. by eexists.
      - by rewrite lookup_insert_ne. }
    apply Hkeep. rewrite lookup_insert_eq. by eexists.
Qed.

(** X14: a table the loader returns has its rows numbered 0, 1, 2, ... in
    order, one row per row of the data frame, and the column names are the
    labels as strings; every stored cell value is a boolean, an integer, a
    float that is not NaN, or a string, never None or a timestamp, and it
    is stored under a column name; a row with a cell for every label has a
    value under every column name.  When the workbook cannot be read the
    loader fails with the message "Unable to read the uploaded Excel
    file.". *)
Theorem read_excel_into_rows_table (file_bytes : string)
    (sheet_name : option string) :
  match pd_read_excel file_bytes sheet_name with
  | None => load file_bytes sheet_name
            = inl "Unable to read the uploaded Excel file."%string
  | Some df =>
      ∃ rows columns,
        load file_bytes sheet_name = inr (rows, columns)
        ∧ columns = py_str repr_float str_timestamp <$> df_columns df
        ∧ length rows = length (df_cells df)
        ∧ rowId <$> rows = Z.of_nat <$> seq 0 (length rows)
        ∧ NoDup (rowId <$> rows)
        ∧ (∀ row c v, row ∈ rows → values row !! c = Some v →
                      loaded_value v ∧ c ∈ columns)
        ∧ (∀ i row cells c, rows !! i = Some row → df_cells df !! i = Some cells →
                            (length (df_columns df) ≤ length cells)%nat →
                            c ∈ columns → is_Some (values row !! c))
  end.
Proof.
  unfold read_excel_into_rows.
  destruct (pd_read_excel file_bytes sheet_name) as [df|]; [|done].
  eexists _, _. split; [done|]. split; [done|].
  assert (rowId <$> imap (λ idx cells,
            {| rowId := Z.of_nat idx;
               values := normalized_row isoformat
                           (py_str repr_float str_timestamp <$> df_columns df)
                           cells |}) (df_cells df)
          = Z.of_nat <$> seq 0 (length (df_cells df))) as Hids.
  { rewrite fmap_imap. apply (imap_seq_0 _ Z.of_nat). }
  rewrite length_imap. split; [done|]. split; [done|]. split; [|split].
  - rewrite Hids. apply NoDup_fmap; [apply Nat2Z.inj'|]. apply NoDup_seq.
  - intros row c v (i & cells & -> & _)%elem_of_lookup_imap Hv. simpl in Hv.
    by apply normalized_row_lookup in Hv.
  - intros i row cells c Hrow Hcells Hlen Hc.
    rewrite list_lookup_imap, Hcells in Hrow. injection Hrow as <-. simpl.
    apply normalized_row_covers; [|done]. by rewrite length_fmap.
Qed.

(** *** The initial build *)

Lemma parsed_table_fields rows columns :
  ps_rows (table rows columns) = rows
  ∧ ps_columns (table rows columns) = columns
  ∧ ps_detected_types (table rows columns) = types_of rows columns
  ∧ ps_column_info (table rows columns)
    = (λ column,
         {| name := column;
            detectedType := odict_get (types_of rows columns) column;
            overrideType := None;
            nullable := true |}) <$> columns
  ∧ ps_errors (table rows columns)
    = (run_validate_rows rows (types_of rows columns)).1
  ∧ ps_duplicate_groups (table rows columns)
    = (run_validate_rows rows (types_of rows columns)).2.
Proof. done. Qed.

Lemma classify_truthy vs : truthy (Some (classify vs)) = true.
Proof.
  apply allowed_type_truthy.
  by destruct (detect_column_type_best float_parses to_datetime_ok vs) as (? & _).
Qed.

Lemma py_or_str_truthy t s : truthy (Some t) = true → py_or_str (Some t) s = t.
Proof. by destruct t. Qed.

(** The effective types of a freshly parsed table without overrides are
    the detected types. *)
Lemma parsed_expected_types session table_rows table_columns :
  column_info session = ps_column_info (table table_rows table_columns) →
  columns session = table_columns →
  detected_types session = types_of table_rows table_columns →
  expected_types_of session ∅ None = types_of table_rows table_columns.
Proof.
  intros Hci Hcols Hdt. unfold expected_types_of.
  change (replace_columns session None) with (column_info session, columns session).
  cbn [fst snd]. rewrite Hci, Hcols, Hdt.
  destruct (parsed_table_fields table_rows table_columns) as (_ & _ & _ & -> & _).
  rewrite fold_left_fmap. cbn [name]. unfold detect_types at 3.
  apply (odict_fold_set_ext id). intros k c Hlast.
  apply last_Some_elem_of, list_elem_of_filter in Hlast as [_ Hc].
  rewrite revalidate_column_expected. cbn [name detectedType overrideType].
  rewrite coerce_overrides_lookup, lookup_empty.
  assert ((if bool_decide (c ∈ table_columns)
           then _normalize_type <$> (None : option (option string))
           else None) = None) as -> by (by case_bool_decide).
  rewrite detect_types_lookup, bool_decide_eq_true_2 by done.
  pose proof (classify_truthy (flip cell c <$> table_rows)) as Htruthy.
  change (py_or (py_or (default None None) None) ?x) with x.
  unfold py_or. rewrite Htruthy. by apply py_or_str_truthy.
Qed.

Lemma parsed_session_consistent session table_rows table_columns :
  rows session = table_rows →
  columns session = table_columns →
  detected_types session = types_of table_rows table_columns →
  column_info session = ps_column_info (table table_rows table_columns) →
  overrides session = ∅ →
  errors session = ps_errors (table table_rows table_columns) →
  duplicate_groups session = ps_duplicate_groups (table table_rows table_columns) →
  consistent session.
Proof.
  intros Hrows Hcols Hdt Hci Hov Herrs Hgroups.
  split; [|split; [|split]].
  - rewrite Hcols, Hci.
    destruct (parsed_table_fields table_rows table_columns) as (_ & _ & _ & -> & _).
    rewrite <- list_fmap_compose. by rewrite list_fmap_id.
  - rewrite Hov, Hdt. by apply parsed_expected_types.
  - by rewrite Herrs, Hrows, Hdt.
  - by rewrite Hgroups, Hrows, Hdt.
Qed.

(** X15: the session and the payload an upload builds agree with
    themselves: the column objects are the columns in order, each with its
    detected type, no override and nullable; there are no stored
    overrides; the session satisfies the session invariant, so that its
    effective types are the detected types; the payload carries the
    session's rows, errors and duplicate groups; the first sheet is the
    active one, "Sheet1" standing in for an empty list of sheet names; and
    a missing or empty file name becomes "uploaded.xlsx". *)
Theorem process_uploaded_file_builds_session (file_bytes : string)
    (filename : option string) (session : SessionData) (payload : Payload) :
  run_process_uploaded_file file_bytes filename = inr (session, payload) →
  consistent session
  ∧ overrides session = ∅
  ∧ column_info session
    = (λ column,
         {| name := column;
            detectedType :=
              Some (classify ((λ row, default VNone (values row !! column))
                                <$> rows session));
            overrideType := None;
            nullable := true |}) <$> columns session
  ∧ expected_types_of session ∅ None = detected_types session
  ∧ p_rows payload = rows session
  ∧ p_columns payload = column_info session
  ∧ p_errors payload = errors session
  ∧ p_duplicateGroups payload = duplicate_groups session
  ∧ head (sheet_names session) = Some (sheet_name session)
  ∧ workbook_bytes session = file_bytes
  ∧ original_filename session ≠ ""%string
  ∧ (filename = None ∨ filename = Some ""%string →
     original_filename session = "uploaded.xlsx"%string).
Proof.
  unfold process_uploaded_file.
  destruct (excel_sheet_names file_bytes) as [message | names]; [done|].
  unfold parse_sheet.
  destruct (read_excel_into_rows _ _ _ _ _ _) as [message | [table_rows table_columns]];
    [done|].
  intros [= <- <-]. cbn [rows columns detected_types column_info errors
    duplicate_groups overrides original_filename workbook_bytes sheet_name
    sheet_names p_rows p_columns p_errors p_duplicateGroups].
  destruct (parsed_table_fields table_rows table_columns)
    as (Hrows & Hcols & Hdt & Hci & Herrs & Hgroups).
  assert (consistent
            {| rows := ps_rows (table table_rows table_columns);
               columns := ps_columns (table table_rows table_columns);
               detected_types := ps_detected_types (table table_rows table_columns);
               column_info := ps_column_info (table table_rows table_columns);
               errors := ps_errors (table table_rows table_columns);
               duplicate_groups := ps_duplicate_groups (table table_rows table_columns);
               original_filename := py_or_str filename "uploaded.xlsx";
               overrides := ∅;
               workbook_bytes := file_bytes;
               sheet_name :=
                 default ""%string
                   (head match names with [] => ["Sheet1"%string] | _ => names end);
               sheet_names := match names with [] => ["Sheet1"%string] | _ => names end
            |}) as Hs.
  { by apply (parsed_session_consistent _ table_rows table_columns). }
  split; [done|]. split; [done|]. split.
  { apply list_fmap_ext. intros i c Hc. f_equal.
    rewrite detect_types_lookup, bool_decide_eq_true_2; [done|].
    by eapply list_elem_of_lookup_2. }
  split. { by destruct Hs as (_ & ? & _). }
  repeat (split; [done|]).
  split. { by destruct names. }
  split; [done|]. split.
  - by destruct filename as [[|c s]|].
  - by intros [-> | ->].
Qed.

(** *** The store *)

(** X16: the session store behaves as a map from identifiers to sessions:
    a created session is the one read back under its identifier; [update]
    fails exactly when the identifier is unknown, creates no session, and
    when it succeeds the new session is the one read back; neither
    operation touches the sessions under other identifiers. *)
Theorem session_store_laws (sessions : gmap string SessionData)
    (session_id : string) (session : SessionData) :
  SessionStore.get (SessionStore.create_session sessions session_id session).1
    session_id = Some session
  ∧ (SessionStore.create_session sessions session_id session).2 = session_id
  ∧ (∀ other, other ≠ session_id →
       SessionStore.get
         (SessionStore.create_session sessions session_id session).1 other
       = SessionStore.get sessions other)
  ∧ (SessionStore.update sessions session_id session = None
     ↔ SessionStore.get sessions session_id = None)
  ∧ (∀ sessions', SessionStore.update sessions session_id session = Some sessions' →
       SessionStore.get sessions' session_id = Some session
       ∧ dom sessions' = dom sessions
       ∧ ∀ other, other ≠ session_id →
           SessionStore.get sessions' other = SessionStore.get sessions other).
Proof.
  unfold SessionStore.get, SessionStore.create_session, SessionStore.update.
  simpl. split; [apply lookup_insert_eq|]. split; [done|]. split.
  { intros other Hne. by rewrite lookup_insert_ne. }
  split.
  { destruct (sessions !! session_id); split; done. }
  intros sessions'. destruct (sessions !! session_id) as [old|] eqn:Hold; [|done].
  intros [= <-]. split; [apply lookup_insert_eq|]. split.
  - apply dom_insert_lookup_L. by eexists.
  - intros other Hne. by rewrite lookup_insert_ne.
Qed.

(** *** The handlers *)

Lemma revalidate_payload session new_rows new_overrides column_info_payload :
  let result := run_revalidate session new_rows new_overrides column_info_payload in
  result.2
  = {| p_columns := column_info result.1;
       p_rows := new_rows;
       p_errors := errors result.1;
       p_duplicateGroups := duplicate_groups result.1;
       p_sheetName := sheet_name session;
       p_sheetNames := sheet_names session |}
  ∧ sheet_name result.1 = sheet_name session
  ∧ sheet_names result.1 = sheet_names session
  ∧ workbook_bytes result.1 = workbook_bytes session
  ∧ original_filename result.1 = original_filename session.
Proof.
  unfold revalidate.
  destruct (replace_columns session column_info_payload) as [ci0 cols0].
  rewrite revalidate_loop. unfold validate_rows. by cbn [fst snd app].
Qed.

Lemma validate_excel_known sessions sessionId session new_rows columnTypes
    new_columns :
  sessions !! sessionId = Some session →
  let result :=
    run_revalidate session new_rows (Some <$> columnTypes) (Some new_columns) in
  run_validate_excel sessions sessionId new_rows columnTypes new_columns
  = inr (<[sessionId := result.1]> sessions,
         {| r_payload := result.2; r_sessionId := sessionId |}).
Proof.
  intros Hs result. unfold validate_excel, SessionStore.get, SessionStore.update.
  rewrite Hs. fold result. by destruct result.
Qed.

Lemma remove_duplicates_known sessions sessionId session rowIds :
  sessions !! sessionId = Some session →
  let removed := remove_rows session rowIds in
  let result := run_revalidate removed.1 removed.2 (overrides removed.1) None in
  run_remove_duplicates sessions sessionId rowIds
  = inr (<[sessionId := result.1]> sessions,
         {| r_payload := result.2; r_sessionId := sessionId |}).
Proof.
  intros Hs removed result.
  unfold remove_duplicates, SessionStore.get, SessionStore.update.
  rewrite Hs. fold removed.
  rewrite (surjective_pairing removed). fold result. by destruct result.
Qed.

Lemma insert_consistent sessions sessionId session :
  all_consistent sessions → consistent session →
  all_consistent (<[sessionId := session]> sessions).
Proof.
  intros Hall Hs other s. destruct (decide (sessionId = other)) as [-> | Hne].
  - rewrite lookup_insert_eq. by intros [= <-].
  - rewrite lookup_insert_ne by done. apply Hall.
Qed.

Lemma insert_known_dom (sessions : gmap string SessionData) sessionId old session :
  sessions !! sessionId = Some old →
  dom (<[sessionId := session]> sessions) = dom sessions.
Proof.
  intros Hold. apply dom_insert_lookup_L. by eexists.
Qed.


(** X18: a duplicate-removal request on an unknown session fails with
    status 404; on a known session that satisfies the session invariant it
    stores, under the same identifier, a session that satisfies it too,
    with the same column names and recorded types, whose rows are numbered
    0, 1, 2, ...; no other session is touched.  When the rowIds of the
    session are distinct and the request lists, for every duplicate group
    of the session, all identifiers but the first, the answer and the
    stored session have no duplicate group. *)
Theorem remove_duplicates_serves_one_session (sessions : gmap string SessionData)
    (sessionId : string) (rowIds : list Z) :
  (sessions !! sessionId = None →
   run_remove_duplicates sessions sessionId rowIds
   = inl {| status_code := 404; detail := "Session not found" |})
  ∧ (∀ session, sessions !! sessionId = Some session → consistent session →
       ∃ session' payload,
         run_remove_duplicates sessions sessionId rowIds
         = inr (<[sessionId := session']> sessions,
                {| r_payload := payload; r_sessionId := sessionId |})
         ∧ consistent session'
         ∧ columns session' = columns session
         ∧ detected_types session' = detected_types session
         ∧ rowId <$> rows session' = Z.of_nat <$> seq 0 (length (rows session'))
         ∧ p_rows payload = rows session'
         ∧ p_errors payload = errors session'
         ∧ p_duplicateGroups payload = duplicate_groups session'
         ∧ dom (<[sessionId := session']> sessions) = dom sessions
         ∧ (NoDup (rowId <$> rows session) →
            rowIds = concat (tail <$> duplicate_groups session) →
            duplicate_groups session' = [])).
Proof.
  split.
  { intros Hs. unfold remove_duplicates, SessionStore.get. by rewrite Hs. }
  intros session Hs Hcons.
  pose proof (remove_duplicates_known sessions sessionId session rowIds Hs) as Hrun.
  cbv zeta in Hrun.
  destruct (remove_rows_revalidate_facts float_parses to_datetime_ok repr_float
              str_timestamp session rowIds Hcons)
    as (Hcons' & Hdt & Hcols & Hnone).
  set (removed := remove_rows session rowIds) in *.
  destruct (revalidate_session float_parses to_datetime_ok repr_float
              str_timestamp removed.1 removed.2 (overrides removed.1) None)
    as (Hrows & _ & _ & _ & _ & _ & _ & _ & Hpr & Hpe & Hpg).
  set (result := run_revalidate removed.1 removed.2 (overrides removed.1) None) in *.
  exists result.1, result.2.
  split; [done|]. split; [done|]. split; [done|]. split; [done|]. split.
  { rewrite Hrows. apply remove_rows_ids. }
  split; [by rewrite Hpr, Hrows|]. split; [done|]. split; [done|].
  split; [by eapply insert_known_dom | done].
Qed.

Lemma dense_ids_NoDup (table_rows : list Row) :
  rowId <$> table_rows = Z.of_nat <$> seq 0 (length table_rows) →
  NoDup (rowId <$> table_rows).
Proof.
  intros ->. apply NoDup_fmap; [apply Nat2Z.inj'|]. apply NoDup_seq.
Qed.

Lemma read_excel_into_rows_ids file_bytes sheet table_rows table_columns :
  load file_bytes sheet = inr (table_rows, table_columns) →
  rowId <$> table_rows = Z.of_nat <$> seq 0 (length table_rows).
Proof.
  unfold read_excel_into_rows.
  destruct (pd_read_excel file_bytes sheet) as [df|]; [|done].
  intros [= <- _]. rewrite length_imap, fmap_imap.
  apply (imap_seq_0 _ Z.of_nat).
Qed.

Lemma parse_sheet_result file_bytes sheet :
  match load file_bytes sheet with
  | inl message => run_parse_sheet file_bytes sheet = inl message
  | inr (table_rows, table_columns) =>
      run_parse_sheet file_bytes sheet = inr (table table_rows table_columns)
  end.
Proof.
  unfold parse_sheet.
  by destruct (read_excel_into_rows _ _ _ _ _ _) as [message | [r c]].
Qed.


Lemma uploaded_session_facts file_bytes filename session payload :
  run_process_uploaded_file file_bytes filename = inr (session, payload) →
  consistent session
  ∧ overrides session = ∅
  ∧ rowId <$> rows session = Z.of_nat <$> seq 0 (length (rows session))
  ∧ p_duplicateGroups payload = duplicate_groups session.
Proof.
  intros Hbuild. unfold process_uploaded_file in Hbuild.
  destruct (excel_sheet_names file_bytes) as [message | names]; [done|].
  pose proof (parse_sheet_result file_bytes
                (Some (default ""%string
                         (head match names with
                               | [] => ["Sheet1"%string]
                               | _ => names
                               end)))) as Hparse.
  destruct (load file_bytes _) as [message | [table_rows table_columns]] eqn:Hload.
  - by rewrite Hparse in Hbuild.
  - rewrite Hparse in Hbuild. injection Hbuild as <- <-.
    split; [|split; [done|split; [|done]]].
    + by apply (parsed_session_consistent _ table_rows table_columns).
    + by eapply read_excel_into_rows_ids.
Qed.

Lemma upload_excel_known sessions file_bytes filename session_id :
  match run_process_uploaded_file file_bytes filename with
  | inl message =>
      run_upload_excel sessions file_bytes filename session_id
      = inl {| status_code := 400; detail := message |}
  | inr (session, payload) =>
      run_upload_excel sessions file_bytes filename session_id
      = inr (<[session_id := session]> sessions,
             {| r_payload := payload; r_sessionId := session_id |})
      ∧ consistent session
      ∧ rowId <$> rows session = Z.of_nat <$> seq 0 (length (rows session))
      ∧ p_duplicateGroups payload = duplicate_groups session
  end.
Proof.
  unfold upload_excel.
  destruct (run_process_uploaded_file file_bytes filename)
    as [message | [session payload]] eqn:Hbuild; [done|].
  destruct (uploaded_session_facts _ _ _ _ Hbuild) as (? & _ & ? & ?).
  split; [done|]. split; [done|]. by split.
Qed.

(** X20: an upload that fails answers with status 400 and the message of
    the error; one that succeeds stores the session it built under the
    drawn identifier, which the answer carries, and touches no other
    session; the stored session has no overrides, rows numbered
    0, 1, 2, ..., and satisfies the session invariant, and a store whose
    sessions all satisfy it stays so. *)
Theorem upload_excel_creates_session (sessions : gmap string SessionData)
    (file_bytes : string) (filename : option string) (session_id : string) :
  match run_process_uploaded_file file_bytes filename with
  | inl message =>
      run_upload_excel sessions file_bytes filename session_id
      = inl {| status_code := 400; detail := message |}
  | inr (session, payload) =>
      run_upload_excel sessions file_bytes filename session_id
      = inr (<[session_id := session]> sessions,
             {| r_payload := payload; r_sessionId := session_id |})
      ∧ (∀ other, other ≠ session_id →
           <[session_id := session]> sessions !! other = sessions !! other)
      ∧ overrides session = ∅
      ∧ rowId <$> rows session = Z.of_nat <$> seq 0 (length (rows session))
      ∧ consistent session
      ∧ (all_consistent sessions →
         all_consistent (<[session_id := session]> sessions))
  end.
Proof.
  unfold upload_excel.
  destruct (run_process_uploaded_file file_bytes filename)
    as [message | [session payload]] eqn:Hbuild; [done|].
  split; [done|]. split.
  { intros other Hne. by rewrite lookup_insert_ne. }
  destruct (uploaded_session_facts _ _ _ _ Hbuild) as (Hcons & Hov & Hids & _).
  split; [done|]. split; [done|]. split; [done|].
  intros Hall. by apply insert_consistent.
Qed.

(** X21: after an upload, a duplicate-removal request that lists, for
    every duplicate group of the answer, all identifiers but the first,
    succeeds and leaves no duplicate group, with the column types the
    upload detected. *)
Theorem upload_then_remove_duplicates (sessions : gmap string SessionData)
    (file_bytes : string) (filename : option string) (session_id : string)
    (sessions1 : gmap string SessionData) (response1 : Response) :
  run_upload_excel sessions file_bytes filename session_id
  = inr (sessions1, response1) →
  ∃ session1 session2 payload2,
    sessions1 !! session_id = Some session1
    ∧ run_remove_duplicates sessions1 session_id
        (concat (tail <$> p_duplicateGroups (r_payload response1)))
      = inr (<[session_id := session2]> sessions1,
             {| r_payload := payload2; r_sessionId := session_id |})
    ∧ p_duplicateGroups payload2 = []
    ∧ duplicate_groups session2 = []
    ∧ detected_types session2 = detected_types session1
    ∧ consistent session2.
Proof.
  intros Hupload.
  pose proof (upload_excel_known sessions file_bytes filename session_id) as Hknown.
  destruct (run_process_uploaded_file file_bytes filename)
    as [message | [session payload]] eqn:Hbuild; [by rewrite Hknown in Hupload|].
  destruct Hknown as (Hrun & Hcons & Hids & Hgroups).
  rewrite Hrun in Hupload. injection Hupload as <- <-. cbn [r_payload].
  exists session.
  pose proof (remove_duplicates_known
                (<[session_id := session]> sessions) session_id session
                (concat (tail <$> p_duplicateGroups payload))
                (lookup_insert_eq _ _ _)) as Hremove.
  cbv zeta in Hremove.
  destruct (remove_rows_revalidate_facts float_parses to_datetime_ok repr_float
              str_timestamp session
              (concat (tail <$> p_duplicateGroups payload)) Hcons)
    as (Hcons' & Hdt & _ & Hnone).
  destruct (revalidate_session float_parses to_datetime_ok repr_float
              str_timestamp
              (remove_rows session (concat (tail <$> p_duplicateGroups payload))).1
              (remove_rows session (concat (tail <$> p_duplicateGroups payload))).2
              (overrides
                 (remove_rows session
                    (concat (tail <$> p_duplicateGroups payload))).1) None)
    as (_ & _ & _ & _ & _ & _ & _ & _ & _ & _ & Hpg).
  eexists _, _. split; [apply lookup_insert_eq|]. split; [exact Hremove|].
  assert (duplicate_groups
            (run_revalidate
               (remove_rows session (concat (tail <$> p_duplicateGroups payload))).1
               (remove_rows session (concat (tail <$> p_duplicateGroups payload))).2
               (overrides
                  (remove_rows session
                     (concat (tail <$> p_duplicateGroups payload))).1) None).1
          = []) as Hempty.
  { apply Hnone; [by apply dense_ids_NoDup | by rewrite Hgroups]. }
  split; [by rewrite Hpg|]. split; [done|]. split; [done|]. done.
Qed.

End Handlers.
(** ** Download names *)

Lemma has_dot_app s s' : has_dot (s ++ s')%string = has_dot s || has_dot s'.
Proof.
  induction s as [|c s IH]; simpl; [done|]. rewrite IH. by rewrite orb_assoc.
Qed.

Lemma split_dot_head_no_dot s : has_dot s = false → split_dot_head s = s.
Proof.
  induction s as [|c s IH]; simpl; [done|].
  intros [Hc Hs]%orb_false_iff. rewrite Hc. by rewrite IH.
Qed.

Lemma split_dot_head_app s s' :
  has_dot s = false → split_dot_head (s ++ String "." s')%string = s.
Proof.
  induction s as [|c s IH]; simpl; [done|].
  intros [Hc Hs]%orb_false_iff. rewrite Hc. by rewrite IH.
Qed.

Lemma rsplit_dot_head_no_dot s : has_dot s = false → rsplit_dot_head s = s.
Proof.
  induction s as [|c s IH]; simpl; [done|].
  intros [Hc Hs]%orb_false_iff. rewrite Hc. simpl. by rewrite IH.
Qed.

Lemma rsplit_dot_head_app s s' :
  has_dot s' = false → rsplit_dot_head (s ++ String "." s')%string = s.
Proof.
  intros Hs'. induction s as [|c s IH]; simpl.
  - by rewrite Hs'.
  - rewrite has_dot_app. simpl. rewrite orb_true_r, andb_false_r. by rewrite IH.
Qed.

Lemma split_dot_head_has_no_dot s : has_dot (split_dot_head s) = false.
Proof.
  induction s as [|c s IH]; simpl; [done|].
  destruct (Ascii.eqb c ".") eqn:Hc; simpl; [done|]. by rewrite Hc, IH.
Qed.

(** X22: the download names.  The report of a session is named after the
    session's file name with its last extension replaced by "_report.xlsx":
    a name without a full stop is kept whole, and only the text after the
    last full stop is dropped.  The export is named after the request's
    sessionId cut at its first full stop, followed by "_edited.xlsx", so
    the part before the suffix never holds a full stop; an identifier
    without a full stop is kept whole, and a missing or empty identifier
    gives "edited_edited.xlsx". *)
Theorem download_names :
  (∀ name, has_dot name = false →
     download_report_filename name = (name ++ "_report.xlsx")%string)
  ∧ (∀ stem ext, has_dot ext = false →
       download_report_filename (stem ++ String "." ext)%string
       = (stem ++ "_report.xlsx")%string)
  ∧ (∀ sessionId, ∃ stem,
       export_sheet_filename sessionId = (stem ++ "_edited.xlsx")%string
       ∧ has_dot stem = false)
  ∧ (∀ s, s ≠ ""%string → has_dot s = false →
       export_sheet_filename (Some s) = (s ++ "_edited.xlsx")%string)
  ∧ (∀ stem rest, has_dot stem = false →
       export_sheet_filename (Some (stem ++ String "." rest)%string)
       = (stem ++ "_edited.xlsx")%string)
  ∧ (∀ sessionId, sessionId = None ∨ sessionId = Some ""%string →
       export_sheet_filename sessionId = "edited_edited.xlsx"%string).
Proof.
  unfold download_report_filename, export_sheet_filename.
  split; [|split; [|split; [|split; [|split]]]].
  - intros name Hname. by rewrite rsplit_dot_head_no_dot.
  - intros stem ext Hext. by rewrite rsplit_dot_head_app.
  - intros sessionId. eexists. split; [done|]. apply split_dot_head_has_no_dot.
  - intros s Hne Hs. destruct s as [|c s]; [done|].
    change (py_or_str (Some (String c s)) "edited") with (String c s).
    by rewrite split_dot_head_no_dot.
  - intros stem rest Hstem.
    assert (py_or_str (Some (stem ++ String "." rest)%string) "edited"
            = (stem ++ String "." rest)%string) as ->.
    { by destruct stem. }
    by rewrite split_dot_head_app.
  - by intros sessionId [-> | ->].
Qed.
(** ** Instances of the further properties on the sample data *)


Lemma detect_column_type_plurality_witness :
  (∀ v, v ∈ [VInt 1; VNone; VInt 2] →
        most_specific no_parse no_parse v = None
        ∨ most_specific no_parse no_parse v = Some "integer"%string)
  ∧ (∃ v, v ∈ [VInt 1; VNone; VInt 2] ∧ _is_null v = false)
  ∧ detect_column_type no_parse no_parse [VInt 1; VNone; VInt 2]
    = "integer"%string.
Proof.
  assert (∀ v, v ∈ [VInt 1; VNone; VInt 2] →
               most_specific no_parse no_parse v = None
               ∨ most_specific no_parse no_parse v = Some "integer"%string)
    as Hall.
  { intros v Hv.
    repeat (apply elem_of_cons in Hv as [-> | Hv]);
      [right; reflexivity | left; reflexivity | right; reflexivity
      | by apply elem_of_nil in Hv]. }
  assert (∃ v, v ∈ [VInt 1; VNone; VInt 2] ∧ _is_null v = false) as Hsome.
  { exists (VInt 1). split; [by left | reflexivity]. }
  split; [exact Hall|]. split; [exact Hsome|].
  exact (proj2 (detect_column_type_plurality no_parse no_parse _ _) Hall Hsome).
Defined.

Lemma uniform_column_has_no_errors_witness :
  (∀ row, row ∈ scenario_E_rows →
          most_specific no_parse no_parse (cell row "A") = None
          ∨ most_specific no_parse no_parse (cell row "A") = Some "string"%string)
  ∧ Forall (λ e, err_column e ≠ "A"%string)
      (validate_rows no_parse no_parse sample_repr_float sample_str_timestamp
         scenario_E_rows
         (detect_types no_parse no_parse scenario_E_rows ["A"%string])).1.
Proof.
  assert (∀ row, row ∈ scenario_E_rows →
            most_specific no_parse no_parse (cell row "A") = None
            ∨ most_specific no_parse no_parse (cell row "A")
              = Some "string"%string) as Hall.
  { intros row Hrow. unfold scenario_E_rows in Hrow.
    repeat (apply elem_of_cons in Hrow as [-> | Hrow]);
      [right; vm_compute; reflexivity ..| by apply elem_of_nil in Hrow]. }
  split; [exact Hall|].
  exact (uniform_column_has_no_errors no_parse no_parse sample_repr_float
           sample_str_timestamp scenario_E_rows ["A"%string] "A"%string
           "string"%string Hall).
Defined.

Lemma duplicate_groups_list_each_row_once_witness :
  NoDup (rowId <$> scenario_B_rows)
  ∧ NoDup (concat (identify_duplicates scenario_B_rows ["A"; "B"]%string)).
Proof.
  assert (NoDup (rowId <$> scenario_B_rows)) as Hnd.
  { apply (bool_decide_unpack _). vm_compute. exact I. }
  split; [exact Hnd|].
  exact (proj1 (proj2 (duplicate_groups_list_each_row_once scenario_B_rows
                         ["A"; "B"]%string)) Hnd).
Defined.

Lemma remove_later_duplicates_leaves_none_witness :
  NoDup (rowId <$> rows (sample_session scenario_B_rows))
  ∧ identify_duplicates
      (remove_rows (sample_session scenario_B_rows)
         (concat (tail <$> identify_duplicates
                             (rows (sample_session scenario_B_rows))
                             ["A"; "B"]%string))).2
      ["A"; "B"]%string
    = [].
Proof.
  assert (NoDup (rowId <$> rows (sample_session scenario_B_rows))) as Hnd.
  { apply (bool_decide_unpack _). vm_compute. exact I. }
  split; [exact Hnd|].
  exact (proj2 (remove_later_duplicates_leaves_none
                  (sample_session scenario_B_rows) ["A"; "B"]%string Hnd)).
Defined.

Lemma duplicate_detection_ignores_case_and_padding_witness :
  (∀ r, rowId (lower_row r) = rowId r)
  ∧ (∀ r c, c ∈ ["A"%string] →
            _coerce_duplicate_value (cell (lower_row r) c)
            = _coerce_duplicate_value (cell r c))
  ∧ identify_duplicates (lower_row <$> scenario_E_rows) ["A"%string]
    = identify_duplicates scenario_E_rows ["A"%string].
Proof.
  assert (∀ r, rowId (lower_row r) = rowId r) as Hid by reflexivity.
  assert (∀ r c, c ∈ ["A"%string] →
                 _coerce_duplicate_value (cell (lower_row r) c)
                 = _coerce_duplicate_value (cell r c)) as Hcells.
  { intros r c _. unfold cell, lower_row. cbn [values].
    rewrite lookup_fmap. destruct (values r !! c) as [v|]; [|reflexivity].
    destruct v; try reflexivity.
    apply (proj1 (proj2 duplicate_detection_ignores_case_and_padding)). }
  split; [exact Hid|]. split; [exact Hcells|].
  exact (proj2 (proj2 (proj2 duplicate_detection_ignores_case_and_padding))
           lower_row scenario_E_rows ["A"%string] Hid Hcells).
Defined.

Lemma revalidate_establishes_consistency_witness :
  (columns (sample_session scenario_E_rows)
   = name <$> column_info (sample_session scenario_E_rows)
   ∨ ∃ p ps, @None (list ColumnInfo) = Some (p :: ps))
  ∧ session_consistent no_parse no_parse sample_repr_float sample_str_timestamp
      (revalidate no_parse no_parse sample_repr_float sample_str_timestamp
         (sample_session scenario_E_rows) scenario_E_rows sample_overrides
         None).1.
Proof.
  assert (columns (sample_session scenario_E_rows)
          = name <$> column_info (sample_session scenario_E_rows)
          ∨ ∃ p ps, @None (list ColumnInfo) = Some (p :: ps)) as Hnames.
  { left. reflexivity. }
  split; [exact Hnames|].
  exact (revalidate_establishes_consistency no_parse no_parse sample_repr_float
           sample_str_timestamp (sample_session scenario_E_rows)
           scenario_E_rows sample_overrides None Hnames).
Defined.

Lemma consistent_session_references_witness :
  session_consistent no_parse no_parse sample_repr_float sample_str_timestamp
    sample_revalidated
  ∧ length (errors sample_revalidated) = 3%nat
  ∧ Forall (λ e, err_column e ∈ columns sample_revalidated)
      (errors sample_revalidated).
Proof.
  assert (session_consistent no_parse no_parse sample_repr_float
            sample_str_timestamp sample_revalidated) as Hs.
  { split; [|split; [|split]]; vm_compute; reflexivity. }
  split; [exact Hs|]. split; [reflexivity|].
  eapply Forall_impl;
    [exact (proj1 (consistent_session_references no_parse no_parse
                     sample_repr_float sample_str_timestamp
                     sample_revalidated Hs))|].
  intros e He. exact (proj1 (proj2 He)).
Defined.

Lemma revalidate_same_request_changes_nothing_witness :
  session_consistent no_parse no_parse sample_repr_float sample_str_timestamp
    sample_revalidated
  ∧ (@None (list ColumnInfo) = None ∨ @None (list ColumnInfo) = Some [])
  ∧ errors
      (revalidate no_parse no_parse sample_repr_float sample_str_timestamp
         sample_revalidated (rows sample_revalidated)
         (overrides sample_revalidated) None).1
    = errors sample_revalidated.
Proof.
  assert (session_consistent no_parse no_parse sample_repr_float
            sample_str_timestamp sample_revalidated) as Hs.
  { split; [|split; [|split]]; vm_compute; reflexivity. }
  assert (@None (list ColumnInfo) = None ∨ @None (list ColumnInfo) = Some [])
    as Hpayload by (left; reflexivity).
  split; [exact Hs|]. split; [exact Hpayload|].
  exact (proj1 (proj2 (revalidate_same_request_changes_nothing no_parse no_parse
                         sample_repr_float sample_str_timestamp
                         sample_revalidated None Hs Hpayload))).
Defined.

Lemma read_excel_into_rows_table_witness :
  ∃ table_rows table_columns,
    read_excel_into_rows sample_repr_float sample_str_timestamp sample_isoformat
      sample_read_excel "book" (Some "Sheet1"%string)
    = inr (table_rows, table_columns)
    ∧ length table_rows = 3%nat
    ∧ NoDup (rowId <$> table_rows)
    ∧ (∀ row c v, row ∈ table_rows → values row !! c = Some v → v ≠ VNone).
Proof.
  pose proof (read_excel_into_rows_table sample_repr_float sample_str_timestamp
                sample_isoformat sample_read_excel "book"
                (Some "Sheet1"%string)) as Htable.
  change (sample_read_excel "book" (Some "Sheet1"%string))
    with (Some sample_frame) in Htable.
  destruct Htable
    as (table_rows & table_columns & Hload & _ & Hlen & _ & Hnd & Hcells & _).
  exists table_rows, table_columns.
  split; [exact Hload|]. split; [exact Hlen|]. split; [exact Hnd|].
  intros row c v Hrow Hv ->. exact (proj1 (Hcells row c VNone Hrow Hv)).
Defined.

Lemma process_uploaded_file_builds_session_witness :
  ∃ payload,
    process_uploaded_file no_parse no_parse sample_repr_float
      sample_str_timestamp sample_isoformat sample_read_excel
      sample_sheet_names "book" None
    = inr (sample_uploaded, payload)
    ∧ session_consistent no_parse no_parse sample_repr_float
        sample_str_timestamp sample_uploaded
    ∧ original_filename sample_uploaded = "uploaded.xlsx"%string.
Proof.
  assert (∃ payload,
            process_uploaded_file no_parse no_parse sample_repr_float
              sample_str_timestamp sample_isoformat sample_read_excel
              sample_sheet_names "book" None
            = inr (sample_uploaded, payload)) as [payload Hbuild].
  { eexists. vm_compute. reflexivity. }
  exists payload. split; [exact Hbuild|].
  pose proof (process_uploaded_file_builds_session no_parse no_parse
                sample_repr_float sample_str_timestamp sample_isoformat
                sample_read_excel sample_sheet_names "book" None
                sample_uploaded payload Hbuild) as Hfacts.
  split; [exact (proj1 Hfacts)|].
  apply Hfacts. left. reflexivity.
Defined.

Lemma session_store_laws_witness :
  ∃ sessions',
    SessionStore.update sample_store "s1" (sample_session []) = Some sessions'
    ∧ SessionStore.get sessions' "s1" = Some (sample_session [])
    ∧ dom sessions' = dom sample_store.
Proof.
  assert (∃ sessions',
            SessionStore.update sample_store "s1" (sample_session [])
            = Some sessions') as [sessions' Hupdate].
  { eexists. vm_compute. reflexivity. }
  exists sessions'. split; [exact Hupdate|].
  destruct (proj2 (proj2 (proj2 (proj2
              (session_store_laws sample_store "s1" (sample_session [])))))
              sessions' Hupdate) as (Hget & Hdom & _).
  split; [exact Hget | exact Hdom].
Defined.


Lemma remove_duplicates_serves_one_session_witness :
  sample_store !! "s1"%string = Some sample_uploaded
  ∧ session_consistent no_parse no_parse sample_repr_float sample_str_timestamp
      sample_uploaded
  ∧ NoDup (rowId <$> rows sample_uploaded)
  ∧ [1] = concat (tail <$> duplicate_groups sample_uploaded)
  ∧ ∃ session' payload,
      remove_duplicates no_parse no_parse sample_repr_float sample_str_timestamp
        sample_store "s1" [1]
      = inr (<["s1"%string := session']> sample_store,
             {| r_payload := payload; r_sessionId := "s1" |})
      ∧ duplicate_groups session' = []
      ∧ p_duplicateGroups payload = [].
Proof.
  assert (sample_store !! "s1"%string = Some sample_uploaded) as Hknown
    by (vm_compute; reflexivity).
  assert (session_consistent no_parse no_parse sample_repr_float
            sample_str_timestamp sample_uploaded) as Hs.
  { split; [|split; [|split]]; vm_compute; reflexivity. }
  assert (NoDup (rowId <$> rows sample_uploaded)) as Hnd.
  { apply (bool_decide_unpack _). vm_compute. exact I. }
  assert ([1] = concat (tail <$> duplicate_groups sample_uploaded)) as Hids.
  { vm_compute. reflexivity. }
  split; [exact Hknown|]. split; [exact Hs|]. split; [exact Hnd|].
  split; [exact Hids|].
  destruct (proj2 (remove_duplicates_serves_one_session no_parse no_parse
                     sample_repr_float sample_str_timestamp sample_store
                     "s1"%string [1]) sample_uploaded Hknown Hs)
    as (session' & payload & Hrun & _ & _ & _ & _ & _ & _ & Hpg & _ & Hnone).
  exists session', payload. split; [exact Hrun|].
  pose proof (Hnone Hnd Hids) as Hempty.
  split; [exact Hempty|]. rewrite Hpg. exact Hempty.
Defined.


Lemma upload_excel_creates_session_witness :
  ∃ session payload,
    upload_excel no_parse no_parse sample_repr_float sample_str_timestamp
      sample_isoformat sample_read_excel sample_sheet_names ∅ "book" None "s1"
    = inr (<["s1"%string := session]> ∅,
           {| r_payload := payload; r_sessionId := "s1" |})
    ∧ session_consistent no_parse no_parse sample_repr_float
        sample_str_timestamp session
    ∧ overrides session = ∅.
Proof.
  pose proof (upload_excel_creates_session no_parse no_parse sample_repr_float
                sample_str_timestamp sample_isoformat sample_read_excel
                sample_sheet_names ∅ "book" None "s1") as Hupload.
  destruct (process_uploaded_file no_parse no_parse sample_repr_float
              sample_str_timestamp sample_isoformat sample_read_excel
              sample_sheet_names "book" None)
    as [message | [session payload]] eqn:Hbuild.
  - exfalso. vm_compute in Hbuild. discriminate Hbuild.
  - destruct Hupload as (Hrun & _ & Hov & _ & Hcons & _).
    exists session, payload.
    split; [exact Hrun|]. split; [exact Hcons | exact Hov].
Defined.

Lemma upload_then_remove_duplicates_witness :
  ∃ sessions1 response1,
    upload_excel no_parse no_parse sample_repr_float sample_str_timestamp
      sample_isoformat sample_read_excel sample_sheet_names ∅ "book" None "s1"
    = inr (sessions1, response1)
    ∧ p_duplicateGroups (r_payload response1) = [[0; 1]]
    ∧ ∃ session2 payload2,
        remove_duplicates no_parse no_parse sample_repr_float
          sample_str_timestamp sessions1 "s1"
          (concat (tail <$> p_duplicateGroups (r_payload response1)))
        = inr (<["s1"%string := session2]> sessions1,
               {| r_payload := payload2; r_sessionId := "s1" |})
        ∧ p_duplicateGroups payload2 = [].
Proof.
  destruct (upload_excel no_parse no_parse sample_repr_float
              sample_str_timestamp sample_isoformat sample_read_excel
              sample_sheet_names ∅ "book" None "s1")
    as [failure | [sessions1 response1]] eqn:Hupload.
  - exfalso. vm_compute in Hupload. discriminate Hupload.
  - exists sessions1, response1. split; [reflexivity|].
    destruct (upload_then_remove_duplicates no_parse no_parse
                sample_repr_float sample_str_timestamp sample_isoformat
                sample_read_excel sample_sheet_names ∅ "book" None "s1"
                sessions1 response1 Hupload)
      as (session1 & session2 & payload2 & _ & Hrun & Hnone & _).
    split.
    + vm_compute in Hupload. injection Hupload as _ <-. reflexivity.
    + exists session2, payload2. split; [exact Hrun | exact Hnone].
Defined.

Lemma download_names_witness :
  has_dot "xlsx" = false
  ∧ has_dot "3f2a" = false
  ∧ download_report_filename "survey.v2.xlsx" = "survey.v2_report.xlsx"%string
  ∧ export_sheet_filename (Some "3f2a.tmp.1"%string)
    = "3f2a_edited.xlsx"%string.
Proof.
  assert (has_dot "xlsx" = false) as Hext by reflexivity.
  assert (has_dot "3f2a" = false) as Hstem by reflexivity.
  split; [exact Hext|]. split; [exact Hstem|]. split.
  - exact (proj1 (proj2 download_names) "survey.v2"%string "xlsx"%string Hext).
  - exact (proj1 (proj2 (proj2 (proj2 (proj2 download_names))))
             "3f2a"%string "tmp.1"%string Hstem).
Defined.
